(** * Course recommender of the ITMO master advisor

    A shallow embedding of [recommender/course_recommender.py]: the skill
    profile derived from a free-text background, the four weighted
    sub-scores, the ranker and the study-plan builder.

    Conventions of the embedding.
    - A Python [str] is a [string] holding the UTF-8 bytes of the text.
      UTF-8 is self-synchronising, so [needle in haystack] on code points
      and on the encoded bytes agree for well-formed text.
    - [str.lower] is a builtin of the interpreter, not code of the
      repository: it is an interface ([StrLower]) of which the definitions
      are clients.  [py_lower] is the instance used to run the code on
      ASCII and Cyrillic text.
    - A Python [float] is idealised as an exact rational ([Q]); a Python
      [int] is a [Z].
    - [CourseRecommendation] objects are mutated after they are stored in
      a list ([rec.priority = i + 1]), so they live in an explicit heap and
      lists hold references to them.
    - The catalog loader reads documents: a document is a JSON value
      ([json]) of any shape, and reading it may raise.  The [Course]
      instances it builds are dynamically typed ([CourseObject]); the
      record [Course] is the instance whose fields have the types the
      dataclass declares, on which scoring and ranking are defined.
    - The report ([format_recommendations]) prints scores with the
      interpreter's float formatting, an interface ([FormatPercent]) like
      [str.lower]; the calls of [get_course_recommendations] that leave
      the process (vector search, language model) are parameters. *)

From Stdlib Require Import ZArith QArith Qminmax Lia Lqa Ascii.
From Stdlib Require Import Permutation Sorted.
From Stdlib Require Import Floats.SpecFloat.
From stdpp Require Import base option list strings gmap pretty.

Local Open Scope Z_scope.

(** ** Strings *)

(** [sub in s] of Python: [sub] occurs in [s] as a contiguous run. *)
Fixpoint contains (sub s : string) : bool :=
  String.prefix sub s
  || match s with
     | EmptyString => false
     | String _ s' => contains sub s'
     end.

(** [any(word in s for word in words)]. *)
Definition any_in (words : list string) (s : string) : bool :=
  existsb (fun word => contains word s) words.

(** The interpreter's [str.lower]. *)
Class StrLower := lower : string -> string.

(** One UTF-8 unit of lower-casing: ASCII [A-Z] and the Cyrillic capitals
    U+0400..U+042F (lead byte 0xD0); every other byte is kept. *)
Definition is_upper_ascii (n : N) : bool := ((65 <=? n) && (n <=? 90))%N.

Fixpoint py_lower (s : string) : string :=
  match s with
  | EmptyString => EmptyString
  | String c s' =>
      let n := N_of_ascii c in
      if is_upper_ascii n then String (ascii_of_N (n + 32)) (py_lower s')
      else if (n =? 208)%N then
        match s' with
        | String d s'' =>
            let m := N_of_ascii d in
            if ((128 <=? m) && (m <=? 143))%N then
              String (ascii_of_N 209) (String (ascii_of_N (m + 16)) (py_lower s''))
            else if ((144 <=? m) && (m <=? 159))%N then
              String c (String (ascii_of_N (m + 32)) (py_lower s''))
            else if ((160 <=? m) && (m <=? 175))%N then
              String (ascii_of_N 209) (String (ascii_of_N (m - 32)) (py_lower s''))
            else String c (String d (py_lower s''))
        | EmptyString => String c EmptyString
        end
      else String c (py_lower s')
  end.

(** ** Skill levels and the skill profile *)

Inductive SkillLevel := NONE | BEGINNER | INTERMEDIATE | ADVANCED.

(** [SkillLevel.value]. *)
Definition value (l : SkillLevel) : string :=
  match l with
  | NONE => "none"
  | BEGINNER => "beginner"
  | INTERMEDIATE => "intermediate"
  | ADVANCED => "advanced"
  end.

Record UserSkills := mkUserSkills {
  python : SkillLevel;
  math : SkillLevel;
  statistics : SkillLevel;
  ml_basics : SkillLevel;
  deep_learning : SkillLevel;
  nlp : SkillLevel;
  computer_vision : SkillLevel;
  mlops : SkillLevel
}.

(** [cls()]: every field at its default. *)
Definition default_skills : UserSkills :=
  mkUserSkills NONE NONE NONE NONE NONE NONE NONE NONE.

Definition set_python (v : SkillLevel) (s : UserSkills) : UserSkills :=
  mkUserSkills v (math s) (statistics s) (ml_basics s) (deep_learning s)
    (nlp s) (computer_vision s) (mlops s).
Definition set_math (v : SkillLevel) (s : UserSkills) : UserSkills :=
  mkUserSkills (python s) v (statistics s) (ml_basics s) (deep_learning s)
    (nlp s) (computer_vision s) (mlops s).
Definition set_statistics (v : SkillLevel) (s : UserSkills) : UserSkills :=
  mkUserSkills (python s) (math s) v (ml_basics s) (deep_learning s)
    (nlp s) (computer_vision s) (mlops s).
Definition set_ml_basics (v : SkillLevel) (s : UserSkills) : UserSkills :=
  mkUserSkills (python s) (math s) (statistics s) v (deep_learning s)
    (nlp s) (computer_vision s) (mlops s).
Definition set_deep_learning (v : SkillLevel) (s : UserSkills) : UserSkills :=
  mkUserSkills (python s) (math s) (statistics s) (ml_basics s) v
    (nlp s) (computer_vision s) (mlops s).
Definition set_nlp (v : SkillLevel) (s : UserSkills) : UserSkills :=
  mkUserSkills (python s) (math s) (statistics s) (ml_basics s)
    (deep_learning s) v (computer_vision s) (mlops s).
Definition set_computer_vision (v : SkillLevel) (s : UserSkills) : UserSkills :=
  mkUserSkills (python s) (math s) (statistics s) (ml_basics s)
    (deep_learning s) (nlp s) v (mlops s).
Definition set_mlops (v : SkillLevel) (s : UserSkills) : UserSkills :=
  mkUserSkills (python s) (math s) (statistics s) (ml_basics s)
    (deep_learning s) (nlp s) (computer_vision s) v.

(** [if cond: skills = upd(skills)], one statement of [from_background]. *)
Definition when (cond : bool) (upd : UserSkills -> UserSkills)
    (s : UserSkills) : UserSkills :=
  if cond then upd s else s.

Section FromBackground.
Context `{StrLower}.

(** [UserSkills.from_background]: the statements in source order. *)
Definition from_background (background : string) : UserSkills :=
  let background_lower := lower background in
  let skills := default_skills in
  let skills :=
    when (any_in ["python"; "питон"; "программирован"] background_lower)
      (set_python INTERMEDIATE) skills in
  let skills :=
    when (contains "senior" background_lower
          || contains "lead" background_lower)
      (set_python ADVANCED) skills in
  let skills :=
    when (any_in ["математик"; "math"; "физик"; "мехмат"] background_lower)
      (fun s => set_statistics INTERMEDIATE (set_math ADVANCED s)) skills in
  let skills :=
    when (any_in ["ml"; "machine learning"; "машинн"] background_lower)
      (set_ml_basics INTERMEDIATE) skills in
  let skills :=
    when (any_in ["data scien"; "ds"; "аналитик данных"] background_lower)
      (fun s => set_statistics INTERMEDIATE (set_ml_basics INTERMEDIATE s))
      skills in
  let skills :=
    when (any_in ["deep learning"; "нейронн"; "pytorch"; "tensorflow"]
            background_lower)
      (set_deep_learning INTERMEDIATE) skills in
  let skills :=
    when (any_in ["nlp"; "нлп"; "обработка текст"; "natural language"]
            background_lower)
      (set_nlp INTERMEDIATE) skills in
  let skills :=
    when (any_in ["computer vision"; "cv"; "компьютерн зрен"; "opencv"]
            background_lower)
      (set_computer_vision INTERMEDIATE) skills in
  let skills :=
    when (any_in ["mlops"; "devops"; "docker"; "kubernetes"; "deploy"]
            background_lower)
      (set_mlops INTERMEDIATE) skills in
  skills.
End FromBackground.

(** ** Courses and recommendations *)

Record Course := mkCourse {
  name : string;
  program : string;
  semester : Z;
  course_type : string;
  credits : Z;
  description : string;
  prerequisites : list string;
  skills_gained : list string;
  difficulty : string
}.

Record CourseRecommendation := mkCourseRecommendation {
  course : Course;
  score : Q;
  reasoning : string;
  priority : Z
}.

(** ** Exceptions

    An exception is named by its class.  [KeyError], [TypeError] and
    [AttributeError] are raised by the modelled code itself; the others
    are what [open] and [json.load] raise for a path ([OSError] and
    [ValueError] stand for an instance of none of the listed
    subclasses). *)

Inductive exn :=
  | KeyError
  | TypeError
  | AttributeError
  | FileNotFoundError
  | PermissionError
  | IsADirectoryError
  | OSError
  | UnicodeDecodeError
  | JSONDecodeError
  | ValueError
  | RecursionError
  | MemoryError.

Inductive result (A : Type) :=
  | Ok (a : A)
  | Raise (e : exn).
Arguments Ok {A} a.
Arguments Raise {A} e.

#[export] Instance result_ret : MRet result := fun _ a => Ok a.
#[export] Instance result_bind : MBind result := fun _ _ f m =>
  match m with
  | Ok a => f a
  | Raise e => Raise e
  end.

(** ** JSON values

    What [json.load] returns: [None], a [bool], an [int], a [float], a
    [str], a [list], or a [dict] with [str] keys.  A [dict] is the list of
    its items in insertion order; its keys are distinct, and a lookup
    takes the first item of the key. *)

#[local] Set Warnings "-register-all".

Inductive json :=
  | JNull
  | JBool (b : bool)
  | JInt (n : Z)
  | JFloat (x : spec_float)
  | JString (s : string)
  | JArray (elements : list json)
  | JObject (items : list (string * json)).

Fixpoint dict_get (key : string) (items : list (string * json)) : option json :=
  match items with
  | [] => None
  | (k, v) :: rest => if String.eqb k key then Some v else dict_get key rest
  end.

(** [dict.get(key, default)] on the result of a lookup. *)
Definition get {A} (field : option A) (dflt : A) : A := default dflt field.

(** [v.get(key, default)]: only a [dict] has the method. *)
Definition py_get (v : json) (key : string) (dflt : json) : result json :=
  match v with
  | JObject items => Ok (get (dict_get key items) dflt)
  | _ => Raise AttributeError
  end.

(** [v[key]] for a [str] key: [KeyError] on a [dict] without the key,
    [TypeError] on a value of another type ([str] and [list] take integer
    indices, the others are not subscriptable). *)
Definition py_getitem (v : json) (key : string) : result json :=
  match v with
  | JObject items =>
      match dict_get key items with
      | Some x => Ok x
      | None => Raise KeyError
      end
  | _ => Raise TypeError
  end.

(** The characters of a [str]: a UTF-8 lead byte with the continuation
    bytes ([10xxxxxx]) that follow it. *)
Definition is_continuation (c : ascii) : bool :=
  match c with
  | Ascii _ _ _ _ _ _ false true => true
  | _ => false
  end.

Definition continues (s : string) : bool :=
  match s with
  | String c _ => is_continuation c
  | EmptyString => false
  end.

Fixpoint chars (s : string) : list string :=
  match s with
  | EmptyString => []
  | String c rest =>
      match chars rest with
      | g :: gs =>
          if continues g then String c g :: gs
          else String c EmptyString :: g :: gs
      | [] => [String c EmptyString]
      end
  end.

(** [for x in v]: the elements of a [list], the keys of a [dict], the
    characters of a [str]; [TypeError] on a value that is not iterable. *)
Definition py_iter (v : json) : result (list json) :=
  match v with
  | JArray elements => Ok elements
  | JObject items => Ok (JString <$> items.*1)
  | JString s => Ok (JString <$> chars s)
  | _ => Raise TypeError
  end.

(** ** Loading the catalog *)

(** A [Course] instance as the interpreter holds it.  The constructor
    checks no type: a field holds the value it was given, which for a
    loaded course is any JSON value.  [Course] above is the instance whose
    fields have the declared types. *)
Record CourseObject := mkCourseObject {
  obj_name : json;
  obj_program : json;
  obj_semester : json;
  obj_course_type : json;
  obj_credits : json;
  obj_description : json;
  obj_prerequisites : json;
  obj_skills_gained : json;
  obj_difficulty : json
}.

(** [Course.__post_init__]: [None] in one of the two list fields becomes
    the empty list. *)
Definition __post_init__ (self : CourseObject) : CourseObject :=
  let self :=
    match obj_prerequisites self with
    | JNull =>
        mkCourseObject (obj_name self) (obj_program self) (obj_semester self)
          (obj_course_type self) (obj_credits self) (obj_description self)
          (JArray []) (obj_skills_gained self) (obj_difficulty self)
    | _ => self
    end in
  match obj_skills_gained self with
  | JNull =>
      mkCourseObject (obj_name self) (obj_program self) (obj_semester self)
        (obj_course_type self) (obj_credits self) (obj_description self)
        (obj_prerequisites self) (JArray []) (obj_difficulty self)
  | _ => self
  end.

(** The instance of a course whose fields have the declared types. *)
Definition course_object (c : Course) : CourseObject :=
  mkCourseObject (JString (name c)) (JString (program c)) (JInt (semester c))
    (JString (course_type c)) (JInt (credits c)) (JString (description c))
    (JArray (JString <$> prerequisites c))
    (JArray (JString <$> skills_gained c)) (JString (difficulty c)).

Definition as_str (v : json) : option string :=
  match v with
  | JString s => Some s
  | _ => None
  end.

Definition as_int (v : json) : option Z :=
  match v with
  | JInt n => Some n
  | _ => None
  end.

Definition as_str_list (v : json) : option (list string) :=
  match v with
  | JArray elements => mapM as_str elements
  | _ => None
  end.

(** The course an instance is when its fields have the declared types
    ([str], [int], [List[str]]). *)
Definition as_course (o : CourseObject) : option Course :=
  n ← as_str (obj_name o);
  p ← as_str (obj_program o);
  s ← as_int (obj_semester o);
  t ← as_str (obj_course_type o);
  c ← as_int (obj_credits o);
  d ← as_str (obj_description o);
  pre ← as_str_list (obj_prerequisites o);
  sk ← as_str_list (obj_skills_gained o);
  dif ← as_str (obj_difficulty o);
  Some (mkCourse n p s t c d pre sk dif).

(** What [open] followed by [json.load] does for one path: it raises, or
    returns the value of the document. *)
Inductive FileRead :=
  | Failed (e : exn)
  | Loaded (data : json).

(** The [except] clauses of [_load_courses]. *)
Definition handled (e : exn) : bool :=
  match e with
  | FileNotFoundError | JSONDecodeError => true
  | _ => false
  end.

(** [settings.DATA_DIR] of [config.py]. *)
Definition DATA_DIR : string := "data".

(** The call [Course(name=course_data['name'], ...)]: the subscript raises
    on an entry that is not a [dict] or has no ["name"]; the difficulty is
    the default of the class. *)
Definition new_course (program_name course_data : json) : result CourseObject :=
  n ← py_getitem course_data "name";
  s ← py_get course_data "semester" (JInt 1);
  t ← py_get course_data "course_type" (JString "обязательная");
  c ← py_get course_data "credits" (JInt 3);
  d ← py_get course_data "description" (JString EmptyString);
  pre ← py_get course_data "prerequisites" (JArray []);
  sk ← py_get course_data "skills" (JArray []);
  Ok (__post_init__
        (mkCourseObject n program_name s t c d pre sk (JString "medium"))).

(** The body of [for course_data in data.get('courses', [])]. *)
Definition load_course (program_name : json) (courses : list CourseObject)
    (course_data : json) : result (list CourseObject) :=
  course ← new_course program_name course_data;
  Ok (courses ++ [course]).

Fixpoint load_course_list (program_name : json) (courses : list CourseObject)
    (l : list json) : result (list CourseObject) :=
  match l with
  | [] => Ok courses
  | course_data :: l' =>
      courses' ← load_course program_name courses course_data;
      load_course_list program_name courses' l'
  end.

(** The body of [for filename in ...].  The two handled exceptions leave
    [courses] as it was; every other exception, of the read or of the
    statements under [with], leaves the function. *)
Definition load_file (fs : string -> FileRead) (courses : list CourseObject)
    (filename : string) : result (list CourseObject) :=
  let filepath := DATA_DIR +:+ "/" +:+ filename in
  match fs filepath with
  | Failed e => if handled e then Ok courses else Raise e
  | Loaded data =>
      program_name ← py_get data "name" (JString "Unknown");
      course_list ← py_get data "courses" (JArray []);
      entries ← py_iter course_list;
      load_course_list program_name courses entries
  end.

Fixpoint load_files (fs : string -> FileRead) (courses : list CourseObject)
    (filenames : list string) : result (list CourseObject) :=
  match filenames with
  | [] => Ok courses
  | filename :: rest =>
      courses' ← load_file fs courses filename;
      load_files fs courses' rest
  end.

(** [CourseRecommender._get_default_courses]. *)
Definition _get_default_courses : list Course :=
  [ mkCourse "Машинное обучение" "AI" 1 "обязательная" 4
      "Основы ML: регрессия, классификация, кластеризация"
      ["Python"; "Линейная алгебра"]
      ["sklearn"; "pandas"; "ML pipelines"] "medium";
    mkCourse "Глубокое обучение" "AI" 2 "обязательная" 4
      "Нейронные сети, CNN, RNN, Transformers"
      ["Машинное обучение"]
      ["PyTorch"; "Нейронные сети"] "medium";
    mkCourse "Математическая статистика" "AI" 1 "обязательная" 3
      "Статистические методы для ML"
      ["Теория вероятностей"]
      ["Статистический анализ"; "A/B тесты"] "medium";
    mkCourse "MLOps" "AI" 3 "обязательная" 3
      "Развёртывание и мониторинг ML-систем"
      ["Машинное обучение"; "Docker"]
      ["Docker"; "CI/CD"; "Model serving"] "medium";
    mkCourse "Компьютерное зрение" "AI" 2 "выборная" 3
      "Обработка изображений, детекция, сегментация"
      ["Глубокое обучение"]
      ["OpenCV"; "CNN"; "Object Detection"] "high";
    mkCourse "Обработка естественного языка" "AI" 2 "выборная" 3
      "NLP: токенизация, эмбеддинги, трансформеры"
      ["Глубокое обучение"]
      ["Transformers"; "BERT"; "Text processing"] "high";
    mkCourse "Reinforcement Learning" "AI" 3 "выборная" 3
      "Обучение с подкреплением"
      ["Глубокое обучение"; "Теория вероятностей"]
      ["RL algorithms"; "Gym"; "Policy optimization"] "high";
    mkCourse "Генеративные модели" "AI" 3 "выборная" 3
      "VAE, GAN, Diffusion models"
      ["Глубокое обучение"]
      ["GANs"; "Diffusion"; "Image generation"] "high";
    mkCourse "Big Data" "AI" 2 "выборная" 3
      "Spark, распределённые вычисления"
      ["Python"; "SQL"]
      ["Spark"; "Hadoop"; "Distributed computing"] "medium";
    mkCourse "Управление AI-продуктом" "AI Product" 1 "обязательная" 3
      "Product management для AI-продуктов"
      []
      ["Product thinking"; "Roadmap"; "Metrics"] "medium";
    mkCourse "Дизайн AI-систем" "AI Product" 2 "обязательная" 3
      "Проектирование архитектуры ML-систем"
      ["Машинное обучение"]
      ["System design"; "ML architecture"] "medium";
    mkCourse "AI Ethics" "AI Product" 2 "выборная" 2
      "Этика искусственного интеллекта"
      []
      ["AI Ethics"; "Responsible AI"; "Bias detection"] "medium" ].

(** [CourseRecommender._load_courses]. *)
Definition _load_courses (fs : string -> FileRead)
    : result (list CourseObject) :=
  courses ← load_files fs [] ["ai_program.json"; "ai_product_program.json"];
  match courses with
  | [] => Ok (course_object <$> _get_default_courses)
  | _ => Ok courses
  end.

(** *** Entries of the declared types

    An entry of a ["courses"] array each of whose keys is absent or holds
    a value of the type the loader expects.  The entries of other shapes
    are the [json] values that are not an [entry_json]. *)
Record CourseData := mkCourseData {
  cd_name : option string;
  cd_semester : option Z;
  cd_course_type : option string;
  cd_credits : option Z;
  cd_description : option string;
  cd_prerequisites : option (list string);
  cd_skills : option (list string)
}.

Definition member {A} (key : string) (to_json : A -> json) (field : option A)
    : list (string * json) :=
  match field with
  | Some x => [(key, to_json x)]
  | None => []
  end.

Definition str_list (l : list string) : json := JArray (JString <$> l).

(** The JSON object of such an entry, keys in the order the scraper
    writes them. *)
Definition entry_json (course_data : CourseData) : json :=
  JObject (member "name" JString (cd_name course_data)
           ++ member "semester" JInt (cd_semester course_data)
           ++ member "credits" JInt (cd_credits course_data)
           ++ member "course_type" JString (cd_course_type course_data)
           ++ member "description" JString (cd_description course_data)
           ++ member "prerequisites" str_list (cd_prerequisites course_data)
           ++ member "skills" str_list (cd_skills course_data)).

(** ** Scoring *)

(** [level.value in values]. *)
Definition value_in (l : SkillLevel) (values : list string) : bool :=
  existsb (String.eqb (value l)) values.

(** [', '.join(l)] and the like. *)
Definition join (sep : string) (l : list string) : string := String.concat sep l.

(** [x > y] and [x < y] on floats. *)
Definition Qgtb (x y : Q) : bool := negb (Qle_bool x y).
Definition Qltb (x y : Q) : bool := negb (Qle_bool y x).

Section Scoring.
Context `{StrLower}.

(** [CourseRecommender.get_elective_courses]; [if program:] holds for a
    string that is neither [None] nor empty. *)
Definition get_elective_courses (courses : list Course)
    (program_filter : option string) : list Course :=
  let courses := List.filter (fun c => String.eqb (course_type c) "выборная") courses in
  match program_filter with
  | Some (String _ _ as p) =>
      List.filter (fun c => contains (lower p) (lower (program c))) courses
  | _ => courses
  end.

(** One turn of the loop over [course.prerequisites]; the state is
    [met_prerequisites]. *)
Definition prereq_step (user_skills : UserSkills) (met_prerequisites : Z)
    (prereq : string) : Z :=
  let prereq_lower := lower prereq in
  if contains "python" prereq_lower
     && value_in (python user_skills) ["intermediate"; "advanced"]
  then met_prerequisites + 1
  else if contains "машинн" prereq_lower || contains "ml" prereq_lower then
    if value_in (ml_basics user_skills) ["intermediate"; "advanced"]
    then met_prerequisites + 1 else met_prerequisites
  else if contains "глубок" prereq_lower || contains "deep" prereq_lower then
    if value_in (deep_learning user_skills) ["intermediate"; "advanced"]
    then met_prerequisites + 1 else met_prerequisites
  else if contains "статист" prereq_lower || contains "вероятн" prereq_lower then
    if value_in (statistics user_skills) ["intermediate"; "advanced"]
    then met_prerequisites + 1 else met_prerequisites
  else if contains "алгебр" prereq_lower || contains "math" prereq_lower then
    if value_in (math user_skills) ["intermediate"; "advanced"]
    then met_prerequisites + 1 else met_prerequisites
  else met_prerequisites.

(** [CourseRecommender._check_prerequisites]. *)
Definition _check_prerequisites (course : Course) (user_skills : UserSkills) : Q :=
  match prerequisites course with
  | [] => 1%Q
  | _ =>
      let met_prerequisites :=
        fold_left (prereq_step user_skills) (prerequisites course) 0 in
      match prerequisites course with
      | [] => 1%Q
      | _ => (inject_Z met_prerequisites
              / inject_Z (Z.of_nat (length (prerequisites course))))%Q
      end
  end.

(** [CourseRecommender._calculate_growth_potential]. *)
Definition _calculate_growth_potential (course : Course)
    (user_skills : UserSkills) : Q :=
  match skills_gained course with
  | [] => 0.5%Q
  | _ =>
      let new_skills := 0 in
      let course_skills_text := lower (join " " (skills_gained course)) in
      let new_skills :=
        if contains "nlp" course_skills_text || contains "text" course_skills_text
        then if value_in (nlp user_skills) ["none"; "beginner"]
             then new_skills + 1 else new_skills
        else new_skills in
      let new_skills :=
        if contains "cv" course_skills_text || contains "vision" course_skills_text
           || contains "image" course_skills_text
        then if value_in (computer_vision user_skills) ["none"; "beginner"]
             then new_skills + 1 else new_skills
        else new_skills in
      let new_skills :=
        if contains "pytorch" course_skills_text || contains "нейрон" course_skills_text
        then if value_in (deep_learning user_skills) ["none"; "beginner"]
             then new_skills + 1 else new_skills
        else new_skills in
      let new_skills :=
        if contains "docker" course_skills_text || contains "deploy" course_skills_text
        then if value_in (mlops user_skills) ["none"; "beginner"]
             then new_skills + 1 else new_skills
        else new_skills in
      Qmin (inject_Z new_skills / 2) 1%Q
  end.

Definition high_value_keywords : list string :=
  ["deep learning"; "глубокое"; "nlp"; "computer vision";
   "mlops"; "transformer"; "llm"; "генеративн"].

(** [CourseRecommender._calculate_career_value]. *)
Definition _calculate_career_value (course : Course) : Q :=
  let course_text := lower (name course +:+ " " +:+ description course) in
  let matches :=
    Z.of_nat (length (List.filter (fun kw => contains kw course_text)
                        high_value_keywords)) in
  Qmin (inject_Z matches / 3) 1%Q.

(** The loop over [interests] of [_score_course]; the state is
    [(interest_score, interest_matches)]. *)
Definition interest_step (course_name_lower course_desc_lower : string)
    (st : Q * list string) (interest : string) : Q * list string :=
  let '(interest_score, interest_matches) := st in
  let interest_lower := lower interest in
  if contains interest_lower course_name_lower
     || contains interest_lower course_desc_lower
  then ((interest_score + 0.4)%Q, interest_matches ++ [interest])
  else (interest_score, interest_matches).

Definition interest_loop (course : Course) (interests : list string)
    : Q * list string :=
  fold_left (interest_step (lower (name course)) (lower (description course)))
    interests (0%Q, []).

(** [CourseRecommender._score_course]. *)
Definition _score_course (course : Course) (user_skills : UserSkills)
    (interests : list string) : Q * string :=
  let score := 0%Q in
  let reasons : list string := [] in
  let '(interest_score, interest_matches) := interest_loop course interests in
  let reasons :=
    match interest_matches with
    | [] => reasons
    | _ => reasons ++ ["Соответствует интересам: " +:+ join ", " interest_matches]
    end in
  let score := (score + Qmin interest_score 0.4)%Q in
  let readiness_score := _check_prerequisites course user_skills in
  let score := (score + readiness_score * 0.3)%Q in
  let reasons :=
    if Qgtb readiness_score 0.7 then
      reasons ++ ["Хорошая база для этого курса"]
    else if Qltb readiness_score 0.3 then
      reasons ++ ["Может потребоваться дополнительная подготовка"]
    else reasons in
  let growth_score := _calculate_growth_potential course user_skills in
  let score := (score + growth_score * 0.2)%Q in
  let reasons :=
    if Qgtb growth_score 0.7 then
      reasons ++ ["Поможет освоить новые востребованные навыки"]
    else reasons in
  let career_score := _calculate_career_value course in
  let score := (score + career_score * 0.1)%Q in
  let reasons :=
    if Qgtb career_score 0.7 then
      reasons ++ ["Высокая востребованность на рынке"]
    else reasons in
  let reasoning :=
    match reasons with
    | [] => "Общий выборный курс"
    | _ => join "; " reasons
    end in
  (score, reasoning).
End Scoring.

(** ** The ranker *)

(** References to [CourseRecommendation] objects, and the heap holding
    them: [h !! r] is the object behind [r]. *)
Abbreviation ref := nat (only parsing).
Abbreviation heap := (list CourseRecommendation) (only parsing).

(** The references of [refs] all point at an object of [h]. *)
Definition valid_refs (h : heap) (refs : list ref) : Prop :=
  Forall (fun r => is_Some (h !! r)) refs.

(** Descending keys. *)
Definition key_ge {A} (key : A -> Q) (a b : A) : Prop := (key b <= key a)%Q.

(** The constructor call: a fresh object, and the reference to it. *)
Definition alloc (h : heap) (rec : CourseRecommendation) : ref * heap :=
  (length h, h ++ [rec]).

(** [rec.priority = p] on the object itself. *)
Definition set_priority (p : Z) (rec : CourseRecommendation) : CourseRecommendation :=
  mkCourseRecommendation (course rec) (score rec) (reasoning rec) p.

(** [lambda x: x.score] through a reference. *)
Definition score_of (h : heap) (r : ref) : Q :=
  from_option score 0%Q (h !! r).

(** The list of objects a list of references stands for. *)
Definition deref (h : heap) (refs : list ref) : list CourseRecommendation :=
  omap (fun r => h !! r) refs.

(** [l.sort(key=key, reverse=True)]: descending keys, and elements with
    equal keys keep the order they had (the sort is stable, also when
    reversed). *)
Fixpoint insert_reverse {A} (key : A -> Q) (x : A) (l : list A) : list A :=
  match l with
  | [] => [x]
  | y :: l' =>
      if Qltb (key x) (key y) then y :: insert_reverse key x l' else x :: l
  end.

Definition sort_reverse {A} (key : A -> Q) (l : list A) : list A :=
  foldr (insert_reverse key) [] l.

(** [l[:stop]]: a negative [stop] counts from the end. *)
Definition slice_to {A} (l : list A) (stop : Z) : list A :=
  if stop <? 0 then take (Z.to_nat (Z.of_nat (length l) + stop)) l
  else take (Z.to_nat stop) l.

(** [for i, rec in enumerate(refs): rec.priority = i + 1], from index [i]. *)
Fixpoint assign_priorities (i : Z) (refs : list ref) (h : heap) : heap :=
  match refs with
  | [] => h
  | rec :: refs' =>
      assign_priorities (i + 1) refs' (alter (set_priority (i + 1)) rec h)
  end.

Section Ranker.
Context `{StrLower}.

(** The body of [for course in electives]. *)
Definition score_step (user_skills : UserSkills) (interests : list string)
    (st : list ref * heap) (course : Course) : list ref * heap :=
  let '(recommendations, h) := st in
  let '(score, reasoning) := _score_course course user_skills interests in
  let '(rec, h) := alloc h (mkCourseRecommendation course score reasoning 0) in
  (recommendations ++ [rec], h).

(** [CourseRecommender.recommend_courses] on [self.courses = courses]:
    the returned list of references and the heap they point into. *)
Definition recommend_courses_refs (courses : list Course)
    (user_background : string) (interests : list string)
    (program_filter : option string) (max_recommendations : Z)
    : list ref * heap :=
  let user_skills := from_background user_background in
  let electives := get_elective_courses courses program_filter in
  match electives with
  | [] => ([], [])
  | _ =>
      let '(recommendations, h) :=
        fold_left (score_step user_skills interests) electives ([], []) in
      let recommendations := sort_reverse (score_of h) recommendations in
      let h :=
        assign_priorities 0 (slice_to recommendations max_recommendations) h in
      (slice_to recommendations max_recommendations, h)
  end.

(** What the caller of [recommend_courses] reads. *)
Definition recommend_courses (courses : list Course)
    (user_background : string) (interests : list string)
    (program_filter : option string) (max_recommendations : Z)
    : list CourseRecommendation :=
  let '(refs, h) :=
    recommend_courses_refs courses user_background interests
      program_filter max_recommendations in
  deref h refs.
End Ranker.

(** ** The study plan *)

(** [{i: [] for i in range(1, semesters + 1)}]. *)
Definition empty_plan (semesters : Z) : gmap Z (list Course) :=
  fold_left (fun plan i => <[i := []]> plan) (seqZ 1 semesters) ∅.

(** The body of [for rec in recommendations]; [plan[semester]] raises
    [KeyError] when the key is absent. *)
Definition plan_step (semesters : Z) (plan : gmap Z (list Course))
    (rec : CourseRecommendation) : result (gmap Z (list Course)) :=
  let semester := semester (course rec) in
  if semester <=? semesters then
    match plan !! semester with
    | Some bucket => Ok (<[semester := bucket ++ [course rec]]> plan)
    | None => Raise KeyError
    end
  else Ok plan.

Fixpoint plan_loop (semesters : Z) (plan : gmap Z (list Course))
    (recommendations : list CourseRecommendation)
    : result (gmap Z (list Course)) :=
  match recommendations with
  | [] => Ok plan
  | rec :: rest =>
      plan' ← plan_step semesters plan rec;
      plan_loop semesters plan' rest
  end.

(** [CourseRecommender.get_study_plan]. *)
Definition get_study_plan (recommendations : list CourseRecommendation)
    (semesters : Z) : result (gmap Z (list Course)) :=
  plan_loop semesters (empty_plan semesters) recommendations.

(** The instance the examples run with. *)
#[export] Instance py_StrLower : StrLower | 100 := py_lower.

(** ** The heuristics as tables

    The keyword groups of the scoring rules, written as data: which
    keywords belong to a group, and which dimension of the profile the
    group is judged by.  The properties below compare the branching code
    with these tables. *)

Definition at_least_intermediate (l : SkillLevel) : bool :=
  match l with
  | INTERMEDIATE | ADVANCED => true
  | NONE | BEGINNER => false
  end.

Definition below_intermediate (l : SkillLevel) : bool :=
  negb (at_least_intermediate l).

(** The five domains a prerequisite label can name, in the order the code
    tests them. *)
Inductive PrereqGroup :=
  | PythonGroup | MLBasicsGroup | DeepLearningGroup | StatisticsGroup | MathGroup.

Definition group_keywords (g : PrereqGroup) : list string :=
  match g with
  | PythonGroup => ["python"]
  | MLBasicsGroup => ["машинн"; "ml"]
  | DeepLearningGroup => ["глубок"; "deep"]
  | StatisticsGroup => ["статист"; "вероятн"]
  | MathGroup => ["алгебр"; "math"]
  end.

Definition group_level (user_skills : UserSkills) (g : PrereqGroup) : SkillLevel :=
  match g with
  | PythonGroup => python user_skills
  | MLBasicsGroup => ml_basics user_skills
  | DeepLearningGroup => deep_learning user_skills
  | StatisticsGroup => statistics user_skills
  | MathGroup => math user_skills
  end.

Definition prereq_groups : list PrereqGroup :=
  [PythonGroup; MLBasicsGroup; DeepLearningGroup; StatisticsGroup; MathGroup].

Definition later_groups : list PrereqGroup :=
  [MLBasicsGroup; DeepLearningGroup; StatisticsGroup; MathGroup].

(** The share of [labels] that [sat] accepts; a course without labels is
    fully ready. *)
Definition fraction (sat : string -> bool) (labels : list string) : Q :=
  match labels with
  | [] => 1%Q
  | _ => (inject_Z (Z.of_nat (length (List.filter sat labels)))
          / inject_Z (Z.of_nat (length labels)))%Q
  end.

(** The four growth areas of [_calculate_growth_potential]. *)
Inductive GrowthArea := NlpArea | VisionArea | NeuralArea | OpsArea.

Definition growth_areas : list GrowthArea :=
  [NlpArea; VisionArea; NeuralArea; OpsArea].

Definition area_keywords (a : GrowthArea) : list string :=
  match a with
  | NlpArea => ["nlp"; "text"]
  | VisionArea => ["cv"; "vision"; "image"]
  | NeuralArea => ["pytorch"; "нейрон"]
  | OpsArea => ["docker"; "deploy"]
  end.

Definition area_level (user_skills : UserSkills) (a : GrowthArea) : SkillLevel :=
  match a with
  | NlpArea => nlp user_skills
  | VisionArea => computer_vision user_skills
  | NeuralArea => deep_learning user_skills
  | OpsArea => mlops user_skills
  end.

(** The eight dimensions of the profile and the keywords that raise each
    of them in [from_background]. *)
Inductive Dimension :=
  | Python | Math | Statistics | MLBasics | DeepLearning | Nlp
  | ComputerVision | Mlops.

Definition dimensions : list Dimension :=
  [Python; Math; Statistics; MLBasics; DeepLearning; Nlp; ComputerVision; Mlops].

Definition level_of (user_skills : UserSkills) (d : Dimension) : SkillLevel :=
  match d with
  | Python => python user_skills
  | Math => math user_skills
  | Statistics => statistics user_skills
  | MLBasics => ml_basics user_skills
  | DeepLearning => deep_learning user_skills
  | Nlp => nlp user_skills
  | ComputerVision => computer_vision user_skills
  | Mlops => mlops user_skills
  end.

Definition seniority_keywords : list string := ["senior"; "lead"].

Definition quantitative_keywords : list string :=
  ["математик"; "math"; "физик"; "мехмат"].

Definition data_science_keywords : list string :=
  ["data scien"; "ds"; "аналитик данных"].

Definition dimension_keywords (d : Dimension) : list string :=
  match d with
  | Python => ["python"; "питон"; "программирован"]
  | Math => quantitative_keywords
  | Statistics => data_science_keywords
  | MLBasics => ["ml"; "machine learning"; "машинн"] ++ data_science_keywords
  | DeepLearning => ["deep learning"; "нейронн"; "pytorch"; "tensorflow"]
  | Nlp => ["nlp"; "нлп"; "обработка текст"; "natural language"]
  | ComputerVision => ["computer vision"; "cv"; "компьютерн зрен"; "opencv"]
  | Mlops => ["mlops"; "devops"; "docker"; "kubernetes"; "deploy"]
  end.

(** Every keyword [from_background] looks for. *)
Definition background_keywords : list string :=
  seniority_keywords ++ concat (dimension_keywords <$> dimensions).

(** The larger of two levels, in the order NONE < BEGINNER < INTERMEDIATE
    < ADVANCED. *)
Definition level_rank (l : SkillLevel) : Z :=
  match l with NONE => 0 | BEGINNER => 1 | INTERMEDIATE => 2 | ADVANCED => 3 end.

Definition level_max (a b : SkillLevel) : SkillLevel :=
  if level_rank a <? level_rank b then b else a.

(** The level of dimension [d] for a case-folded background [text]:
    INTERMEDIATE on a keyword of the dimension, NONE without one, and the
    two overrides. *)
Definition derived_level (text : string) (d : Dimension) : SkillLevel :=
  let base := if any_in (dimension_keywords d) text then INTERMEDIATE else NONE in
  match d with
  | Python => if any_in seniority_keywords text then ADVANCED else base
  | Math => if any_in quantitative_keywords text then ADVANCED else base
  | Statistics =>
      if any_in quantitative_keywords text then level_max base INTERMEDIATE
      else base
  | _ => base
  end.

(** The records a source holds: the elements of the ["courses"] array of a
    JSON object.  A source that cannot be read, or holds another value,
    has none. *)
Definition source_records (r : FileRead) : list json :=
  match r with
  | Loaded (JObject items) =>
      match dict_get "courses" items with
      | Some (JArray elements) => elements
      | _ => []
      end
  | _ => []
  end.

(** A source of the loader that contributes no record. *)
Definition yields_no_record (r : FileRead) : bool :=
  match source_records r with
  | [] => true
  | _ :: _ => false
  end.

(** A source the loader passes over: a missing file, a file that is not
    JSON, or an object whose ["courses"] is absent or empty. *)
Definition passed_over (r : FileRead) : bool :=
  match r with
  | Failed e => handled e
  | Loaded (JObject items) =>
      match dict_get "courses" items with
      | None
      | Some (JArray [])
      | Some (JObject [])
      | Some (JString EmptyString) => true
      | _ => false
      end
  | Loaded _ => false
  end.

(** The paths [_load_courses] opens. *)
Definition catalog_paths : list string :=
  (fun filename => DATA_DIR +:+ "/" +:+ filename)
    <$> ["ai_program.json"; "ai_product_program.json"].

(** [with_priorities i l]: the objects of [l] with priorities [i + 1],
    [i + 2], ... in place of their own. *)
Fixpoint with_priorities (i : Z) (l : list CourseRecommendation)
    : list CourseRecommendation :=
  match l with
  | [] => []
  | rec :: l' => set_priority (i + 1) rec :: with_priorities (i + 1) l'
  end.

(** The courses of [recommendations] given in term [t], in their order. *)
Definition courses_of_term (t : Z) (recommendations : list CourseRecommendation)
    : list Course :=
  course <$> List.filter (fun rec => semester (course rec) =? t) recommendations.

(** Descending scores. *)
Definition score_ge (a b : CourseRecommendation) : Prop :=
  (score b <= score a)%Q.

Section Readings.
Context `{StrLower}.

(** A label names a group when one of the group's keywords occurs in the
    case-folded label. *)
Definition matches_group (prereq : string) (g : PrereqGroup) : bool :=
  any_in (group_keywords g) (lower prereq).

(** "Satisfied" read as: some group the label names has its dimension at
    INTERMEDIATE or above. *)
Definition satisfied_any_group (user_skills : UserSkills) (prereq : string) : bool :=
  existsb (fun g => matches_group prereq g
                    && at_least_intermediate (group_level user_skills g))
    prereq_groups.

(** The first group of [groups] the label names. *)
Definition first_group_in (groups : list PrereqGroup) (prereq : string)
    : option PrereqGroup :=
  List.find (matches_group prereq) groups.

(** "Satisfied" read as: the first group of [groups] the label names has
    its dimension at INTERMEDIATE or above. *)
Definition judged_by_first_in (groups : list PrereqGroup)
    (user_skills : UserSkills) (prereq : string) : bool :=
  match first_group_in groups prereq with
  | Some g => at_least_intermediate (group_level user_skills g)
  | None => false
  end.

(** What the code does with one label: whether the turn of the loop for
    [prereq] raises the counter. *)
Definition credited (user_skills : UserSkills) (prereq : string) : bool :=
  0 <? prereq_step user_skills 0 prereq.

(** The growth areas a course opens for a profile: keyword in the joined
    granted-skill text, dimension still below INTERMEDIATE. *)
Definition open_growth_areas (course : Course) (user_skills : UserSkills)
    : list GrowthArea :=
  List.filter
    (fun a => any_in (area_keywords a) (lower (join " " (skills_gained course)))
              && below_intermediate (area_level user_skills a))
    growth_areas.

Definition growth_by_areas (course : Course) (user_skills : UserSkills) : Q :=
  match skills_gained course with
  | [] => 0.5%Q
  | _ => (inject_Z (Z.min (Z.of_nat (length (open_growth_areas course user_skills))) 2)
          / 2)%Q
  end.

(** An interest matches a course when its case-folded text occurs in the
    case-folded name or description. *)
Definition interest_matches_course (course : Course) (interest : string) : bool :=
  contains (lower interest) (lower (name course))
  || contains (lower interest) (lower (description course)).

(** The candidates of the ranker: the courses of elective kind whose
    program name contains the filter, case-folded, when a filter is
    given. *)
Definition passes_program_filter (program_filter : option string)
    (course : Course) : bool :=
  match program_filter with
  | None => true
  | Some p => contains (lower p) (lower (program course))
  end.

Definition filtered_candidates (courses : list Course)
    (program_filter : option string) : list Course :=
  List.filter (fun c => String.eqb (course_type c) "выборная"
                        && passes_program_filter program_filter c) courses.

(** The object [recommend_courses] creates for one elective. *)
Definition scored (user_skills : UserSkills) (interests : list string)
    (course : Course) : CourseRecommendation :=
  mkCourseRecommendation course
    (fst (_score_course course user_skills interests))
    (snd (_score_course course user_skills interests)) 0.

(** The interest sub-score: the accumulator of the loop, capped. *)
Definition interest_subscore (course : Course) (interests : list string) : Q :=
  Qmin (fst (interest_loop course interests)) 0.4%Q.
End Readings.

(** ** Sample inputs

    Concrete courses, profiles and recommendations the properties below
    are run on, with [py_lower] for [str.lower]. *)

(** A course whose single prerequisite names two groups. *)
Definition course_two_groups : Course :=
  mkCourse "Генеративные модели" "AI" 3 "выборная" 3
    "VAE, GAN, Diffusion models"
    ["Машинное и глубокое обучение"]
    ["GANs"; "Diffusion"; "Image generation"] "high".

(** A label that names python and ML basics. *)
Definition prereq_python_ml : string := "Python для машинного обучения".

(** The elective on language processing of the seed catalog. *)
Definition course_nlp : Course :=
  mkCourse "Обработка естественного языка" "AI" 2 "выборная" 3
    "NLP: токенизация, эмбеддинги, трансформеры"
    ["Глубокое обучение"]
    ["Transformers"; "BERT"; "Text processing"] "high".

(** A catalog entry loaded from a file with ["semester": 0]. *)
Definition course_term_zero : Course :=
  mkCourse "Вводный семинар" "AI" 0 "выборная" 1 "" [] [] "medium".

(** Three recommendations, with terms 2, 3 and 2. *)
Definition sample_recommendations : list CourseRecommendation :=
  [ mkCourseRecommendation course_nlp (8 # 15) "Соответствует интересам: NLP" 1;
    mkCourseRecommendation course_two_groups (2 # 15) "Общий выборный курс" 2;
    mkCourseRecommendation
      (mkCourse "AI Ethics" "AI Product" 2 "выборная" 2
         "Этика искусственного интеллекта" []
         ["AI Ethics"; "Responsible AI"; "Bias detection"] "medium")
      (1 # 10) "Общий выборный курс" 3 ].

(** A data directory without the two program files. *)
Definition no_files : string -> FileRead := fun _ => Failed FileNotFoundError.

(** ** The report

    [CourseRecommender.format_recommendations] and its caller
    [RAGRetriever.get_course_recommendations]. *)

(** [f"{x:.0%}"]: the rounding of a float to a whole percentage is the
    interpreter's. *)
Class FormatPercent := format_percent : Q -> string.

(** [str(n)] for an [int], as an f-string prints it. *)
Definition str_int (n : Z) : string := pretty n.

(** The line feed of ["\n"]. *)
Definition nl : string := String "010"%char EmptyString.

(** The exceptions that escape the report: the [IndexError] of a list
    index out of range, and what [get_study_plan] raises. *)
Inductive report_exn :=
  | IndexError
  | FromPlan (e : exn).

Inductive outcome (A : Type) :=
  | Returns (a : A)
  | Raises (e : report_exn).
Arguments Returns {A} a.
Arguments Raises {A} e.

#[export] Instance outcome_ret : MRet outcome := fun _ a => Returns a.
#[export] Instance outcome_bind : MBind outcome := fun _ _ f m =>
  match m with
  | Returns a => f a
  | Raises e => Raises e
  end.

(** [l[i]]: a negative index counts from the end; [None] stands for
    [IndexError]. *)
Definition py_index {A} (l : list A) (i : Z) : option A :=
  if 0 <=? i then l !! Z.to_nat i
  else if 0 <=? Z.of_nat (length l) + i
       then l !! Z.to_nat (Z.of_nat (length l) + i)
       else None.

Definition medals : list string := ["🥇"; "🥈"; "🥉"; "4️⃣"; "5️⃣"].

(** The marker of a recommendation:
    [medals[priority - 1] if priority <= 5 else "▪️"]. *)
Definition marker (priority : Z) : outcome string :=
  if priority <=? 5 then
    match py_index medals (priority - 1) with
    | Some emoji => Returns emoji
    | None => Raises IndexError
    end
  else Returns "▪️".

(** The items of the dictionary [get_study_plan] returns, in the order of
    [plan.items()]: the keys were inserted as 1, 2, ..., [semesters], and
    appending to a bucket does not move its key. *)
Definition plan_items (plan : gmap Z (list Course)) (semesters : Z)
    : list (Z * list Course) :=
  omap (fun semester => (fun courses => (semester, courses)) <$> plan !! semester)
    (seqZ 1 semesters).

(** The body of [for semester, courses in plan.items()]. *)
Definition plan_item_lines (item : Z * list Course) : list string :=
  match snd item with
  | [] => []
  | _ :: _ =>
      ["**Семестр " +:+ str_int (fst item) +:+ ":**"]
      ++ ((fun course => "  • " +:+ name course) <$> snd item)
      ++ [""]
  end.

Section Report.
Context `{FormatPercent}.

(** The body of [for rec in recommendations]: six lines per
    recommendation. *)
Definition recommendation_lines (rec : CourseRecommendation)
    : outcome (list string) :=
  emoji ← marker (priority rec);
  Returns [ emoji +:+ " **" +:+ name (course rec) +:+ "**";
            "   📍 Программа: " +:+ program (course rec);
            "   📅 Семестр: " +:+ str_int (semester (course rec));
            "   💡 " +:+ reasoning rec;
            "   📊 Оценка соответствия: " +:+ format_percent (score rec);
            "" ].

Fixpoint recommendations_lines (lines : list string)
    (recommendations : list CourseRecommendation) : outcome (list string) :=
  match recommendations with
  | [] => Returns lines
  | rec :: rest =>
      rec_lines ← recommendation_lines rec;
      recommendations_lines (lines ++ rec_lines) rest
  end.

(** [if include_plan:] and what follows; the plan is built with the
    default horizon of [get_study_plan], 4. *)
Definition plan_section (lines : list string)
    (recommendations : list CourseRecommendation) : outcome (list string) :=
  match get_study_plan recommendations 4 with
  | Raise e => Raises (FromPlan e)
  | Ok plan =>
      Returns (lines
               ++ [nl +:+ "📚 **План изучения по семестрам:**" +:+ nl]
               ++ concat (plan_item_lines <$> plan_items plan 4))
  end.

(** [CourseRecommender.format_recommendations]. *)
Definition format_recommendations (recommendations : list CourseRecommendation)
    (include_plan : bool) : outcome string :=
  match recommendations with
  | [] =>
      Returns "К сожалению, не удалось подобрать рекомендации. Попробуйте уточнить ваши интересы."
  | _ :: _ =>
      lines ← recommendations_lines ["🎯 **Рекомендованные курсы:**" +:+ nl]
                recommendations;
      lines ← (if include_plan then plan_section lines recommendations
               else Returns lines);
      Returns (join nl lines)
  end.

Context `{StrLower}.

(** [RAGRetriever.get_course_recommendations] with
    [self.recommender.courses = courses].  The two calls that leave the
    process are parameters: [fallback interests program] is what
    [_get_fallback_recommendations] returns (it catches every exception
    itself), and [enrich base background interests] is the answer of
    [_enrich_recommendations_with_llm], or [None] when it raises. *)
Definition get_course_recommendations (courses : list Course)
    (fallback : list string -> option string -> string)
    (enrich : string -> string -> list string -> option string)
    (user_background : string) (interests : list string)
    (program_filter : option string) (use_llm : bool) : outcome string :=
  let recommendations :=
    recommend_courses courses user_background interests program_filter 5 in
  match recommendations with
  | [] => Returns (fallback interests program_filter)
  | _ :: _ =>
      base_recommendations ← format_recommendations recommendations true;
      if use_llm then
        match enrich base_recommendations user_background interests with
        | Some enriched => Returns enriched
        | None => Returns base_recommendations
        end
      else Returns base_recommendations
  end.
End Report.

(** ** Further readings of the code *)

(** The course [new_course] builds from an entry of the declared types
    that has a name. *)
Definition entry_course (entry : string * CourseData) : option Course :=
  (fun n =>
     mkCourse n (fst entry)
       (get (cd_semester (snd entry)) 1)
       (get (cd_course_type (snd entry)) "обязательная")
       (get (cd_credits (snd entry)) 3)
       (get (cd_description (snd entry)) "")
       (get (cd_prerequisites (snd entry)) [])
       (get (cd_skills (snd entry)) [])
       "medium") <$> cd_name (snd entry).

(** The entries a source contributes, each with the program name of its
    file: what the loop of [_load_courses] iterates over. *)
Definition file_entries (r : FileRead) : list (json * json) :=
  match r with
  | Loaded (JObject items) =>
      match py_iter (get (dict_get "courses" items) (JArray [])) with
      | Ok entries =>
          (fun course_data =>
             (get (dict_get "name" items) (JString "Unknown"), course_data))
            <$> entries
      | Raise _ => []
      end
  | _ => []
  end.


(** The instance the loader builds from an entry, if it builds one. *)
Definition entry_object (entry : json * json) : option CourseObject :=
  match new_course (fst entry) (snd entry) with
  | Ok o => Some o
  | Raise _ => None
  end.

(** The exception an entry makes the loader raise: an entry must be an
    object with a ["name"]. *)
Definition entry_error (course_data : json) : option exn :=
  match course_data with
  | JObject items =>
      match dict_get "name" items with
      | Some _ => None
      | None => Some KeyError
      end
  | _ => Some TypeError
  end.

(** The exception a source makes the loader raise: an exception of the
    read that is not handled, a document that is not an object, a
    ["courses"] that is not iterable, or the first entry that has an
    exception. *)
Definition source_error (r : FileRead) : option exn :=
  match r with
  | Failed e => if handled e then None else Some e
  | Loaded (JObject items) =>
      match dict_get "courses" items with
      | None => None
      | Some (JArray elements) => head (omap entry_error elements)
      | Some (JObject []) | Some (JString EmptyString) => None
      | Some _ => Some TypeError
      end
  | Loaded _ => Some AttributeError
  end.



(** The ranking as a computation on a list of values: sort by descending
    score, cut at the limit, number from 1. *)
Definition ranked (l : list CourseRecommendation) (limit : Z)
    : list CourseRecommendation :=
  with_priorities 0 (slice_to (sort_reverse score l) limit).

Section Reasons.
Context `{StrLower}.

(** The number of high-value keywords in the name and the description. *)
Definition career_hits (course : Course) : Z :=
  Z.of_nat (length (List.filter
                      (fun kw => contains kw
                                   (lower (name course +:+ " " +:+ description course)))
                      high_value_keywords)).

(** The notes of the reasoning, by counts: the interests that match; a
    good base when more than 7 in 10 prerequisites are credited (or there
    is none), a warning when fewer than 3 in 10 are; new skills when the
    course grants skills and opens at least 2 growth areas; market demand
    from 3 keyword hits on. *)
Definition reason_clauses (course : Course) (user_skills : UserSkills)
    (interests : list string) : list string :=
  let matched := List.filter (interest_matches_course course) interests in
  let n := Z.of_nat (length (prerequisites course)) in
  let met := Z.of_nat (length (List.filter (credited user_skills)
                                 (prerequisites course))) in
  match matched with
  | [] => []
  | _ :: _ => ["Соответствует интересам: " +:+ join ", " matched]
  end
  ++ (if (n =? 0) || (7 * n <? 10 * met)
      then ["Хорошая база для этого курса"]
      else if 10 * met <? 3 * n
           then ["Может потребоваться дополнительная подготовка"]
           else [])
  ++ (if match skills_gained course with [] => false | _ :: _ => true end
         && (2 <=? Z.of_nat (length (open_growth_areas course user_skills)))
      then ["Поможет освоить новые востребованные навыки"]
      else [])
  ++ (if 3 <=? career_hits course
      then ["Высокая востребованность на рынке"]
      else []).
End Reasons.

(** A profile [u'] that is at INTERMEDIATE or above wherever [u] is. *)
Definition at_least_as_skilled (u u' : UserSkills) : Prop :=
  forall d, at_least_intermediate (level_of u d) = true ->
            at_least_intermediate (level_of u' d) = true.

(** A recommendation [get_study_plan] cannot place: its term is within the
    horizon and below 1. *)
Definition unplaceable (semesters : Z) (rec : CourseRecommendation) : Prop :=
  semester (course rec) <= semesters /\ semester (course rec) < 1.

#[export] Instance unplaceable_dec (semesters : Z) (rec : CourseRecommendation)
    : Decision (unplaceable semesters rec) :=
  decide (semester (course rec) <= semesters /\ semester (course rec) < 1).

(** ** Further sample inputs *)

(** The nearest whole number of a rational, ties to the even one. *)
Definition round_half_even (q : Q) : Z :=
  let n := Qnum q in
  let d := Zpos (Qden q) in
  match (2 * (n mod d)) ?= d with
  | Lt => n / d
  | Gt => n / d + 1
  | Eq => if Z.even (n / d) then n / d else n / d + 1
  end.

(** A percentage formatter to run the report with: it rounds the exact
    rational. *)
#[export] Instance exact_FormatPercent : FormatPercent | 100 :=
  fun q => str_int (round_half_even (q * 100)) +:+ "%".

(** Three entries of the declared types of the program ["AI"]; the second
    has only a name. *)
Definition sample_entries : list (string * CourseData) :=
  (fun course_data => ("AI", course_data))
    <$> [ mkCourseData (Some "Компьютерное зрение") (Some 2)
            (Some "выборная") (Some 3)
            (Some "Обработка изображений, детекция, сегментация")
            (Some ["Глубокое обучение"]) (Some ["OpenCV"; "CNN"]);
          mkCourseData (Some "Оптимизация") None None None None None None;
          mkCourseData (Some "Big Data") (Some 2) (Some "выборная") None
            (Some "Spark, распределённые вычисления")
            (Some ["Python"; "SQL"]) None ].

(** A data directory with one program file, which holds these entries. *)
Definition sample_files : string -> FileRead := fun path =>
  if String.eqb path "data/ai_program.json" then
    Loaded (JObject [("name", JString "AI");
                     ("courses", JArray (entry_json ∘ snd <$> sample_entries))])
  else Failed FileNotFoundError.

(** A data directory whose one program file has [null] for ["courses"]. *)
Definition null_courses_files : string -> FileRead := fun path =>
  if String.eqb path "data/ai_program.json" then
    Loaded (JObject [("name", JString "AI"); ("courses", JNull)])
  else Failed FileNotFoundError.

(** A data directory whose first program file holds an array instead of
    an object, and whose second one cannot be opened. *)
Definition unreadable_files : string -> FileRead := fun path =>
  if String.eqb path "data/ai_program.json" then Loaded (JArray [])
  else Failed PermissionError.

(** A data directory whose program files are not UTF-8 text. *)
Definition bad_encoding_files : string -> FileRead :=
  fun _ => Failed UnicodeDecodeError.

(** A program file as [parser/scraper.py] writes it: every course has
    [null] for its description, prerequisites and skills. *)
Definition scraped_files : string -> FileRead := fun path =>
  if String.eqb path "data/ai_program.json" then
    Loaded (JObject
      [("name", JString "AI");
       ("url", JString "https://abit.itmo.ru/program/master/ai");
       ("courses",
        JArray [JObject [("name", JString "MLOps");
                         ("semester", JInt 3);
                         ("credits", JInt 3);
                         ("course_type", JString "обязательная");
                         ("description", JNull);
                         ("prerequisites", JNull);
                         ("skills", JNull)]])])
  else Failed FileNotFoundError.

(** A recommendation with a priority no list index reaches. *)
Definition recommendation_priority_low : CourseRecommendation :=
  mkCourseRecommendation course_nlp (8 # 15) "Соответствует интересам: NLP" (-5).

(** ** Proof automation *)

(** Case analysis on the conditions of the [if]s of the goal, outermost
    first, so that the branches not taken disappear. *)
Ltac split_ifs :=
  repeat (match goal with
          | |- context [if ?b then _ else _] =>
              lazymatch type of b with
              | bool =>
                  lazymatch b with
                  | context [if _ then _ else _] => fail
                  | Z.ltb _ _ => fail
                  | _ => destruct b
                  end
              | _ => fail
              end
          end; cbv iota).

(** * Properties *)

(** ** Substring containment *)

Lemma append_cons (c : ascii) (a b : string) :
  String c a +:+ b = String c (a +:+ b).
Proof. reflexivity. Qed.

Lemma append_empty_l (b : string) : "" +:+ b = b.
Proof. reflexivity. Qed.

Lemma prefix_app (sub s : string) :
  String.prefix sub s = true <-> exists rest, s = sub +:+ rest.
Proof.
  revert s. induction sub as [|a sub IH]; intros s; simpl.
  - split; [intros _; exists s; reflexivity | destruct s; reflexivity].
  - destruct s as [|b s]; simpl.
    + split; [discriminate | intros [rest E]; discriminate].
    + destruct (Ascii.ascii_dec a b) as [->|Hne].
      * rewrite IH. split; intros [rest E]; exists rest;
          rewrite append_cons in *; congruence.
      * split; [discriminate | intros [rest E]].
        rewrite append_cons in E. congruence.
Qed.

Lemma contains_eq (sub s : string) :
  contains sub s
  = String.prefix sub s
    || match s with
       | EmptyString => false
       | String _ s' => contains sub s'
       end.
Proof. destruct s; reflexivity. Qed.

(** [contains] is Python's [in]: an occurrence somewhere in the text. *)
Lemma contains_occurrence (sub s : string) :
  contains sub s = true <-> exists before after, s = before +:+ sub +:+ after.
Proof.
  induction s as [|c s IH]; rewrite contains_eq.
  - rewrite orb_false_r, prefix_app. split.
    + intros [rest E]. exists EmptyString, rest. exact E.
    + intros [[|b before] [after E]].
      * rewrite append_empty_l in E. eauto.
      * rewrite append_cons in E. discriminate.
  - rewrite orb_true_iff, IH, prefix_app. split.
    + intros [[rest E] | (before & after & E)].
      * exists EmptyString, rest. exact E.
      * exists (String c before), after. rewrite append_cons. congruence.
    + intros [[|b before] [after E]].
      * left. rewrite append_empty_l in E. eauto.
      * right. rewrite append_cons in E. exists before, after. congruence.
Qed.

Lemma contains_empty (s : string) : contains EmptyString s = true.
Proof. destruct s; reflexivity. Qed.

Lemma py_lower_empty : py_lower "" = "".
Proof. reflexivity. Qed.

Example py_lower_ex :
  py_lower "Senior Питон-разработчик, МЕХМАТ" = "senior питон-разработчик, мехмат".
Proof. reflexivity. Qed.

Example from_background_ex :
  from_background "Senior Питон-разработчик, МЕХМАТ"
  = mkUserSkills ADVANCED ADVANCED INTERMEDIATE NONE NONE NONE NONE NONE.
Proof. reflexivity. Qed.

(** ** Levels *)

Lemma value_in_intermediate (l : SkillLevel) :
  value_in l ["intermediate"; "advanced"] = at_least_intermediate l.
Proof. destruct l; reflexivity. Qed.

Lemma value_in_beginner (l : SkillLevel) :
  value_in l ["none"; "beginner"] = below_intermediate l.
Proof. destruct l; reflexivity. Qed.

(** ** The four sub-scores are bounded *)

Section ScoreBounds.
Context `{StrLower}.

Lemma prereq_step_cases (user_skills : UserSkills) (met : Z) (prereq : string) :
  prereq_step user_skills met prereq
  = met + (if credited user_skills prereq then 1 else 0).
Proof.
  unfold credited, prereq_step. split_ifs; simpl; lia.
Qed.

Lemma prereq_loop_count (user_skills : UserSkills) (labels : list string) (met : Z) :
  fold_left (prereq_step user_skills) labels met
  = met + Z.of_nat (length (List.filter (credited user_skills) labels)).
Proof.
  revert met. induction labels as [|p labels IH]; intros met; simpl.
  - lia.
  - rewrite IH, prereq_step_cases.
    destruct (credited user_skills p); simpl length; lia.
Qed.

Lemma filter_length_le {A} (f : A -> bool) (l : list A) :
  (length (List.filter f l) <= length l)%nat.
Proof.
  induction l as [|x l IH]; simpl; [lia|].
  destruct (f x); simpl; lia.
Qed.

(** The readiness is the share of credited labels. *)
Lemma check_prerequisites_fraction (course : Course) (user_skills : UserSkills) :
  _check_prerequisites course user_skills
  = fraction (credited user_skills) (prerequisites course).
Proof.
  unfold _check_prerequisites, fraction.
  destruct (prerequisites course) as [|p labels] eqn:E; [reflexivity|].
  rewrite prereq_loop_count. reflexivity.
Qed.

Lemma fraction_bounds (sat : string -> bool) (labels : list string) :
  (0 <= fraction sat labels <= 1)%Q.
Proof.
  unfold fraction. destruct labels as [|p labels]; [split; discriminate|].
  pose proof (filter_length_le sat (p :: labels)) as Hle.
  set (n := length (p :: labels)) in *.
  set (k := length (List.filter sat (p :: labels))) in *.
  assert (Hn : (0 < inject_Z (Z.of_nat n))%Q).
  { rewrite <- (Zlt_Qlt 0). subst n. simpl length. lia. }
  split.
  - apply Qle_shift_div_l; [exact Hn|].
    rewrite Qmult_0_l. rewrite <- (Zle_Qle 0). lia.
  - apply Qle_shift_div_r; [exact Hn|].
    rewrite Qmult_1_l. rewrite <- Zle_Qle. lia.
Qed.

Lemma check_prerequisites_bounds (course : Course) (user_skills : UserSkills) :
  (0 <= _check_prerequisites course user_skills <= 1)%Q.
Proof. rewrite check_prerequisites_fraction. apply fraction_bounds. Qed.

Lemma capped_ratio_bounds (n : Z) (d : Q) :
  0 <= n -> (0 < d)%Q -> (0 <= Qmin (inject_Z n / d) 1 <= 1)%Q.
Proof.
  intros Hn Hd. split.
  - apply Q.min_glb; [|discriminate].
    apply Qle_shift_div_l; [exact Hd|].
    rewrite Qmult_0_l. rewrite <- (Zle_Qle 0). exact Hn.
  - apply Qle_trans with 1%Q; [apply Q.le_min_r | discriminate].
Qed.

Lemma career_value_bounds (course : Course) :
  (0 <= _calculate_career_value course <= 1)%Q.
Proof.
  unfold _calculate_career_value.
  apply capped_ratio_bounds; [lia | reflexivity].
Qed.

Lemma growth_potential_bounds (course : Course) (user_skills : UserSkills) :
  (0 <= _calculate_growth_potential course user_skills <= 1)%Q.
Proof.
  unfold _calculate_growth_potential.
  destruct (skills_gained course); [split; discriminate|].
  apply capped_ratio_bounds; [|reflexivity].
  split_ifs; lia.
Qed.

Lemma interest_step_nonneg (n d : string) (st : Q * list string) (i : string) :
  (0 <= fst st)%Q -> (0 <= fst (interest_step n d st i))%Q.
Proof.
  destruct st as [q m]. unfold interest_step. simpl.
  destruct (_ || _); simpl; intros Hq; [|exact Hq].
  assert (0 <= 0.4)%Q by discriminate. lra.
Qed.

Lemma interest_loop_nonneg (course : Course) (interests : list string) :
  (0 <= fst (interest_loop course interests))%Q.
Proof.
  unfold interest_loop.
  assert (G : forall st, (0 <= fst st)%Q ->
    (0 <= fst (fold_left (interest_step (lower (name course))
                            (lower (description course))) interests st))%Q).
  { induction interests as [|i interests IH]; intros st Hst; simpl; [exact Hst|].
    apply IH, interest_step_nonneg, Hst. }
  apply G. simpl. discriminate.
Qed.

Lemma interest_subscore_bounds (course : Course) (interests : list string) :
  (0 <= interest_subscore course interests <= 0.4)%Q.
Proof.
  unfold interest_subscore. split.
  - apply Q.min_glb; [apply interest_loop_nonneg | discriminate].
  - apply Q.le_min_r.
Qed.

(** The score is the weighted sum of the four sub-scores. *)
Lemma score_course_sum (course : Course) (user_skills : UserSkills)
    (interests : list string) :
  fst (_score_course course user_skills interests)
  = (0 + interest_subscore course interests
     + _check_prerequisites course user_skills * 0.3
     + _calculate_growth_potential course user_skills * 0.2
     + _calculate_career_value course * 0.1)%Q.
Proof.
  unfold _score_course, interest_subscore.
  destruct (interest_loop course interests) as [interest_score interest_matches].
  reflexivity.
Qed.

(** C1. For every course, every skill profile and every interest list,
    the score returned by [_score_course] lies in the closed interval
    [[0, 1]]. *)
Theorem score_course_in_unit_interval (course : Course)
    (user_skills : UserSkills) (interests : list string) :
  (0 <= fst (_score_course course user_skills interests) <= 1)%Q.
Proof.
  rewrite score_course_sum.
  pose proof (interest_subscore_bounds course interests).
  pose proof (check_prerequisites_bounds course user_skills).
  pose proof (growth_potential_bounds course user_skills).
  pose proof (career_value_bounds course).
  split; lra.
Qed.
End ScoreBounds.

(** ** Readiness: which labels are credited *)

Section Readiness.
Context `{StrLower}.

(** The branching of [prereq_step] against the tables: a label is
    credited through python, or else through the first of the later
    groups it names. *)
Lemma credited_by_groups (user_skills : UserSkills) (prereq : string) :
  credited user_skills prereq
  = matches_group prereq PythonGroup
    && at_least_intermediate (python user_skills)
    || judged_by_first_in later_groups user_skills prereq.
Proof.
  unfold credited, prereq_step, judged_by_first_in, first_group_in,
    later_groups, matches_group, any_in.
  rewrite !value_in_intermediate.
  cbn [group_keywords existsb List.find group_level].
  rewrite !orb_false_r.
  destruct (contains "python" (lower prereq));
    destruct (at_least_intermediate (python user_skills));
    cbn [andb orb]; cbv iota; try reflexivity;
    repeat (match goal with
            | |- context [contains ?a ?t || contains ?b ?t] =>
                destruct (contains a t || contains b t)
            end; cbn [List.find group_level]; cbv iota);
    try reflexivity;
    match goal with
    | |- context [at_least_intermediate ?l] =>
        destruct (at_least_intermediate l)
    end; reflexivity.
Qed.

Lemma judged_by_first_python (user_skills : UserSkills) (prereq : string) :
  judged_by_first_in prereq_groups user_skills prereq
  = if matches_group prereq PythonGroup
    then at_least_intermediate (python user_skills)
    else judged_by_first_in later_groups user_skills prereq.
Proof.
  unfold judged_by_first_in, first_group_in, prereq_groups, later_groups.
  cbn [List.find]. destruct (matches_group prereq PythonGroup); reflexivity.
Qed.

Lemma judged_by_first_any (groups : list PrereqGroup)
    (user_skills : UserSkills) (prereq : string) :
  judged_by_first_in groups user_skills prereq = true ->
  existsb (fun g => matches_group prereq g
                    && at_least_intermediate (group_level user_skills g))
    groups = true.
Proof.
  unfold judged_by_first_in, first_group_in.
  induction groups as [|g groups IH]; cbn [List.find existsb]; [discriminate|].
  destruct (matches_group prereq g) eqn:E; cbn [andb].
  - intros ->. reflexivity.
  - intros Hj. rewrite (IH Hj). reflexivity.
Qed.

Lemma credited_any_group (user_skills : UserSkills) (prereq : string) :
  credited user_skills prereq = true ->
  satisfied_any_group user_skills prereq = true.
Proof.
  rewrite credited_by_groups, orb_true_iff.
  unfold satisfied_any_group, prereq_groups. cbn [existsb group_level].
  intros [Hp | Hj].
  - rewrite Hp. reflexivity.
  - apply judged_by_first_any in Hj. unfold later_groups in Hj.
    cbn [existsb group_level] in Hj. rewrite Hj. apply orb_true_r.
Qed.

Lemma first_group_credited (user_skills : UserSkills) (prereq : string) :
  judged_by_first_in prereq_groups user_skills prereq = true ->
  credited user_skills prereq = true.
Proof.
  rewrite judged_by_first_python, credited_by_groups.
  destruct (matches_group prereq PythonGroup); cbn [andb orb].
  - intros ->. reflexivity.
  - intros ->. reflexivity.
Qed.

Lemma no_group_not_credited (user_skills : UserSkills) (prereq : string) :
  first_group_in prereq_groups prereq = None ->
  credited user_skills prereq = false.
Proof.
  intros Hnone. rewrite credited_by_groups.
  unfold judged_by_first_in.
  unfold first_group_in, prereq_groups in Hnone. cbn [List.find] in Hnone.
  destruct (matches_group prereq PythonGroup); [discriminate|].
  unfold first_group_in, later_groups. cbn [List.find].
  rewrite Hnone. reflexivity.
Qed.

(** C2, amended. The readiness of a course is the share of its
    prerequisite labels that are credited, and 1 for a course without
    prerequisites.  A label is credited only if it names one of the
    five groups whose dimension is at INTERMEDIATE or above; it is
    credited whenever the first group it names (python, ML basics, deep
    learning, statistics/probability, mathematics, in this order) has
    such a dimension; a label that names no group is not credited. *)
Theorem readiness_fraction_of_credited (course : Course)
    (user_skills : UserSkills) :
  _check_prerequisites course user_skills
  = fraction (credited user_skills) (prerequisites course)
  /\ (prerequisites course = [] ->
      _check_prerequisites course user_skills = 1%Q)
  /\ (forall prereq, credited user_skills prereq = true ->
                     satisfied_any_group user_skills prereq = true)
  /\ (forall prereq,
        judged_by_first_in prereq_groups user_skills prereq = true ->
        credited user_skills prereq = true)
  /\ (forall prereq, first_group_in prereq_groups prereq = None ->
                     credited user_skills prereq = false).
Proof.
  split; [apply check_prerequisites_fraction|].
  split.
  { intros E. rewrite check_prerequisites_fraction, E. reflexivity. }
  split; [apply credited_any_group|].
  split; [apply first_group_credited | apply no_group_not_credited].
Qed.

(** C9, amended. Each label adds at most 1 to the counter.  A label that
    does not name python, or names it with python at INTERMEDIATE or
    above, is judged by the first group it names and by no other; and a
    label whose first group among ML basics, deep learning, statistics
    and mathematics has its dimension below INTERMEDIATE is credited
    through no later group (only through python, when it names python
    and python is at INTERMEDIATE or above). *)
Theorem prerequisite_judged_by_first_group (user_skills : UserSkills)
    (prereq : string) (met : Z) :
  (prereq_step user_skills met prereq = met
   \/ prereq_step user_skills met prereq = met + 1)
  /\ (matches_group prereq PythonGroup = false
      \/ at_least_intermediate (python user_skills) = true ->
      credited user_skills prereq
      = judged_by_first_in prereq_groups user_skills prereq)
  /\ (forall g, first_group_in later_groups prereq = Some g ->
        at_least_intermediate (group_level user_skills g) = false ->
        credited user_skills prereq
        = matches_group prereq PythonGroup
          && at_least_intermediate (python user_skills)).
Proof.
  split.
  { rewrite prereq_step_cases.
    destruct (credited user_skills prereq); [right | left]; lia. }
  split.
  - rewrite judged_by_first_python, credited_by_groups.
    intros [-> | ->]; [reflexivity|].
    destruct (matches_group prereq PythonGroup); cbn [andb orb]; reflexivity.
  - intros g Hfirst Hlow. rewrite credited_by_groups.
    unfold judged_by_first_in. rewrite Hfirst, Hlow. apply orb_false_r.
Qed.
End Readiness.

(** ** Keyword lists *)

Lemma any_in_2 (a b t : string) :
  any_in [a; b] t = contains a t || contains b t.
Proof. unfold any_in. cbn [existsb]. rewrite orb_false_r. reflexivity. Qed.

Lemma any_in_3 (a b c t : string) :
  any_in [a; b; c] t = contains a t || contains b t || contains c t.
Proof.
  unfold any_in. cbn [existsb]. rewrite orb_false_r, orb_assoc. reflexivity.
Qed.

Lemma any_in_app (l1 l2 : list string) (t : string) :
  any_in (l1 ++ l2) t = any_in l1 t || any_in l2 t.
Proof. apply existsb_app. Qed.

Lemma any_in_false (l : list string) (t : string) :
  any_in l t = false -> Forall (fun kw => contains kw t = false) l.
Proof.
  unfold any_in. induction l as [|kw l IH]; cbn [existsb]; intros Hl.
  - constructor.
  - apply orb_false_iff in Hl as [Hkw Hl]. constructor; auto.
Qed.

Lemma any_in_sublist_false (l l' : list string) (t : string) :
  Forall (fun kw => contains kw t = false) l ->
  (forall kw, In kw l' -> In kw l) ->
  any_in l' t = false.
Proof.
  intros Hall Hsub. unfold any_in.
  induction l' as [|kw l' IH]; cbn [existsb]; [reflexivity|].
  rewrite Forall_forall in Hall.
  rewrite (Hall kw) by (apply list_elem_of_In, Hsub; left; reflexivity).
  apply IH. intros kw' Hin. apply Hsub. right. exact Hin.
Qed.

(** ** Growth potential *)

Section Growth.
Context `{StrLower}.

(** C8. The growth-potential sub-score is 0.5 for a course without
    granted-skill labels; otherwise it is the number of growth areas
    (NLP, computer vision, deep learning / neural networks, deployment)
    with a keyword in the granted-skill text and a profile dimension at
    NONE or BEGINNER, capped at 2 and divided by 2. *)
Theorem growth_potential_by_areas (course : Course) (user_skills : UserSkills) :
  (_calculate_growth_potential course user_skills
   == growth_by_areas course user_skills)%Q.
Proof.
  unfold _calculate_growth_potential, growth_by_areas, open_growth_areas.
  destruct (skills_gained course) as [|label labels]; [reflexivity|].
  unfold growth_areas. cbn [List.filter area_keywords area_level].
  rewrite !value_in_beginner, <- !any_in_3, <- !any_in_2.
  generalize (lower (join " " (label :: labels))). intros text.
  destruct (any_in ["nlp"; "text"] text),
    (any_in ["cv"; "vision"; "image"] text),
    (any_in ["pytorch"; "нейрон"] text),
    (any_in ["docker"; "deploy"] text),
    (below_intermediate (nlp user_skills)),
    (below_intermediate (computer_vision user_skills)),
    (below_intermediate (deep_learning user_skills)),
    (below_intermediate (mlops user_skills)); reflexivity.
Qed.
End Growth.

(** ** The skill profile *)

Section Profile.
Context `{StrLower}.

Lemma from_background_level (background : string) (d : Dimension) :
  level_of (from_background background) d
  = derived_level (lower background) d.
Proof.
  unfold from_background, derived_level, seniority_keywords,
    quantitative_keywords, data_science_keywords.
  rewrite <- (any_in_2 "senior" "lead").
  generalize (lower background). intros text.
  destruct d; cbn [dimension_keywords];
    unfold data_science_keywords, quantitative_keywords;
    rewrite ?any_in_app;
    repeat match goal with
           | |- context [any_in ?l text] =>
               generalize (any_in l text); intros ?
           end;
    repeat match goal with
           | b : bool |- _ => destruct b
           end; reflexivity.
Qed.

Lemma from_background_no_keyword (background : string) :
  any_in background_keywords (lower background) = false ->
  from_background background = default_skills.
Proof.
  intros Hno. apply any_in_false in Hno.
  unfold from_background.
  rewrite <- (any_in_2 "senior" "lead").
  repeat match goal with
         | |- context [any_in ?l (lower background)] =>
             rewrite (any_in_sublist_false _ l _ Hno)
               by (intros kw Hin; cbn in Hin |- *; intuition)
         end.
  reflexivity.
Qed.

(** C6. The profile derived from a background is read off the
    case-folded text: a dimension is INTERMEDIATE exactly when one of
    its keywords occurs, except that "senior" or "lead" makes python
    ADVANCED and a quantitative-training keyword makes math ADVANCED and
    statistics at least INTERMEDIATE; a dimension without a keyword hit
    stays NONE, so a background without any keyword, and the empty
    background, give the all-NONE profile. *)
Theorem from_background_by_keywords (Hempty : lower "" = "")
    (background : string) :
  (forall d, level_of (from_background background) d
             = derived_level (lower background) d)
  /\ (any_in background_keywords (lower background) = false ->
      from_background background = default_skills)
  /\ from_background "" = default_skills.
Proof.
  split; [apply from_background_level|].
  split; [apply from_background_no_keyword|].
  unfold from_background. rewrite Hempty. reflexivity.
Qed.
End Profile.

(** ** The catalog loader *)

Lemma chars_cons (c : ascii) (rest : string) :
  exists g gs, chars (String c rest) = g :: gs.
Proof.
  cbn [chars]. destruct (chars rest) as [|g gs]; [eauto|].
  destruct (continues g); eauto.
Qed.

Lemma new_course_raises (program_name course_data : json) (e : exn) :
  entry_error course_data = Some e ->
  new_course program_name course_data = Raise e.
Proof.
  unfold entry_error, new_course, py_getitem.
  destruct course_data as [| | | | | |items]; intros He;
    try (injection He as <-; reflexivity).
  destruct (dict_get "name" items); [discriminate He|].
  injection He as <-. reflexivity.
Qed.

Lemma new_course_returns (program_name course_data : json) :
  entry_error course_data = None ->
  exists o, new_course program_name course_data = Ok o.
Proof.
  unfold entry_error, new_course, py_getitem.
  destruct course_data as [| | | | | |items]; try discriminate.
  destruct (dict_get "name" items); [|discriminate].
  intros _. eexists. reflexivity.
Qed.


Lemma load_course_list_outcome (program_name : json)
    (courses : list CourseObject) (l : list json) :
  load_course_list program_name courses l
  = match head (omap entry_error l) with
    | Some e => Raise e
    | None =>
        Ok (courses
            ++ omap (fun course_data => entry_object (program_name, course_data)) l)
    end.
Proof.
  revert courses. induction l as [|course_data l IH]; intros courses.
  - cbn. rewrite app_nil_r. reflexivity.
  - cbn [load_course_list omap list_omap]. unfold load_course.
    destruct (entry_error course_data) as [e|] eqn:He.
    + rewrite (new_course_raises program_name _ e He). reflexivity.
    + destruct (new_course_returns program_name _ He) as [o Ho].
      unfold entry_object at 1. cbn [fst snd]. rewrite Ho.
      cbn [mbind result_bind]. rewrite IH.
      destruct (head (omap entry_error l)); [reflexivity|].
      rewrite <- app_assoc. reflexivity.
Qed.

Lemma load_course_list_str (program_name : json) (courses : list CourseObject)
    (s : string) (l : list json) :
  load_course_list program_name courses (JString s :: l) = Raise TypeError.
Proof. reflexivity. Qed.

Lemma omap_entries (program_name : json) (l : list json) :
  omap entry_object ((fun course_data => (program_name, course_data)) <$> l)
  = omap (fun course_data => entry_object (program_name, course_data)) l.
Proof.
  induction l as [|course_data l IH]; [reflexivity|].
  cbn [fmap list_fmap omap list_omap]. rewrite IH. reflexivity.
Qed.

(** The outcome of one file: the exception of the source, or the
    instances of its entries appended to the courses loaded so far. *)
Lemma load_file_outcome (fs : string -> FileRead) (courses : list CourseObject)
    (filename : string) :
  load_file fs courses filename
  = match source_error (fs (DATA_DIR +:+ "/" +:+ filename)) with
    | Some e => Raise e
    | None =>
        Ok (courses
            ++ omap entry_object
                 (file_entries (fs (DATA_DIR +:+ "/" +:+ filename))))
    end.
Proof.
  unfold load_file, source_error, file_entries.
  destruct (fs (DATA_DIR +:+ "/" +:+ filename)) as [e|data].
  { destruct (handled e); [|reflexivity]. cbn. rewrite app_nil_r. reflexivity. }
  destruct data as [| | | | | |items]; try reflexivity.
  cbn [py_get mbind result_bind].
  destruct (dict_get "courses" items) as [course_list|];
    unfold get, default; cbn [from_option id].
  2: { cbn. rewrite app_nil_r. reflexivity. }
  destruct course_list as [| | | |s|elements|keys]; try reflexivity.
  - destruct s as [|c rest]; [cbn; rewrite app_nil_r; reflexivity|].
    cbn [py_iter mbind result_bind].
    destruct (chars_cons c rest) as (g & gs & ->). reflexivity.
  - cbn [py_iter mbind result_bind]. rewrite load_course_list_outcome.
    rewrite omap_entries. reflexivity.
  - destruct keys as [|[k v] keys]; [cbn; rewrite app_nil_r; reflexivity|].
    reflexivity.
Qed.

Lemma source_error_not_handled (r : FileRead) (e : exn) :
  source_error r = Some e -> handled e = false.
Proof.
  unfold source_error. destruct r as [e'|data].
  { destruct (handled e') eqn:Hh; [discriminate|]. congruence. }
  destruct data as [| | | | | |items]; try (intros [= <-]; reflexivity).
  destruct (dict_get "courses" items) as [course_list|]; [|discriminate].
  destruct course_list as [| | | |s|elements|keys];
    try (intros [= <-]; reflexivity).
  - destruct s; [discriminate | intros [= <-]; reflexivity].
  - induction elements as [|course_data elements IH]; [discriminate|].
    cbn [omap list_omap]. destruct (entry_error course_data) as [e'|] eqn:He.
    + cbn. intros [= <-]. unfold entry_error in He.
      destruct course_data as [| | | | | |d]; try (injection He as <-; reflexivity).
      destruct (dict_get "name" d); [discriminate|].
      injection He as <-. reflexivity.
    + exact IH.
  - destruct keys; [discriminate | intros [= <-]; reflexivity].
Qed.

Lemma passed_over_outcome (r : FileRead) :
  passed_over r = true -> source_error r = None /\ file_entries r = [].
Proof.
  unfold passed_over, source_error, file_entries.
  destruct r as [e|data].
  { intros ->. split; reflexivity. }
  destruct data as [| | | | | |items]; try discriminate.
  destruct (dict_get "courses" items) as [course_list|]; [|split; reflexivity].
  destruct course_list as [| | | |s|elements|keys]; try discriminate.
  - destruct s; [split; reflexivity | discriminate].
  - destruct elements; [split; reflexivity | discriminate].
  - destruct keys; [split; reflexivity | discriminate].
Qed.

Lemma no_record_raises (r : FileRead) :
  yields_no_record r = true -> passed_over r = false ->
  exists e, source_error r = Some e.
Proof.
  unfold yields_no_record, source_records, passed_over, source_error.
  destruct r as [e|data].
  { intros _ ->. eauto. }
  destruct data as [| | | | | |items]; eauto.
  destruct (dict_get "courses" items) as [course_list|]; [|discriminate].
  destruct course_list as [| | | |s|elements|keys]; eauto.
  - destruct s; [discriminate | eauto].
  - destruct elements; discriminate.
  - destruct keys; [discriminate | eauto].
Qed.

Lemma passed_over_no_record (r : FileRead) :
  passed_over r = true -> yields_no_record r = true.
Proof.
  unfold yields_no_record, source_records, passed_over.
  destruct r as [e|data]; [reflexivity|].
  destruct data as [| | | | | |items]; try reflexivity.
  destruct (dict_get "courses" items) as [course_list|]; [|reflexivity].
  destruct course_list as [| | | |s|elements|keys]; try reflexivity.
  destruct elements; [reflexivity | discriminate].
Qed.

(** C7. When every catalog source is a missing file, a file that is not
    JSON, or an object whose ["courses"] is absent or empty, the loader
    returns the built-in seed catalog, which has 12 courses and covers two
    distinct programs.  When the sources yield no record but one of them
    does so in another way (a file that cannot be read, a document that is
    not an object, a ["courses"] that is [null] or of another type), the
    loader raises instead. *)
Theorem load_courses_falls_back_to_seed (fs : string -> FileRead) :
  (Forall (fun path => passed_over (fs path) = true) catalog_paths ->
   Forall (fun path => yields_no_record (fs path) = true) catalog_paths
   /\ _load_courses fs = Ok (course_object <$> _get_default_courses))
  /\ (Forall (fun path => yields_no_record (fs path) = true) catalog_paths ->
      Exists (fun path => passed_over (fs path) = false) catalog_paths ->
      exists e, _load_courses fs = Raise e /\ handled e = false)
  /\ length _get_default_courses = 12%nat
  /\ exists c1 c2, In c1 _get_default_courses /\ In c2 _get_default_courses
                   /\ program c1 <> program c2.
Proof.
  split; [|split; [|split]].
  - intros Hover. split.
    { eapply Forall_impl; [exact Hover|]. intros path. apply passed_over_no_record. }
    unfold catalog_paths in Hover. cbn [fmap list_fmap] in Hover.
    apply Forall_cons_1 in Hover as [H1 Hover].
    apply Forall_cons_1 in Hover as [H2 _].
    apply passed_over_outcome in H1 as [He1 Hf1].
    apply passed_over_outcome in H2 as [He2 Hf2].
    unfold _load_courses. cbn [load_files].
    rewrite load_file_outcome, He1, Hf1. cbn [mbind result_bind omap list_omap app].
    rewrite load_file_outcome, He2, Hf2. reflexivity.
  - intros Hnone Hex.
    unfold catalog_paths in Hnone, Hex. cbn [fmap list_fmap] in Hnone, Hex.
    apply Forall_cons_1 in Hnone as [H1 Hnone].
    apply Forall_cons_1 in Hnone as [H2 _].
    unfold _load_courses. cbn [load_files]. rewrite load_file_outcome.
    destruct (passed_over (fs (DATA_DIR +:+ "/" +:+ "ai_program.json"))) eqn:Hp1.
    + destruct (passed_over_outcome _ Hp1) as [He1 Hf1]. rewrite He1, Hf1.
      cbn [mbind result_bind omap list_omap app]. rewrite load_file_outcome.
      apply Exists_cons in Hex as [Hq1 | Hex]; [congruence|].
      apply Exists_cons in Hex as [Hp2 | Hex]; [|inversion Hex].
      destruct (no_record_raises _ H2 Hp2) as [e He]. rewrite He.
      exists e. split; [reflexivity|]. exact (source_error_not_handled _ _ He).
    + destruct (no_record_raises _ H1 Hp1) as [e He]. rewrite He.
      exists e. split; [reflexivity|]. exact (source_error_not_handled _ _ He).
  - reflexivity.
  - exists (mkCourse "Машинное обучение" "AI" 1 "обязательная" 4
              "Основы ML: регрессия, классификация, кластеризация"
              ["Python"; "Линейная алгебра"]
              ["sklearn"; "pandas"; "ML pipelines"] "medium"),
           (mkCourse "AI Ethics" "AI Product" 2 "выборная" 2
              "Этика искусственного интеллекта"
              []
              ["AI Ethics"; "Responsible AI"; "Bias detection"] "medium").
    split; [left; reflexivity|].
    split; [do 11 right; left; reflexivity|].
    discriminate.
Qed.

(** ** Interest matching *)

Lemma append_empty_r (s : string) : s +:+ "" = s.
Proof. induction s as [|c s IH]; [reflexivity|]. rewrite append_cons, IH. reflexivity. Qed.

Lemma append_assoc (a b c : string) : (a +:+ b) +:+ c = a +:+ b +:+ c.
Proof.
  induction a as [|x a IH]; [reflexivity|].
  rewrite !append_cons, IH. reflexivity.
Qed.

Lemma join_cons (sep x : string) (l : list string) :
  exists rest, join sep (x :: l) = x +:+ rest.
Proof.
  destruct l as [|y l].
  - exists "". unfold join. cbn [String.concat]. symmetry. apply append_empty_r.
  - eexists. unfold join. cbn [String.concat]. reflexivity.
Qed.

Section Interests.
Context `{StrLower}.

Lemma interest_fold (course : Course) (interests : list string)
    (st : Q * list string) :
  let out := fold_left (interest_step (lower (name course))
                          (lower (description course))) interests st in
  snd out = snd st ++ List.filter (interest_matches_course course) interests
  /\ (fst st <= fst out)%Q
  /\ (existsb (interest_matches_course course) interests = true ->
      (fst st + 0.4 <= fst out)%Q).
Proof.
  revert st. induction interests as [|i interests IH]; intros [q m]; cbn zeta.
  - cbn [fold_left List.filter existsb fst snd]. rewrite app_nil_r.
    split; [reflexivity|]. split; [apply Qle_refl | discriminate].
  - cbn [fold_left List.filter existsb].
    unfold interest_step at 2 4 6. fold (interest_matches_course course i).
    destruct (interest_matches_course course i).
    + destruct (IH ((q + 0.4)%Q, m ++ [i])) as (Hs & Hle & _).
      cbn [fst snd] in *. rewrite Hs, <- app_assoc.
      split; [reflexivity|].
      assert (0 <= 0.4)%Q by discriminate.
      split; [lra | intros _; exact Hle].
    + destruct (IH (q, m)) as (Hs & Hle & Hex).
      cbn [fst snd orb] in *. auto.
Qed.

Lemma interest_loop_matches (course : Course) (interests : list string) :
  snd (interest_loop course interests)
  = List.filter (interest_matches_course course) interests.
Proof. apply (interest_fold course interests (0%Q, [])). Qed.

Lemma reasoning_starts_with_interests (course : Course)
    (user_skills : UserSkills) (interests : list string) :
  snd (interest_loop course interests) <> [] ->
  exists rest,
    snd (_score_course course user_skills interests)
    = "Соответствует интересам: "
      +:+ join ", " (snd (interest_loop course interests)) +:+ rest.
Proof.
  unfold _score_course.
  destruct (interest_loop course interests) as [q [|m ms]]; cbn [snd];
    [congruence|]. intros _. cbv zeta.
  set (clause := "Соответствует интересам: " +:+ join ", " (m :: ms)).
  cbn [app snd].
  assert (G : forall more, exists rest,
    match [clause] ++ more with
    | [] => "Общий выборный курс"
    | _ :: _ => join "; " ([clause] ++ more)
    end = "Соответствует интересам: " +:+ join ", " (m :: ms) +:+ rest).
  { intros more. cbn [app].
    destruct (join_cons "; " clause more) as [rest ->].
    exists rest. unfold clause. apply append_assoc. }
  split_ifs; cbn [app];
    first [ apply (G []) | apply (G [_]) | apply (G [_; _])
          | apply (G [_; _; _]) ].
Qed.

(** C10. If the interest list contains the empty string, then for every
    course the interest sub-score is at its cap 0.4, the empty interest
    is among the recorded matches, and the reasoning opens with the
    interest clause listing the matches. *)
Theorem empty_interest_matches_every_course (Hempty : lower "" = "")
    (course : Course) (user_skills : UserSkills) (interests : list string) :
  In "" interests ->
  (interest_subscore course interests == 0.4)%Q
  /\ In "" (snd (interest_loop course interests))
  /\ exists rest,
       snd (_score_course course user_skills interests)
       = "Соответствует интересам: "
         +:+ join ", " (snd (interest_loop course interests)) +:+ rest.
Proof.
  intros Hin.
  assert (Hm : interest_matches_course course "" = true).
  { unfold interest_matches_course. rewrite Hempty, contains_empty. reflexivity. }
  assert (Hmatch : In "" (snd (interest_loop course interests))).
  { rewrite interest_loop_matches. apply filter_In. auto. }
  split; [|split; [exact Hmatch|]].
  - unfold interest_subscore. apply Q.min_r.
    destruct (interest_fold course interests (0%Q, [])) as (_ & _ & Hcap).
    cbn [fst] in Hcap. unfold interest_loop.
    assert (Hex : existsb (interest_matches_course course) interests = true).
    { apply existsb_exists. exists "". auto. }
    specialize (Hcap Hex). lra.
  - apply reasoning_starts_with_interests.
    intros E. rewrite E in Hmatch. destruct Hmatch.
Qed.
End Interests.

(** ** Sorting, slicing and the heap *)

Section SortReverse.
Context {A : Type} (key : A -> Q).

Local Abbreviation key_ge := (key_ge key).

Lemma Qltb_true (x y : Q) : Qltb x y = true -> (x <= y)%Q.
Proof.
  unfold Qltb. rewrite negb_true_iff. intros Hb.
  apply Qlt_le_weak, Qnot_le_lt. intros Hle.
  apply Qle_bool_iff in Hle. congruence.
Qed.

Lemma Qltb_false (x y : Q) : Qltb x y = false -> (y <= x)%Q.
Proof.
  unfold Qltb. rewrite negb_false_iff. apply Qle_bool_iff.
Qed.

Lemma insert_reverse_perm (x : A) (l : list A) :
  Permutation (insert_reverse key x l) (x :: l).
Proof.
  induction l as [|y l IH]; cbn [insert_reverse]; [reflexivity|].
  destruct (Qltb (key x) (key y)); [|reflexivity].
  rewrite IH. apply perm_swap.
Qed.

Lemma sort_reverse_perm (l : list A) : Permutation (sort_reverse key l) l.
Proof.
  induction l as [|x l IH]; cbn; [reflexivity|].
  change (foldr (insert_reverse key) [] l) with (sort_reverse key l).
  rewrite insert_reverse_perm, IH. reflexivity.
Qed.

Lemma insert_reverse_sorted (x : A) (l : list A) :
  StronglySorted key_ge l -> StronglySorted key_ge (insert_reverse key x l).
Proof.
  induction 1 as [|y l Hsorted IH Hall]; cbn [insert_reverse].
  - repeat constructor.
  - destruct (Qltb (key x) (key y)) eqn:E.
    + constructor; [exact IH|].
      apply (Permutation_Forall (Permutation_sym (insert_reverse_perm x l))).
      constructor; [|exact Hall]. apply Qltb_true, E.
    + apply Qltb_false in E.
      constructor; [constructor; assumption|].
      constructor; [exact E|].
      eapply Forall_impl; [exact Hall|].
      intros z Hz. unfold key_ge in *. apply Qle_trans with (key y); assumption.
Qed.

Lemma sort_reverse_sorted (l : list A) :
  StronglySorted key_ge (sort_reverse key l).
Proof.
  induction l as [|x l IH]; cbn; [constructor|].
  apply insert_reverse_sorted, IH.
Qed.

(** Equal keys keep their order: the sort does not move an element
    that is already in place. *)
Lemma insert_reverse_head (x : A) (l : list A) :
  Forall (fun y => (key y <= key x)%Q) l -> insert_reverse key x l = x :: l.
Proof.
  destruct l as [|y l]; [reflexivity|]. cbn [insert_reverse].
  intros Hall. apply Forall_cons_1 in Hall as [Hy _].
  unfold Qltb. apply Qle_bool_iff in Hy. rewrite Hy. reflexivity.
Qed.
End SortReverse.

Lemma StronglySorted_take {A} (R : A -> A -> Prop) (k : nat) (l : list A) :
  StronglySorted R l -> StronglySorted R (take k l).
Proof.
  intros Hs. revert k. induction Hs as [|x l Hs IH Hall]; intros [|k]; cbn;
    try constructor; auto.
  apply Forall_take, Hall.
Qed.

Lemma StronglySorted_Forall2 {A B} (R1 : A -> A -> Prop) (R2 : B -> B -> Prop)
    (P : A -> B -> Prop) (l : list A) (l' : list B) :
  (forall a1 a2 b1 b2, P a1 b1 -> P a2 b2 -> R1 a1 a2 -> R2 b1 b2) ->
  Forall2 P l l' -> StronglySorted R1 l -> StronglySorted R2 l'.
Proof.
  intros Hrel HP. induction HP as [|a b l l' Hab HP IH]; intros Hs.
  - constructor.
  - apply StronglySorted_inv in Hs as [Hs Hall].
    constructor; [apply IH, Hs|].
    clear IH Hs. induction HP as [|a' b' l l' Ha'b' HP IH]; constructor.
    + apply Forall_cons_1 in Hall as [Ha _]. eapply Hrel; eauto.
    + apply IH. apply Forall_cons_1 in Hall as [_ Hall]. exact Hall.
Qed.

Lemma StronglySorted_lookup {A} (R : A -> A -> Prop) (l : list A)
    (i j : nat) (a b : A) :
  StronglySorted R l -> (i < j)%nat -> l !! i = Some a -> l !! j = Some b -> R a b.
Proof.
  intros Hs. revert i j. induction Hs as [|x l Hs IH Hall]; intros i j Hij Ha Hb.
  - discriminate.
  - destruct j as [|j]; [lia|]. destruct i as [|i]; cbn in Ha, Hb.
    + injection Ha as <-. rewrite Forall_forall in Hall.
      apply Hall. eapply list_elem_of_lookup_2, Hb.
    + apply (IH i j); [lia | assumption | assumption].
Qed.

Lemma filter_filter_andb {A} (f g : A -> bool) (l : list A) :
  List.filter g (List.filter f l) = List.filter (fun x => f x && g x) l.
Proof.
  induction l as [|x l IH]; [reflexivity|]. cbn [List.filter].
  destruct (f x); cbn [andb List.filter]; [destruct (g x)|]; rewrite IH; reflexivity.
Qed.

(** [slice_to] keeps a prefix. *)
Lemma slice_to_take {A} (l : list A) (stop : Z) :
  exists k, slice_to l stop = take k l.
Proof. unfold slice_to. destruct (stop <? 0); eauto. Qed.

Lemma slice_to_nil {A} (stop : Z) : slice_to (@nil A) stop = [].
Proof. unfold slice_to. destruct (stop <? 0); apply take_nil. Qed.

Lemma match_list_default {A B} (l : list A) (a b : B) :
  (l = [] -> a = b) ->
  match l with [] => a | _ :: _ => b end = b.
Proof. destruct l; auto. Qed.

Lemma slice_to_length {A} (l : list A) (stop : Z) :
  0 < stop ->
  Z.of_nat (length (slice_to l stop)) = Z.min stop (Z.of_nat (length l)).
Proof.
  intros Hpos. unfold slice_to.
  destruct (Z.ltb_spec stop 0) as [Hneg|_]; [lia|].
  rewrite length_take. lia.
Qed.

Lemma with_priorities_length (i : Z) (l : list CourseRecommendation) :
  length (with_priorities i l) = length l.
Proof. revert i. induction l as [|x l IH]; intros i; cbn; [|rewrite IH]; reflexivity. Qed.

Lemma with_priorities_priority (i : Z) (l : list CourseRecommendation) :
  priority <$> with_priorities i l = seqZ (i + 1) (Z.of_nat (length l)).
Proof.
  revert i. induction l as [|x l IH]; intros i.
  - reflexivity.
  - cbn [with_priorities length]. rewrite fmap_cons, IH.
    rewrite (seqZ_cons (i + 1)) by lia. cbn [set_priority priority].
    f_equal. f_equal; lia.
Qed.

Lemma with_priorities_score (i : Z) (l : list CourseRecommendation) :
  Forall2 (fun x y => score y = score x) l (with_priorities i l).
Proof.
  revert i. induction l as [|x l IH]; intros i; cbn; constructor; auto.
Qed.

Section Heap.
Implicit Types (h : heap) (refs : list ref).

Lemma deref_valid h refs :
  valid_refs h refs ->
  Forall2 (fun r x => h !! r = Some x) refs (deref h refs).
Proof.
  unfold deref. induction 1 as [|r refs [x Hx] Hall IH]; cbn [omap list_omap].
  - constructor.
  - rewrite Hx. constructor; assumption.
Qed.

Lemma deref_cons h (r : ref) refs (x : CourseRecommendation) :
  h !! r = Some x -> deref h (r :: refs) = x :: deref h refs.
Proof. intros Hx. unfold deref. cbn [omap list_omap]. rewrite Hx. reflexivity. Qed.

Lemma deref_length h refs :
  valid_refs h refs -> length (deref h refs) = length refs.
Proof. intros Hv. symmetry. eapply Forall2_length, deref_valid, Hv. Qed.

Lemma deref_alter_other h refs (f : CourseRecommendation -> CourseRecommendation)
    (r : ref) :
  r ∉ refs -> deref (alter f r h) refs = deref h refs.
Proof.
  unfold deref. induction refs as [|r' refs IH]; intros Hnot; [reflexivity|].
  apply not_elem_of_cons in Hnot as [Hne Hnot].
  cbn [omap list_omap]. rewrite list_lookup_alter_ne by congruence.
  rewrite IH by exact Hnot. reflexivity.
Qed.

Lemma assign_priorities_other (i : Z) refs h (r : ref) :
  r ∉ refs -> assign_priorities i refs h !! r = h !! r.
Proof.
  revert i h. induction refs as [|r' refs IH]; intros i h Hnot; [reflexivity|].
  apply not_elem_of_cons in Hnot as [Hne Hnot].
  cbn [assign_priorities]. rewrite IH by exact Hnot.
  apply list_lookup_alter_ne. congruence.
Qed.

Lemma valid_refs_alter h refs (f : CourseRecommendation -> CourseRecommendation)
    (r : ref) :
  valid_refs h refs -> valid_refs (alter f r h) refs.
Proof.
  unfold valid_refs. intros Hv. eapply Forall_impl; [exact Hv|].
  intros r' Hr'.
  apply lookup_lt_is_Some. rewrite length_alter.
  apply lookup_lt_is_Some, Hr'.
Qed.

(** The loop that sets the priorities, seen through the references it
    walks: the objects are distinct, so each keeps the priority of its
    own turn. *)
Lemma deref_assign_priorities (i : Z) refs h :
  NoDup refs -> valid_refs h refs ->
  deref (assign_priorities i refs h) refs = with_priorities i (deref h refs).
Proof.
  revert i h. induction refs as [|r refs IH]; intros i h Hnd Hv; [reflexivity|].
  apply NoDup_cons in Hnd as [Hnot Hnd].
  apply Forall_cons_1 in Hv as [[x Hx] Hv].
  cbn [assign_priorities].
  rewrite (deref_cons h r refs x Hx).
  rewrite (deref_cons _ r refs (set_priority (i + 1) x)).
  - cbn [with_priorities]. f_equal.
    rewrite IH by (auto using valid_refs_alter).
    rewrite deref_alter_other by exact Hnot. reflexivity.
  - rewrite assign_priorities_other by exact Hnot.
    rewrite list_lookup_alter_eq, Hx. reflexivity.
Qed.
End Heap.

(** ** The ranker *)

Section Ranking.
Context `{StrLower}.

(** The scoring loop allocates one object per elective, in order. *)
Lemma score_loop (user_skills : UserSkills) (interests : list string)
    (electives : list Course) (refs : list ref) (h : heap) :
  fold_left (score_step user_skills interests) electives (refs, h)
  = (refs ++ seq (length h) (length electives),
     h ++ (scored user_skills interests <$> electives)).
Proof.
  revert refs h. induction electives as [|c electives IH]; intros refs h.
  - cbn. rewrite !app_nil_r. reflexivity.
  - cbn [fold_left]. unfold score_step at 2, alloc.
    destruct (_score_course c user_skills interests) as [sc reason] eqn:E.
    rewrite IH. rewrite length_app. cbn [length seq fmap list_fmap].
    rewrite <- !app_assoc. cbn [app]. unfold scored at 2. rewrite E. cbn [fst snd].
    repeat f_equal. lia.
Qed.

(** What the caller reads, as a list of values: the objects of the
    electives, sorted, cut and numbered. *)
Lemma recommend_courses_values (courses : list Course) (user_background : string)
    (interests : list string) (program_filter : option string)
    (max_recommendations : Z) :
  let electives := get_elective_courses courses program_filter in
  let h := scored (from_background user_background) interests <$> electives in
  let refs := slice_to (sort_reverse (score_of h) (seq 0 (length electives)))
                max_recommendations in
  recommend_courses courses user_background interests program_filter
    max_recommendations
  = with_priorities 0 (deref h refs)
  /\ valid_refs h refs
  /\ StronglySorted (key_ge (score_of h)) refs.
Proof.
  intros electives h refs.
  assert (Hperm : Permutation (sort_reverse (score_of h) (seq 0 (length electives)))
                    (seq 0 (length electives))) by apply sort_reverse_perm.
  destruct (slice_to_take (sort_reverse (score_of h) (seq 0 (length electives)))
              max_recommendations) as [k Hk].
  assert (Hvalid : valid_refs h refs).
  { subst refs. rewrite Hk. apply Forall_take.
    apply (Permutation_Forall (Permutation_sym Hperm)).
    apply Forall_forall. intros r Hr. apply elem_of_seq in Hr.
    apply lookup_lt_is_Some. subst h. rewrite length_fmap. lia. }
  assert (Hnodup : NoDup refs).
  { subst refs. rewrite Hk.
    eapply sublist_NoDup; [|apply sublist_take].
    rewrite Hperm. apply NoDup_seq. }
  split; [|split; [exact Hvalid|]].
  - unfold recommend_courses, recommend_courses_refs. fold electives.
    erewrite match_list_default.
    + rewrite score_loop. cbn [app length]. fold h. fold refs.
      apply deref_assign_priorities; assumption.
    + intros E. rewrite E. cbn. rewrite slice_to_nil. reflexivity.
  - subst refs. rewrite Hk. apply StronglySorted_take, sort_reverse_sorted.
Qed.

Lemma score_of_lookup (h : heap) (r : ref) (x : CourseRecommendation) :
  h !! r = Some x -> score_of h r = score x.
Proof. unfold score_of. intros ->. reflexivity. Qed.

(** The electives the code keeps are the candidates of the ranker: the
    test [if program:] skips the filter only where it would keep every
    course. *)
Lemma get_elective_courses_filtered (Hempty : lower "" = "")
    (courses : list Course) (program_filter : option string) :
  get_elective_courses courses program_filter
  = filtered_candidates courses program_filter.
Proof.
  unfold get_elective_courses, filtered_candidates.
  destruct program_filter as [[|a p]|]; cbn [passes_program_filter].
  - apply filter_ext. intros c. rewrite Hempty, contains_empty, andb_true_r.
    reflexivity.
  - apply filter_filter_andb.
  - apply filter_ext. intros c. rewrite andb_true_r. reflexivity.
Qed.

(** C3. The list returned by [recommend_courses] is in non-increasing
    score order (each element's score is at least its successor's), and
    the priorities of its [k] elements are 1, ..., [k], in this order. *)
Theorem recommendations_sorted_and_numbered (courses : list Course)
    (user_background : string) (interests : list string)
    (program_filter : option string) (max_recommendations : Z) :
  let out := recommend_courses courses user_background interests
               program_filter max_recommendations in
  Sorted score_ge out
  /\ (forall i a b, out !! i = Some a -> out !! S i = Some b ->
                    (score b <= score a)%Q)
  /\ priority <$> out = seqZ 1 (Z.of_nat (length out)).
Proof.
  intros out. subst out.
  destruct (recommend_courses_values courses user_background interests
              program_filter max_recommendations) as (-> & Hvalid & Hsorted).
  match goal with
  | |- Sorted _ ?l /\ _ => assert (Hs : StronglySorted score_ge l)
  end.
  { eapply StronglySorted_Forall2;
      [| apply with_priorities_score
       | eapply StronglySorted_Forall2;
         [| apply deref_valid, Hvalid | exact Hsorted ] ].
    - intros x1 x2 y1 y2 E1 E2. unfold score_ge. rewrite E1, E2. exact id.
    - intros r1 r2 x1 x2 E1 E2. unfold key_ge.
      rewrite (score_of_lookup _ _ _ E1), (score_of_lookup _ _ _ E2). exact id. }
  split; [apply StronglySorted_Sorted, Hs|]. split.
  - intros i a b Ha Hb.
    apply (StronglySorted_lookup _ _ i (S i) a b Hs); [lia | exact Ha | exact Hb].
  - rewrite with_priorities_priority, with_priorities_length. reflexivity.
Qed.

(** C4. For a limit above 0, [recommend_courses] returns as many
    recommendations as the smaller of the limit and the number of
    elective courses that pass the program filter; when no elective
    passes, the result is the empty list. *)
Theorem recommendations_length (Hempty : lower "" = "")
    (courses : list Course)
    (user_background : string) (interests : list string)
    (program_filter : option string) (max_recommendations : Z) :
  0 < max_recommendations ->
  Z.of_nat (length (recommend_courses courses user_background interests
                      program_filter max_recommendations))
  = Z.min max_recommendations
      (Z.of_nat (length (filtered_candidates courses program_filter)))
  /\ (filtered_candidates courses program_filter = [] ->
      recommend_courses courses user_background interests
        program_filter max_recommendations = []).
Proof.
  intros Hpos. rewrite <- (get_elective_courses_filtered Hempty).
  destruct (recommend_courses_values courses user_background interests
              program_filter max_recommendations) as (Hout & Hvalid & _).
  split.
  - rewrite Hout, with_priorities_length, deref_length by exact Hvalid.
    rewrite slice_to_length by exact Hpos.
    rewrite (Permutation_length (sort_reverse_perm _ _)), length_seq.
    reflexivity.
  - intros E. unfold recommend_courses, recommend_courses_refs.
    rewrite E. reflexivity.
Qed.
End Ranking.

(** ** The study plan *)

Lemma fold_insert_lookup (keys : list Z) (plan : gmap Z (list Course)) (t : Z) :
  fold_left (fun plan i => <[i := []]> plan) keys plan !! t
  = if bool_decide (t ∈ keys) then Some [] else plan !! t.
Proof.
  revert plan. induction keys as [|k keys IH]; intros plan; cbn [fold_left].
  - reflexivity.
  - rewrite IH. destruct (decide (t = k)) as [->|Hne].
    + rewrite lookup_insert_eq.
      rewrite (bool_decide_eq_true_2 (k ∈ k :: keys)) by apply list_elem_of_here.
      destruct (bool_decide (k ∈ keys)); reflexivity.
    + rewrite lookup_insert_ne by congruence.
      destruct (decide (t ∈ keys)) as [Hin|Hnot].
      * rewrite !bool_decide_eq_true_2; [reflexivity | | exact Hin].
        apply list_elem_of_further, Hin.
      * rewrite !bool_decide_eq_false_2; [reflexivity | | exact Hnot].
        rewrite elem_of_cons. tauto.
Qed.

Lemma empty_plan_lookup (semesters t : Z) :
  empty_plan semesters !! t
  = if bool_decide (1 <= t <= semesters) then Some [] else None.
Proof.
  unfold empty_plan. rewrite fold_insert_lookup, lookup_empty.
  rewrite (bool_decide_ext (t ∈ seqZ 1 semesters) (1 <= t <= semesters));
    [reflexivity|].
  rewrite elem_of_seqZ. lia.
Qed.

Lemma plan_loop_buckets (semesters : Z)
    (recommendations : list CourseRecommendation) (plan : gmap Z (list Course)) :
  (forall t, is_Some (plan !! t) <-> 1 <= t <= semesters) ->
  Forall (fun rec => 1 <= semester (course rec)) recommendations ->
  exists plan',
    plan_loop semesters plan recommendations = Ok plan'
    /\ forall t, plan' !! t
                 = (fun bucket => bucket ++ courses_of_term t recommendations)
                     <$> plan !! t.
Proof.
  intros Hdom Hterms. revert plan Hdom.
  induction Hterms as [|rec recs Hrec Hterms IH]; intros plan Hdom.
  - exists plan. split; [reflexivity|]. intros t.
    unfold courses_of_term. cbn. destruct (plan !! t); cbn; [|reflexivity].
    rewrite app_nil_r. reflexivity.
  - cbn [plan_loop]. unfold plan_step.
    destruct (Z.leb_spec (semester (course rec)) semesters) as [Hle|Hgt].
    + destruct (proj2 (Hdom (semester (course rec))) (conj Hrec Hle))
        as [bucket Hbucket].
      rewrite Hbucket. cbn [mbind result_bind].
      destruct (IH (<[semester (course rec) := bucket ++ [course rec]]> plan))
        as (plan' & Hloop & Hplan').
      { intros t. destruct (decide (semester (course rec) = t)) as [<-|Hne].
        - rewrite lookup_insert_eq. split; [lia | eauto].
        - rewrite lookup_insert_ne by exact Hne. apply Hdom. }
      exists plan'. split; [exact Hloop|]. intros t. rewrite Hplan'.
      unfold courses_of_term. cbn [List.filter].
      destruct (decide (semester (course rec) = t)) as [<-|Hne].
      * rewrite lookup_insert_eq, Hbucket, Z.eqb_refl. cbn.
        rewrite <- app_assoc. reflexivity.
      * rewrite lookup_insert_ne by exact Hne.
        rewrite (proj2 (Z.eqb_neq _ _) Hne). reflexivity.
    + cbn [mbind result_bind].
      destruct (IH plan Hdom) as (plan' & Hloop & Hplan').
      exists plan'. split; [exact Hloop|]. intros t. rewrite Hplan'.
      unfold courses_of_term. cbn [List.filter].
      destruct (Z.eqb_spec (semester (course rec)) t) as [E|Hne]; [|reflexivity].
      assert (plan !! t = None) as ->; [|reflexivity].
      apply eq_None_not_Some. rewrite Hdom. lia.
Qed.

(** C5, amended. For recommendations whose courses all have a term of at
    least 1 and a horizon [H >= 1], the study plan is a mapping with
    exactly the keys 1, ..., [H]; the bucket of term [t] holds the courses
    of the recommendations with term [t], once each and in input order, so
    a recommendation with a term above [H] is in no bucket. *)
Theorem study_plan_buckets (recommendations : list CourseRecommendation)
    (semesters : Z) :
  1 <= semesters ->
  Forall (fun rec => 1 <= semester (course rec)) recommendations ->
  exists plan,
    get_study_plan recommendations semesters = Ok plan
    /\ (forall t, is_Some (plan !! t) <-> 1 <= t <= semesters)
    /\ (forall t, 1 <= t <= semesters ->
          plan !! t = Some (courses_of_term t recommendations)).
Proof.
  intros Hsem Hterms.
  assert (Hdom : forall t, is_Some (empty_plan semesters !! t) <-> 1 <= t <= semesters).
  { intros t. rewrite empty_plan_lookup. case_bool_decide; split; eauto; try tauto.
    intros [? ?]. discriminate. }
  destruct (plan_loop_buckets semesters recommendations _ Hdom Hterms)
    as (plan & Hloop & Hplan).
  exists plan. split; [exact Hloop|]. split.
  - intros t. rewrite Hplan, fmap_is_Some. apply Hdom.
  - intros t Ht. rewrite Hplan, empty_plan_lookup.
    rewrite bool_decide_eq_true_2 by exact Ht. reflexivity.
Qed.

(** * The code on concrete inputs *)

(** ** Where the code departs from the stated rules *)

(** C2 as stated fails: with a profile that has deep learning but not ML
    basics, the label "Машинное и глубокое обучение" names a group whose
    dimension is at INTERMEDIATE, yet the readiness of the course is 0,
    not 1. *)
Lemma readiness_any_group_counterexample :
  satisfied_any_group (from_background "PyTorch") "Машинное и глубокое обучение" = true
  /\ (_check_prerequisites course_two_groups (from_background "PyTorch") == 0)%Q
  /\ (fraction (satisfied_any_group (from_background "PyTorch"))
        (prerequisites course_two_groups) == 1)%Q
  /\ ~ (_check_prerequisites course_two_groups (from_background "PyTorch")
        == fraction (satisfied_any_group (from_background "PyTorch"))
             (prerequisites course_two_groups))%Q.
Proof.
  split; [vm_compute; reflexivity|].
  split; [vm_compute; reflexivity|].
  split; [vm_compute; reflexivity|].
  intros E. vm_compute in E. discriminate E.
Qed.

(** C9 as stated fails: the first group the label "Python для машинного
    обучения" names is python, the profile has no python, and the label
    is credited all the same, through ML basics. *)
Lemma first_group_python_counterexample :
  first_group_in prereq_groups prereq_python_ml = Some PythonGroup
  /\ at_least_intermediate (python (from_background "ML-инженер")) = false
  /\ judged_by_first_in prereq_groups (from_background "ML-инженер")
       prereq_python_ml = false
  /\ credited (from_background "ML-инженер") prereq_python_ml = true
  /\ prereq_step (from_background "ML-инженер") 0 prereq_python_ml = 1.
Proof. repeat split; vm_compute; reflexivity. Qed.

(** C7 as stated fails: a program file whose ["courses"] is [null] holds
    no record, the other file is missing, and the loader raises
    [TypeError] (the loop iterates over [None]) instead of returning the
    seed catalog. *)
Lemma load_courses_null_courses_counterexample :
  Forall (fun path => yields_no_record (null_courses_files path) = true)
    catalog_paths
  /\ _load_courses null_courses_files = Raise TypeError
  /\ _load_courses null_courses_files
     <> Ok (course_object <$> _get_default_courses).
Proof.
  split; [repeat constructor|].
  assert (E : _load_courses null_courses_files = Raise TypeError)
    by (vm_compute; reflexivity).
  split; [exact E|]. rewrite E. discriminate.
Qed.

(** C5 as stated fails: a recommendation whose course has term 0 is
    within every horizon, and the plan has no bucket 0: the builder
    raises [KeyError] instead of returning a mapping. *)
Lemma study_plan_term_zero_counterexample :
  get_study_plan
    [mkCourseRecommendation course_term_zero (3 # 10) "Общий выборный курс" 1] 2
  = Raise KeyError
  /\ ~ exists plan,
         get_study_plan
           [mkCourseRecommendation course_term_zero (3 # 10) "Общий выборный курс" 1] 2
         = Ok plan.
Proof.
  assert (E : get_study_plan
            [mkCourseRecommendation course_term_zero (3 # 10) "Общий выборный курс" 1] 2
          = Raise KeyError) by (vm_compute; reflexivity).
  split; [exact E|]. intros [plan Hplan]. rewrite E in Hplan. discriminate Hplan.
Qed.

(** ** The theorems at concrete inputs *)

Lemma readiness_fraction_of_credited_witness :
  judged_by_first_in prereq_groups (from_background "Python, машинное обучение")
    "Машинное обучение" = true
  /\ credited (from_background "Python, машинное обучение") "Машинное обучение" = true.
Proof.
  split; [reflexivity|].
  apply (readiness_fraction_of_credited course_nlp
           (from_background "Python, машинное обучение")).
  reflexivity.
Defined.

Lemma prerequisite_judged_by_first_group_witness :
  (matches_group "Глубокое обучение" PythonGroup = false
   \/ at_least_intermediate (python (from_background "ML-инженер")) = true)
  /\ credited (from_background "ML-инженер") "Глубокое обучение"
     = judged_by_first_in prereq_groups (from_background "ML-инженер")
         "Глубокое обучение".
Proof.
  split; [left; reflexivity|].
  apply (prerequisite_judged_by_first_group (from_background "ML-инженер")
           "Глубокое обучение" 0).
  left. reflexivity.
Defined.

Lemma recommendations_sorted_and_numbered_witness :
  priority <$> recommend_courses _get_default_courses
                 "Python, машинное обучение" ["NLP"] None 3
  = seqZ 1 (Z.of_nat (length (recommend_courses _get_default_courses
                                "Python, машинное обучение" ["NLP"] None 3))).
Proof.
  apply (recommendations_sorted_and_numbered _get_default_courses
           "Python, машинное обучение" ["NLP"] None 3).
Defined.

Lemma recommendations_length_witness :
  lower "" = "" /\ 0 < 3
  /\ Z.of_nat (length (recommend_courses _get_default_courses
                         "Python, машинное обучение" ["NLP"] (Some "AI") 3))
     = Z.min 3 (Z.of_nat (length (filtered_candidates _get_default_courses
                                    (Some "AI")))).
Proof.
  split; [reflexivity|]. split; [reflexivity|].
  apply (recommendations_length py_lower_empty _get_default_courses
           "Python, машинное обучение" ["NLP"] (Some "AI") 3).
  reflexivity.
Defined.

Lemma study_plan_buckets_witness :
  1 <= 2
  /\ Forall (fun rec => 1 <= semester (course rec)) sample_recommendations
  /\ exists plan,
       get_study_plan sample_recommendations 2 = Ok plan
       /\ (forall t, is_Some (plan !! t) <-> 1 <= t <= 2)
       /\ (forall t, 1 <= t <= 2 ->
             plan !! t = Some (courses_of_term t sample_recommendations)).
Proof.
  assert (H1 : 1 <= 2) by discriminate.
  assert (H2 : Forall (fun rec => 1 <= semester (course rec)) sample_recommendations)
    by (repeat constructor; discriminate).
  split; [exact H1|]. split; [exact H2|].
  exact (study_plan_buckets sample_recommendations 2 H1 H2).
Defined.

Lemma from_background_by_keywords_witness :
  lower "" = ""
  /\ (forall d, level_of (from_background "Senior Питон-разработчик, МЕХМАТ") d
                = derived_level (lower "Senior Питон-разработчик, МЕХМАТ") d)
  /\ from_background "" = default_skills.
Proof.
  split; [reflexivity|].
  destruct (from_background_by_keywords py_lower_empty
              "Senior Питон-разработчик, МЕХМАТ") as (Hlevels & _ & Hnone).
  split; [exact Hlevels | exact Hnone].
Defined.

Lemma load_courses_falls_back_to_seed_witness :
  (Forall (fun path => passed_over (no_files path) = true) catalog_paths
   /\ _load_courses no_files = Ok (course_object <$> _get_default_courses))
  /\ (Forall (fun path => yields_no_record (unreadable_files path) = true)
        catalog_paths
      /\ Exists (fun path => passed_over (unreadable_files path) = false)
           catalog_paths
      /\ exists e, _load_courses unreadable_files = Raise e /\ handled e = false).
Proof.
  assert (Hover : Forall (fun path => passed_over (no_files path) = true)
                    catalog_paths) by (repeat constructor).
  assert (Hnone : Forall (fun path => yields_no_record (unreadable_files path) = true)
                    catalog_paths) by (repeat constructor).
  assert (Hex : Exists (fun path => passed_over (unreadable_files path) = false)
                  catalog_paths) by (left; reflexivity).
  split.
  - split; [exact Hover|].
    apply (load_courses_falls_back_to_seed no_files). exact Hover.
  - split; [exact Hnone|]. split; [exact Hex|].
    apply (load_courses_falls_back_to_seed unreadable_files); assumption.
Defined.

Lemma empty_interest_matches_every_course_witness :
  lower "" = "" /\ In "" ["NLP"; ""]
  /\ (interest_subscore course_nlp ["NLP"; ""] == 0.4)%Q
  /\ In "" (snd (interest_loop course_nlp ["NLP"; ""])).
Proof.
  assert (Hin : In "" ["NLP"; ""]) by (right; left; reflexivity).
  split; [reflexivity|]. split; [exact Hin|].
  destruct (empty_interest_matches_every_course py_lower_empty course_nlp
              default_skills ["NLP"; ""] Hin) as (Hcap & Hmatch & _).
  split; [exact Hcap | exact Hmatch].
Defined.

(** ** Scenarios *)

(** An empty background and no interests: the all-NONE profile. *)
Example scenario_empty_background :
  from_background "" = default_skills.
Proof. reflexivity. Qed.

(** A background with python and machine learning satisfies the single
    prerequisite "Машинное обучение"; the interest "NLP" earns the course
    on language processing the full interest share. *)
Example scenario_python_ml :
  fraction (credited (from_background "Python, машинное обучение"))
    ["Машинное обучение"] = 1%Q
  /\ interest_subscore course_nlp ["NLP"] = 0.4%Q
  /\ (fst (_score_course course_nlp (from_background "Python, машинное обучение")
             ["NLP"]) == 8 # 15)%Q.
Proof. repeat split; vm_compute; reflexivity. Qed.

(** The ranking of the seed catalog for that learner. *)
Example scenario_ranking :
  (fun rec => (name (course rec), priority rec))
    <$> recommend_courses _get_default_courses "Python, машинное обучение"
          ["NLP"] None 3
  = [("Обработка естественного языка", 1); ("AI Ethics", 2); ("Big Data", 3)].
Proof. vm_compute. reflexivity. Qed.

(** The program filter is a case-insensitive substring test. *)
Example scenario_program_filter :
  name <$> get_elective_courses _get_default_courses (Some "ai product")
  = ["AI Ethics"]
  /\ recommend_courses _get_default_courses "" [] (Some "робототехника") 5 = [].
Proof. split; vm_compute; reflexivity. Qed.

(** A horizon of 2: the course of term 3 is in neither bucket. *)
Example scenario_horizon :
  (fun plan => (name <$> default [] (plan !! 1),
                name <$> default [] (plan !! 2),
                plan !! 3))
    <$> match get_study_plan sample_recommendations 2 with
        | Ok plan => Some plan
        | Raise _ => None
        end
  = Some ([], ["Обработка естественного языка"; "AI Ethics"], None).
Proof. vm_compute. reflexivity. Qed.

(** Equal scores keep the catalog order. *)
Example sort_reverse_stable :
  sort_reverse (fun p : string * Q => snd p)
    [("a", 0.1%Q); ("b", 0.3%Q); ("c", 0.1%Q); ("d", 0.3%Q)]
  = [("b", 0.3%Q); ("d", 0.3%Q); ("a", 0.1%Q); ("c", 0.1%Q)].
Proof. reflexivity. Qed.

(** Slices with a negative bound drop elements from the end. *)
Example slice_to_negative :
  slice_to [1; 2; 3] (-1) = [1; 2] /\ slice_to [1; 2; 3] 5 = [1; 2; 3]
  /\ slice_to [1; 2; 3] 0 = [].
Proof. repeat split. Qed.

(** * Further properties *)

(** ** Scores *)

Section ScoreFacts.
Context `{StrLower}.

Lemma interest_fold_no_match (course : Course) (interests : list string)
    (st : Q * list string) :
  existsb (interest_matches_course course) interests = false ->
  fold_left (interest_step (lower (name course)) (lower (description course)))
    interests st = st.
Proof.
  revert st. induction interests as [|i interests IH]; intros [q m];
    cbn [existsb fold_left]; [reflexivity|].
  intros Hno. apply orb_false_iff in Hno as [Hi Hno].
  unfold interest_step at 2. fold (interest_matches_course course i).
  rewrite Hi. apply IH, Hno.
Qed.

Lemma interest_subscore_value (course : Course) (interests : list string) :
  (interest_subscore course interests
   == if existsb (interest_matches_course course) interests then 0.4 else 0)%Q.
Proof.
  unfold interest_subscore, interest_loop.
  destruct (existsb (interest_matches_course course) interests) eqn:E.
  - destruct (interest_fold course interests (0%Q, [])) as (_ & _ & Hcap).
    cbn [fst] in Hcap. specialize (Hcap E). apply Q.min_r. lra.
  - rewrite interest_fold_no_match by exact E. reflexivity.
Qed.

(** X1. The interest sub-score has two values: 0.4 when at least one
    interest occurs in the name or the description of the course, 0 when
    none does; further matches add nothing. *)
Theorem interest_subscore_two_valued (course : Course) (interests : list string) :
  (interest_subscore course interests
   == if existsb (interest_matches_course course) interests then 0.4 else 0)%Q
  /\ ((interest_subscore course interests == 0.4)%Q
      <-> exists interest, In interest interests
                           /\ interest_matches_course course interest = true).
Proof.
  pose proof (interest_subscore_value course interests) as Hv.
  split; [exact Hv|]. rewrite <- existsb_exists.
  destruct (existsb (interest_matches_course course) interests).
  - tauto.
  - split; [|discriminate]. intros E. rewrite E in Hv. discriminate Hv.
Qed.

(** X2. A course that matches an interest and has every prerequisite
    credited outranks every course that matches no interest: the first
    scores at least 0.7, the second at most 0.6. *)
Theorem interest_and_readiness_outrank (course other : Course)
    (user_skills : UserSkills) (interests : list string) :
  existsb (interest_matches_course course) interests = true ->
  (_check_prerequisites course user_skills == 1)%Q ->
  existsb (interest_matches_course other) interests = false ->
  (fst (_score_course other user_skills interests)
   < fst (_score_course course user_skills interests))%Q.
Proof.
  intros Hyes Hready Hno. rewrite !score_course_sum.
  pose proof (interest_subscore_value course interests) as Hc.
  pose proof (interest_subscore_value other interests) as Ho.
  rewrite Hyes in Hc. rewrite Hno in Ho.
  pose proof (check_prerequisites_bounds other user_skills).
  pose proof (growth_potential_bounds course user_skills).
  pose proof (growth_potential_bounds other user_skills).
  pose proof (career_value_bounds course).
  pose proof (career_value_bounds other).
  lra.
Qed.

Lemma group_level_of (user_skills : UserSkills) (g : PrereqGroup) :
  exists d, group_level user_skills g = level_of user_skills d
            /\ forall u, group_level u g = level_of u d.
Proof.
  destruct g;
    [exists Python | exists MLBasics | exists DeepLearning
    | exists Statistics | exists Math]; split; reflexivity.
Qed.

Lemma credited_monotone (u u' : UserSkills) (prereq : string) :
  at_least_as_skilled u u' ->
  credited u prereq = true -> credited u' prereq = true.
Proof.
  intros Hle. rewrite !credited_by_groups, !orb_true_iff, !andb_true_iff.
  intros [[Hm Hp] | Hj].
  - left. split; [exact Hm|]. apply (Hle Python), Hp.
  - right. unfold judged_by_first_in in *.
    destruct (first_group_in later_groups prereq) as [g|]; [|discriminate].
    destruct (group_level_of u g) as (d & _ & Hd).
    rewrite Hd in *. apply Hle, Hj.
Qed.

Lemma filter_length_mono {A} (f g : A -> bool) (l : list A) :
  (forall x, f x = true -> g x = true) ->
  (length (List.filter f l) <= length (List.filter g l))%nat.
Proof.
  intros Himp. induction l as [|x l IH]; cbn [List.filter]; [lia|].
  destruct (f x) eqn:Ef.
  - rewrite (Himp x Ef). cbn [length]. lia.
  - destruct (g x); cbn [length]; lia.
Qed.

Lemma fraction_monotone (f g : string -> bool) (labels : list string) :
  (forall x, f x = true -> g x = true) ->
  (fraction f labels <= fraction g labels)%Q.
Proof.
  intros Himp. unfold fraction. destruct labels as [|p labels]; [apply Qle_refl|].
  pose proof (filter_length_mono f g (p :: labels) Himp) as Hle.
  set (n := length (p :: labels)).
  assert (Hn : (0 < inject_Z (Z.of_nat n))%Q).
  { rewrite <- (Zlt_Qlt 0). subst n. cbn [length]. lia. }
  apply Qle_shift_div_l; [exact Hn|].
  unfold Qdiv. rewrite <- Qmult_assoc, (Qmult_comm (/ _)), Qmult_inv_r, Qmult_1_r.
  - rewrite <- Zle_Qle. lia.
  - intros E. rewrite E in Hn. discriminate Hn.
Qed.

(** X3. Readiness is monotone in the profile: a learner who is at
    INTERMEDIATE or above in every dimension where another learner is has
    at least that learner's readiness for every course. *)
Theorem readiness_monotone (course : Course) (u u' : UserSkills) :
  at_least_as_skilled u u' ->
  (_check_prerequisites course u <= _check_prerequisites course u')%Q.
Proof.
  intros Hle. rewrite !check_prerequisites_fraction.
  apply fraction_monotone. intros p. apply credited_monotone, Hle.
Qed.

Lemma area_level_of (a : GrowthArea) :
  exists d, forall u, area_level u a = level_of u d.
Proof.
  destruct a; [exists Nlp | exists ComputerVision | exists DeepLearning
              | exists Mlops]; reflexivity.
Qed.

(** The growth potential through the number of open areas. *)
Lemma growth_potential_count (course : Course) (user_skills : UserSkills) :
  skills_gained course <> [] ->
  _calculate_growth_potential course user_skills
  = Qmin (inject_Z (Z.of_nat (length (open_growth_areas course user_skills))) / 2) 1.
Proof.
  unfold _calculate_growth_potential, open_growth_areas.
  destruct (skills_gained course) as [|label labels]; [congruence|]. intros _.
  unfold growth_areas. cbn [List.filter area_keywords area_level].
  rewrite !value_in_beginner, <- !any_in_3, <- !any_in_2.
  generalize (lower (join " " (label :: labels))). intros text.
  destruct (any_in ["nlp"; "text"] text),
    (any_in ["cv"; "vision"; "image"] text),
    (any_in ["pytorch"; "нейрон"] text),
    (any_in ["docker"; "deploy"] text),
    (below_intermediate (nlp user_skills)),
    (below_intermediate (computer_vision user_skills)),
    (below_intermediate (deep_learning user_skills)),
    (below_intermediate (mlops user_skills)); reflexivity.
Qed.

(** X4. Growth potential is antitone in the profile: the more skilled
    learner never has the larger growth potential for a course. *)
Theorem growth_potential_antitone (course : Course) (u u' : UserSkills) :
  at_least_as_skilled u u' ->
  (_calculate_growth_potential course u'
   <= _calculate_growth_potential course u)%Q.
Proof.
  intros Hle. destruct (skills_gained course) as [|label labels] eqn:E.
  - unfold _calculate_growth_potential. rewrite E. apply Qle_refl.
  - rewrite !growth_potential_count by congruence.
    apply Q.min_le_compat_r.
    apply Qmult_le_compat_r; [|discriminate].
    rewrite <- Zle_Qle. apply inj_le. unfold open_growth_areas.
    apply filter_length_mono. intros a.
    rewrite !andb_true_iff. intros [Hkw Hlow]. split; [exact Hkw|].
    destruct (area_level_of a) as [d Hd]. rewrite !Hd in *.
    unfold below_intermediate in *. rewrite negb_true_iff in *.
    destruct (at_least_intermediate (level_of u d)) eqn:Eu; [|reflexivity].
    rewrite (Hle d Eu) in Hlow. discriminate Hlow.
Qed.
End ScoreFacts.

(** ** The derived profile *)

Section ProfileFacts.
Context `{StrLower}.

(** X5. A profile derived from a background never holds BEGINNER; only
    python and math can be ADVANCED, and math is never INTERMEDIATE. *)
Theorem from_background_levels_used (background : string) (d : Dimension) :
  level_of (from_background background) d <> BEGINNER
  /\ (level_of (from_background background) d = ADVANCED ->
      d = Python \/ d = Math)
  /\ math (from_background background) <> INTERMEDIATE.
Proof.
  rewrite (from_background_level background d).
  change (math (from_background background))
    with (level_of (from_background background) Math).
  rewrite (from_background_level background Math).
  unfold derived_level, level_max.
  generalize (lower background). intros text.
  split; [|split].
  - destruct d; split_ifs; discriminate.
  - destruct d; split_ifs; auto; discriminate.
  - cbn [dimension_keywords]. split_ifs; discriminate.
Qed.
End ProfileFacts.

(** ** The candidates *)

Section CandidateFacts.
Context `{StrLower}.

Lemma filter_sublist {A} (f : A -> bool) (l : list A) :
  List.filter f l `sublist_of` l.
Proof.
  induction l as [|x l IH]; cbn [List.filter]; [constructor|].
  destruct (f x); [apply sublist_skip | apply sublist_cons]; exact IH.
Qed.

Lemma elective_in_catalog (courses : list Course)
    (program_filter : option string) (c : Course) :
  c ∈ get_elective_courses courses program_filter -> c ∈ courses.
Proof.
  unfold get_elective_courses. rewrite !list_elem_of_In.
  destruct program_filter as [[|a p]|]; rewrite ?filter_In; tauto.
Qed.

(** X6. The electives are picked from the catalog in catalog order and are
    all of elective kind; a program filter only removes electives; and the
    empty filter text removes none, like no filter at all. *)
Theorem elective_courses_selection (courses : list Course)
    (program_filter : option string) :
  get_elective_courses courses program_filter
    `sublist_of` get_elective_courses courses None
  /\ get_elective_courses courses None `sublist_of` courses
  /\ Forall (fun c => course_type c = "выборная")
       (get_elective_courses courses program_filter)
  /\ get_elective_courses courses (Some "") = get_elective_courses courses None.
Proof.
  assert (Hkind : Forall (fun c => course_type c = "выборная")
                    (get_elective_courses courses None)).
  { unfold get_elective_courses. apply Forall_forall. intros c Hc.
    apply list_elem_of_In, filter_In in Hc as [_ Hc].
    apply String.eqb_eq, Hc. }
  assert (Hsub : get_elective_courses courses program_filter
                   `sublist_of` get_elective_courses courses None).
  { unfold get_elective_courses. destruct program_filter as [[|a p]|];
      [reflexivity | apply filter_sublist | reflexivity]. }
  split; [exact Hsub|]. split; [apply filter_sublist|].
  split; [|reflexivity].
  eapply Forall_forall. intros c Hc.
  rewrite Forall_forall in Hkind. apply Hkind.
  eapply elem_of_sublist; [exact Hc | exact Hsub].
Qed.
End CandidateFacts.

(** ** The loader, source by source *)




(** ** Entries of the declared types *)

Lemma as_str_list_strings (l : list string) :
  mapM as_str (JString <$> l) = Some l.
Proof.
  induction l as [|s l IH]; [reflexivity|].
  cbn [fmap list_fmap mapM]. cbn [as_str mbind option_bind]. rewrite IH.
  reflexivity.
Qed.

(** An instance of the declared types is a course, and no other. *)
Lemma as_course_object (c : Course) : as_course (course_object c) = Some c.
Proof.
  destruct c. unfold as_course, course_object, as_str_list.
  cbn -[mapM]. rewrite !as_str_list_strings. reflexivity.
Qed.

(** On an entry of the declared types the loader builds the instance of
    [entry_course], and raises [KeyError] when the entry has no name. *)
Lemma new_course_typed (program_name : string) (course_data : CourseData) :
  new_course (JString program_name) (entry_json course_data)
  = match entry_course (program_name, course_data) with
    | Some c => Ok (course_object c)
    | None => Raise KeyError
    end.
Proof.
  destruct course_data as [n s t c d pre sk].
  destruct n, s, t, c, d, pre, sk; reflexivity.
Qed.

Lemma entry_object_typed (program_name : string) (course_data : CourseData) :
  entry_object (JString program_name, entry_json course_data)
  = course_object <$> entry_course (program_name, course_data).
Proof.
  unfold entry_object. cbn [fst snd]. rewrite new_course_typed.
  destruct (entry_course (program_name, course_data)); reflexivity.
Qed.

(** The kind of a loaded instance, whatever the shape of its entry: the
    value of ["course_type"], be it [null], or the default. *)
Lemma entry_object_kind (program_name : json) (items : list (string * json))
    (o : CourseObject) :
  entry_object (program_name, JObject items) = Some o ->
  obj_course_type o = get (dict_get "course_type" items) (JString "обязательная").
Proof.
  unfold entry_object, new_course, py_getitem. cbn [fst snd].
  destruct (dict_get "name" items); [|discriminate].
  cbn [mbind result_bind py_get]. intros [= <-].
  unfold __post_init__. cbn [obj_prerequisites obj_skills_gained].
  destruct (get (dict_get "prerequisites" items) (JArray []));
    cbn [obj_skills_gained obj_course_type];
    destruct (get (dict_get "skills" items) (JArray [])); reflexivity.
Qed.


Section LoadedCandidates.
Context `{StrLower}.

End LoadedCandidates.

(** ** The ranking as a list computation *)

Lemma deref_take (h : heap) (refs : list ref) (k : nat) :
  valid_refs h refs -> deref h (take k refs) = take k (deref h refs).
Proof.
  intros Hv. revert k. induction Hv as [|r refs [x Hx] Hv IH]; intros k.
  - rewrite take_nil. unfold deref. cbn [omap list_omap]. rewrite take_nil.
    reflexivity.
  - destruct k as [|k]; [reflexivity|].
    rewrite (deref_cons h r refs x Hx). cbn [take].
    rewrite (deref_cons h r (take k refs) x Hx), IH. reflexivity.
Qed.

Lemma deref_slice_to (h : heap) (refs : list ref) (stop : Z) :
  valid_refs h refs -> deref h (slice_to refs stop) = slice_to (deref h refs) stop.
Proof.
  intros Hv. unfold slice_to. rewrite (deref_length h refs Hv).
  destruct (stop <? 0); apply deref_take, Hv.
Qed.

Lemma deref_insert_reverse (h : heap) (r : ref) (x : CourseRecommendation)
    (refs : list ref) :
  h !! r = Some x -> valid_refs h refs ->
  deref h (insert_reverse (score_of h) r refs)
  = insert_reverse score x (deref h refs).
Proof.
  intros Hx Hv. induction Hv as [|r' refs [y Hy] Hv IH]; cbn [insert_reverse].
  - rewrite (deref_cons h r [] x Hx). reflexivity.
  - rewrite (deref_cons h r' refs y Hy). cbn [insert_reverse].
    rewrite (score_of_lookup h r x Hx), (score_of_lookup h r' y Hy).
    destruct (Qltb (score x) (score y)).
    + rewrite (deref_cons h r' _ y Hy), IH. reflexivity.
    + rewrite (deref_cons h r _ x Hx), (deref_cons h r' refs y Hy). reflexivity.
Qed.

Lemma valid_refs_sort (h : heap) (refs : list ref) :
  valid_refs h refs -> valid_refs h (sort_reverse (score_of h) refs).
Proof.
  unfold valid_refs.
  apply Permutation_Forall, Permutation_sym, sort_reverse_perm.
Qed.

Lemma deref_sort_reverse (h : heap) (refs : list ref) :
  valid_refs h refs ->
  deref h (sort_reverse (score_of h) refs) = sort_reverse score (deref h refs).
Proof.
  intros Hv. induction Hv as [|r refs [x Hx] Hv IH]; [reflexivity|].
  rewrite (deref_cons h r refs x Hx).
  change (sort_reverse (score_of h) (r :: refs))
    with (insert_reverse (score_of h) r (sort_reverse (score_of h) refs)).
  change (sort_reverse score (x :: deref h refs))
    with (insert_reverse score x (sort_reverse score (deref h refs))).
  rewrite (deref_insert_reverse h r x _ Hx (valid_refs_sort h refs Hv)), IH.
  reflexivity.
Qed.

Lemma deref_seq (h0 h : heap) :
  deref (h0 ++ h) (seq (length h0) (length h)) = h
  /\ valid_refs (h0 ++ h) (seq (length h0) (length h)).
Proof.
  revert h0. induction h as [|x h IH]; intros h0; [split; constructor|].
  cbn [length seq].
  assert (Hx : (h0 ++ x :: h) !! length h0 = Some x)
    by (rewrite lookup_app_r, Nat.sub_diag by lia; reflexivity).
  destruct (IH (h0 ++ [x])) as [Hd Hv].
  rewrite length_app, <- app_assoc in Hd, Hv. cbn [length app] in Hd, Hv.
  rewrite Nat.add_1_r in Hd, Hv.
  split.
  - rewrite (deref_cons _ _ _ x Hx), Hd. reflexivity.
  - constructor; [eauto | exact Hv].
Qed.

Section RankingFacts.
Context `{StrLower}.

Lemma recommend_courses_as_ranked (courses : list Course)
    (user_background : string) (interests : list string)
    (program_filter : option string) (max_recommendations : Z) :
  recommend_courses courses user_background interests program_filter
    max_recommendations
  = ranked (scored (from_background user_background) interests
            <$> get_elective_courses courses program_filter)
      max_recommendations.
Proof.
  destruct (recommend_courses_values courses user_background interests
              program_filter max_recommendations) as (-> & _ & _).
  unfold ranked. f_equal.
  set (h := scored (from_background user_background) interests
            <$> get_elective_courses courses program_filter).
  destruct (deref_seq [] h) as [Hd Hv]. cbn [app length] in Hd, Hv.
  replace (length (get_elective_courses courses program_filter))
    with (length h) by (subst h; apply length_fmap).
  rewrite deref_slice_to by (apply valid_refs_sort, Hv).
  rewrite deref_sort_reverse by exact Hv. rewrite Hd. reflexivity.
Qed.

(** X9. The ranking through references and in-place priorities returns
    what a computation on values returns: the scored electives in a
    descending-sorted permutation, cut at the limit and numbered from
    1. *)
Theorem recommend_courses_ranked (courses : list Course)
    (user_background : string) (interests : list string)
    (program_filter : option string) (max_recommendations : Z) :
  let candidates := scored (from_background user_background) interests
                    <$> get_elective_courses courses program_filter in
  recommend_courses courses user_background interests program_filter
    max_recommendations
  = with_priorities 0 (slice_to (sort_reverse score candidates)
                         max_recommendations)
  /\ sort_reverse score candidates ≡ₚ candidates
  /\ StronglySorted score_ge (sort_reverse score candidates).
Proof.
  intros candidates. split; [|split].
  - apply recommend_courses_as_ranked.
  - apply sort_reverse_perm.
  - apply (sort_reverse_sorted score candidates).
Qed.
End RankingFacts.

(** ** What the ranking returns *)

Lemma with_priorities_take (i : Z) (k : nat) (l : list CourseRecommendation) :
  with_priorities i (take k l) = take k (with_priorities i l).
Proof.
  revert i k. induction l as [|x l IH]; intros i [|k]; cbn; try reflexivity.
  rewrite IH. reflexivity.
Qed.

Lemma with_priorities_course (i : Z) (l : list CourseRecommendation) :
  course <$> with_priorities i l = course <$> l.
Proof.
  revert i. induction l as [|x l IH]; intros i; [reflexivity|].
  cbn [with_priorities]. rewrite !fmap_cons, IH. reflexivity.
Qed.

Lemma with_priorities_elem (i : Z) (l : list CourseRecommendation)
    (y : CourseRecommendation) :
  y ∈ with_priorities i l ->
  exists x, x ∈ l /\ course y = course x /\ score y = score x
            /\ reasoning y = reasoning x.
Proof.
  revert i. induction l as [|x l IH]; intros i; cbn [with_priorities].
  - intros Hy. inversion Hy.
  - rewrite elem_of_cons. intros [-> | Hy].
    + exists x. split; [apply list_elem_of_here | auto].
    + destruct (IH _ Hy) as (x' & Hx' & Hrest).
      exists x'. split; [apply list_elem_of_further, Hx' | exact Hrest].
Qed.

Lemma with_priorities_filter (p : Q -> bool) (i : Z)
    (l : list CourseRecommendation) :
  course <$> List.filter (fun rec => p (score rec)) (with_priorities i l)
  = course <$> List.filter (fun rec => p (score rec)) l.
Proof.
  revert i. induction l as [|x l IH]; intros i; [reflexivity|].
  cbn [with_priorities List.filter set_priority score].
  destruct (p (score x)); rewrite ?fmap_cons, IH; reflexivity.
Qed.

Section SortStable.
Context {A : Type} (key : A -> Q).

Lemma Qltb_neq (x y q : Q) :
  Qltb x y = true -> Qeq_bool x q = true -> Qeq_bool y q = false.
Proof.
  unfold Qltb. rewrite negb_true_iff. intros Hlt Hx.
  destruct (Qeq_bool y q) eqn:Hy; [|reflexivity].
  apply Qeq_bool_iff in Hx, Hy.
  assert (Hle : (y <= x)%Q) by (rewrite Hx, Hy; apply Qle_refl).
  apply Qle_bool_iff in Hle. congruence.
Qed.

Lemma insert_reverse_filter (q : Q) (x : A) (l : list A) :
  List.filter (fun y => Qeq_bool (key y) q) (insert_reverse key x l)
  = List.filter (fun y => Qeq_bool (key y) q) (x :: l).
Proof.
  induction l as [|y l IH]; [reflexivity|].
  cbn [insert_reverse]. destruct (Qltb (key x) (key y)) eqn:E; [|reflexivity].
  cbn [List.filter] in *. rewrite IH.
  destruct (Qeq_bool (key x) q) eqn:Ex; [|reflexivity].
  rewrite (Qltb_neq _ _ _ E Ex). reflexivity.
Qed.

(** The sort is stable: the elements of one score keep their order. *)
Lemma sort_reverse_keeps_ties (q : Q) (l : list A) :
  List.filter (fun y => Qeq_bool (key y) q) (sort_reverse key l)
  = List.filter (fun y => Qeq_bool (key y) q) l.
Proof.
  induction l as [|x l IH]; [reflexivity|].
  change (sort_reverse key (x :: l))
    with (insert_reverse key x (sort_reverse key l)).
  rewrite insert_reverse_filter. cbn [List.filter]. rewrite IH. reflexivity.
Qed.
End SortStable.

Lemma filter_take_prefix {A} (f : A -> bool) (k : nat) (l : list A) :
  List.filter f (take k l) `prefix_of` List.filter f l.
Proof.
  exists (List.filter f (drop k l)).
  rewrite <- List.filter_app, take_drop. reflexivity.
Qed.

Lemma StronglySorted_app_rel {A} (R : A -> A -> Prop) (l1 l2 : list A) :
  StronglySorted R (l1 ++ l2) ->
  forall a b, a ∈ l1 -> b ∈ l2 -> R a b.
Proof.
  induction l1 as [|x l1 IH]; cbn [app]; intros Hs a b Ha Hb.
  - inversion Ha.
  - apply StronglySorted_inv in Hs as [Hs Hall].
    apply elem_of_cons in Ha as [-> | Ha].
    + rewrite Forall_forall in Hall. apply Hall, elem_of_app. right. exact Hb.
    + apply (IH Hs a b Ha Hb).
Qed.

Lemma filter_fmap {A B} (f : A -> B) (p : B -> bool) (l : list A) :
  List.filter p (f <$> l) = f <$> List.filter (fun x => p (f x)) l.
Proof.
  induction l as [|x l IH]; [reflexivity|].
  cbn [fmap list_fmap List.filter]. fold (f <$> l). rewrite IH.
  destruct (p (f x)); reflexivity.
Qed.

Section RankedFacts.
Context `{StrLower}.

Lemma scored_fields (user_skills : UserSkills) (interests : list string)
    (electives : list Course) (x : CourseRecommendation) :
  x ∈ sort_reverse score (scored user_skills interests <$> electives) ->
  course x ∈ electives
  /\ score x = fst (_score_course (course x) user_skills interests)
  /\ reasoning x = snd (_score_course (course x) user_skills interests).
Proof.
  rewrite (sort_reverse_perm score _). intros Hx.
  apply list_elem_of_fmap in Hx as (c & -> & Hc). auto.
Qed.

Lemma course_scored (user_skills : UserSkills) (interests : list string)
    (l : list Course) :
  course <$> (scored user_skills interests <$> l) = l.
Proof.
  induction l as [|c l IH]; [reflexivity|].
  rewrite !fmap_cons, IH. reflexivity.
Qed.

(** X10. Every returned recommendation is about an elective that passes
    the filter, and carries the score and the reasoning [_score_course]
    gives for that course: the ranking invents no course and changes no
    score. *)
Theorem recommendations_are_scored_electives (courses : list Course)
    (user_background : string) (interests : list string)
    (program_filter : option string) (max_recommendations : Z) :
  Forall
    (fun rec =>
       course rec ∈ get_elective_courses courses program_filter
       /\ score rec
          = fst (_score_course (course rec) (from_background user_background)
                   interests)
       /\ reasoning rec
          = snd (_score_course (course rec) (from_background user_background)
                   interests))
    (recommend_courses courses user_background interests program_filter
       max_recommendations).
Proof.
  rewrite recommend_courses_as_ranked. unfold ranked.
  apply Forall_forall. intros y Hy.
  apply with_priorities_elem in Hy as (x & Hx & -> & -> & ->).
  apply scored_fields.
  destruct (slice_to_take (sort_reverse score
              (scored (from_background user_background) interests
               <$> get_elective_courses courses program_filter))
              max_recommendations) as [k Hk].
  rewrite Hk in Hx. eapply elem_of_sublist; [exact Hx | apply sublist_take].
Qed.

(** X11. The electives split into the returned ones and the rest, and no
    elective of the rest scores above a returned one. *)
Theorem recommendations_are_the_best (courses : list Course)
    (user_background : string) (interests : list string)
    (program_filter : option string) (max_recommendations : Z) :
  let out := recommend_courses courses user_background interests
               program_filter max_recommendations in
  exists rest,
    (course <$> out) ++ rest ≡ₚ get_elective_courses courses program_filter
    /\ Forall (fun rec =>
         Forall (fun c =>
           (fst (_score_course c (from_background user_background) interests)
            <= score rec)%Q) rest) out.
Proof.
  intros out. subst out. rewrite recommend_courses_as_ranked. unfold ranked.
  set (u := from_background user_background).
  set (electives := get_elective_courses courses program_filter).
  set (sorted := sort_reverse score (scored u interests <$> electives)).
  destruct (slice_to_take sorted max_recommendations) as [k ->].
  exists (course <$> drop k sorted). split.
  - rewrite with_priorities_course, <- fmap_app, take_drop.
    subst sorted. rewrite (sort_reverse_perm score _), course_scored.
    reflexivity.
  - apply Forall_forall. intros y Hy. apply Forall_forall. intros c Hc.
    apply with_priorities_elem in Hy as (a & Ha & _ & -> & _).
    apply list_elem_of_fmap in Hc as (b & -> & Hb).
    assert (Hbs : b ∈ sorted)
      by (eapply elem_of_sublist; [exact Hb | apply sublist_drop]).
    destruct (scored_fields u interests electives b Hbs) as (_ & <- & _).
    assert (Hs : StronglySorted (key_ge score) (take k sorted ++ drop k sorted))
      by (rewrite take_drop; apply sort_reverse_sorted).
    apply (StronglySorted_app_rel _ _ _ Hs a b Ha Hb).
Qed.

(** X12. With a limit above 0 the first recommendation has the highest
    score of all electives that pass the filter; the result is empty only
    when there is no such elective. *)
Theorem first_recommendation_is_best (courses : list Course)
    (user_background : string) (interests : list string)
    (program_filter : option string) (max_recommendations : Z) :
  0 < max_recommendations ->
  match recommend_courses courses user_background interests program_filter
          max_recommendations with
  | [] => get_elective_courses courses program_filter = []
  | rec :: _ =>
      Forall (fun c =>
        (fst (_score_course c (from_background user_background) interests)
         <= score rec)%Q)
        (get_elective_courses courses program_filter)
  end.
Proof.
  intros Hpos. rewrite recommend_courses_as_ranked. unfold ranked, slice_to.
  destruct (Z.ltb_spec max_recommendations 0) as [Hneg|_]; [lia|].
  set (u := from_background user_background).
  set (electives := get_elective_courses courses program_filter).
  pose proof (sort_reverse_perm score (scored u interests <$> electives)) as Hperm.
  pose proof (sort_reverse_sorted score (scored u interests <$> electives)) as Hs.
  destruct (Z.to_nat max_recommendations) as [|k] eqn:Ek; [lia|].
  destruct (sort_reverse score (scored u interests <$> electives)) as [|a sorted].
  - apply Permutation_nil in Hperm. destruct electives; [reflexivity | discriminate].
  - cbn [take with_priorities set_priority score].
    apply StronglySorted_inv in Hs as [_ Hall].
    apply Forall_forall. intros c Hc.
    assert (Hin : scored u interests c ∈ a :: sorted).
    { rewrite Hperm. apply list_elem_of_fmap. eauto. }
    apply elem_of_cons in Hin as [<- | Hin]; [apply Qle_refl|].
    rewrite Forall_forall in Hall. apply (Hall _ Hin).
Qed.

(** X13. Ties are broken by catalog order: for every score, the returned
    courses with that score are the first electives with that score, in
    the order of the catalog. *)
Theorem ties_keep_catalog_order (courses : list Course)
    (user_background : string) (interests : list string)
    (program_filter : option string) (max_recommendations : Z) (q : Q) :
  course <$> List.filter (fun rec => Qeq_bool (score rec) q)
               (recommend_courses courses user_background interests
                  program_filter max_recommendations)
  `prefix_of`
  List.filter
    (fun c => Qeq_bool (fst (_score_course c (from_background user_background)
                               interests)) q)
    (get_elective_courses courses program_filter).
Proof.
  rewrite recommend_courses_as_ranked. unfold ranked.
  set (u := from_background user_background).
  set (electives := get_elective_courses courses program_filter).
  destruct (slice_to_take (sort_reverse score (scored u interests <$> electives))
              max_recommendations) as [k ->].
  rewrite (with_priorities_filter (fun s => Qeq_bool s q)).
  destruct (filter_take_prefix (fun rec => Qeq_bool (score rec) q) k
              (sort_reverse score (scored u interests <$> electives)))
    as [more Hmore].
  rewrite (sort_reverse_keeps_ties score q) in Hmore.
  exists (course <$> more).
  rewrite <- fmap_app, <- Hmore, filter_fmap, course_scored. reflexivity.
Qed.

(** X14. A smaller limit gives a prefix of what a larger limit gives, with
    the same priorities. *)
Theorem smaller_limit_is_prefix (courses : list Course)
    (user_background : string) (interests : list string)
    (program_filter : option string) (m m' : Z) :
  0 <= m <= m' ->
  recommend_courses courses user_background interests program_filter m
  = take (Z.to_nat m)
      (recommend_courses courses user_background interests program_filter m').
Proof.
  intros Hm. rewrite !recommend_courses_as_ranked. unfold ranked, slice_to.
  destruct (Z.ltb_spec m 0); [lia|]. destruct (Z.ltb_spec m' 0); [lia|].
  rewrite <- with_priorities_take, take_take.
  rewrite Nat.min_l by lia. reflexivity.
Qed.

(** X15. A limit of 0 gives the empty list and a negative limit drops
    that many recommendations from the end of the ranking: a limit that
    is not positive is not rejected. *)
Theorem non_positive_limit (courses : list Course)
    (user_background : string) (interests : list string)
    (program_filter : option string) (max_recommendations : Z) :
  max_recommendations <= 0 ->
  Z.of_nat (length (recommend_courses courses user_background interests
                      program_filter max_recommendations))
  = if max_recommendations =? 0 then 0
    else Z.max 0 (Z.of_nat (length (get_elective_courses courses program_filter))
                  + max_recommendations).
Proof.
  intros Hle. rewrite recommend_courses_as_ranked. unfold ranked, slice_to.
  rewrite with_priorities_length.
  destruct (Z.ltb_spec max_recommendations 0);
    rewrite length_take, (Permutation_length (sort_reverse_perm _ _)), length_fmap;
    destruct (Z.eqb_spec max_recommendations 0); lia.
Qed.
End RankedFacts.

(** ** The study plan beyond the horizon rules *)

Lemma plan_loop_placeable (semesters : Z)
    (recommendations : list CourseRecommendation) (plan : gmap Z (list Course)) :
  (forall t, is_Some (plan !! t) <-> 1 <= t <= semesters) ->
  Forall (fun rec => ~ unplaceable semesters rec) recommendations ->
  exists plan',
    plan_loop semesters plan recommendations = Ok plan'
    /\ forall t, plan' !! t
                 = (fun bucket => bucket ++ courses_of_term t recommendations)
                     <$> plan !! t.
Proof.
  intros Hdom Hok. revert plan Hdom.
  induction Hok as [|rec recs Hrec Hok IH]; intros plan Hdom.
  - exists plan. split; [reflexivity|]. intros t.
    unfold courses_of_term. cbn. destruct (plan !! t); cbn; [|reflexivity].
    rewrite app_nil_r. reflexivity.
  - cbn [plan_loop]. unfold plan_step.
    destruct (Z.leb_spec (semester (course rec)) semesters) as [Hle|Hgt].
    + assert (Hone : 1 <= semester (course rec))
        by (unfold unplaceable in Hrec; lia).
      destruct (proj2 (Hdom (semester (course rec))) (conj Hone Hle))
        as [bucket Hbucket].
      rewrite Hbucket. cbn [mbind result_bind].
      destruct (IH (<[semester (course rec) := bucket ++ [course rec]]> plan))
        as (plan' & Hloop & Hplan').
      { intros t. destruct (decide (semester (course rec) = t)) as [<-|Hne].
        - rewrite lookup_insert_eq. split; [lia | eauto].
        - rewrite lookup_insert_ne by exact Hne. apply Hdom. }
      exists plan'. split; [exact Hloop|]. intros t. rewrite Hplan'.
      unfold courses_of_term. cbn [List.filter].
      destruct (decide (semester (course rec) = t)) as [<-|Hne].
      * rewrite lookup_insert_eq, Hbucket, Z.eqb_refl. cbn.
        rewrite <- app_assoc. reflexivity.
      * rewrite lookup_insert_ne by exact Hne.
        rewrite (proj2 (Z.eqb_neq _ _) Hne). reflexivity.
    + cbn [mbind result_bind].
      destruct (IH plan Hdom) as (plan' & Hloop & Hplan').
      exists plan'. split; [exact Hloop|]. intros t. rewrite Hplan'.
      unfold courses_of_term. cbn [List.filter].
      destruct (Z.eqb_spec (semester (course rec)) t) as [E|Hne]; [|reflexivity].
      assert (plan !! t = None) as ->; [|reflexivity].
      apply eq_None_not_Some. rewrite Hdom. lia.
Qed.

Lemma plan_loop_unplaceable (semesters : Z)
    (recommendations : list CourseRecommendation) (plan : gmap Z (list Course)) :
  (forall t, is_Some (plan !! t) <-> 1 <= t <= semesters) ->
  Exists (unplaceable semesters) recommendations ->
  plan_loop semesters plan recommendations = Raise KeyError.
Proof.
  intros Hdom Hex. revert plan Hdom.
  induction recommendations as [|rec recs IH]; intros plan Hdom; [inversion Hex|].
  cbn [plan_loop]. unfold plan_step.
  destruct (Z.leb_spec (semester (course rec)) semesters) as [Hle|Hgt].
  - destruct (plan !! semester (course rec)) as [bucket|] eqn:Hbucket;
      [|reflexivity].
    cbn [mbind result_bind].
    assert (Hone : 1 <= semester (course rec) <= semesters)
      by (apply Hdom; rewrite Hbucket; eauto).
    apply IH.
    + apply Exists_cons in Hex as [[_ Hlow] | Hex]; [lia | exact Hex].
    + intros t. destruct (decide (semester (course rec) = t)) as [<-|Hne].
      * rewrite lookup_insert_eq. split; [lia | eauto].
      * rewrite lookup_insert_ne by exact Hne. apply Hdom.
  - cbn [mbind result_bind]. apply IH; [|exact Hdom].
    apply Exists_cons in Hex as [[Hle _] | Hex]; [lia | exact Hex].
Qed.

Lemma empty_plan_keys (semesters t : Z) :
  is_Some (empty_plan semesters !! t) <-> 1 <= t <= semesters.
Proof.
  rewrite empty_plan_lookup. case_bool_decide; split; eauto; try tauto.
  intros [? ?]. discriminate.
Qed.

(** The two outcomes of [get_study_plan]. *)
Lemma study_plan_cases (recommendations : list CourseRecommendation)
    (semesters : Z) :
  (Exists (unplaceable semesters) recommendations
   /\ get_study_plan recommendations semesters = Raise KeyError)
  \/ (Forall (fun rec => ~ unplaceable semesters rec) recommendations
      /\ exists plan,
           get_study_plan recommendations semesters = Ok plan
           /\ (forall t, is_Some (plan !! t) <-> 1 <= t <= semesters)
           /\ (forall t, 1 <= t <= semesters ->
                 plan !! t = Some (courses_of_term t recommendations))).
Proof.
  unfold get_study_plan.
  destruct (decide (Exists (unplaceable semesters) recommendations)) as [Hex|Hno].
  - left. split; [exact Hex|].
    apply (plan_loop_unplaceable _ _ _ (empty_plan_keys semesters) Hex).
  - right. apply not_Exists_Forall in Hno; [|intros rec; apply unplaceable_dec].
    split; [exact Hno|].
    destruct (plan_loop_placeable _ _ _ (empty_plan_keys semesters) Hno)
      as (plan' & Hloop & Hplan').
    exists plan'. split; [exact Hloop|]. split.
    + intros t. rewrite Hplan', fmap_is_Some. apply empty_plan_keys.
    + intros t Ht. rewrite Hplan', empty_plan_lookup.
      rewrite bool_decide_eq_true_2 by exact Ht. reflexivity.
Qed.

(** X16. The study plan raises [KeyError] exactly when a recommendation
    has a term that is within the horizon and below 1; every plan that is
    returned, for any horizon, has the keys 1, ..., [H] and holds in
    bucket [t] the courses of term [t] in input order. *)
Theorem study_plan_result (recommendations : list CourseRecommendation)
    (semesters : Z) :
  (get_study_plan recommendations semesters = Raise KeyError
   <-> Exists (unplaceable semesters) recommendations)
  /\ forall plan,
       get_study_plan recommendations semesters = Ok plan ->
       (forall t, is_Some (plan !! t) <-> 1 <= t <= semesters)
       /\ (forall t, 1 <= t <= semesters ->
             plan !! t = Some (courses_of_term t recommendations)).
Proof.
  destruct (study_plan_cases recommendations semesters)
    as [[Hex Hraise] | (Hok & plan' & Hplan' & Hdom & Hbuckets)].
  - rewrite Hraise. split; [tauto | discriminate].
  - rewrite Hplan'. split.
    + split; [discriminate|]. intros Hex. exfalso.
      apply Exists_exists in Hex as (rec & Hin & Hbad).
      rewrite Forall_forall in Hok. exact (Hok rec Hin Hbad).
    + intros plan [= <-]. split; assumption.
Qed.

Lemma plan_items_buckets (plan : gmap Z (list Course)) (semesters : Z)
    (bucket : Z -> list Course) :
  (forall t, 1 <= t <= semesters -> plan !! t = Some (bucket t)) ->
  plan_items plan semesters = (fun t => (t, bucket t)) <$> seqZ 1 semesters.
Proof.
  intros Hplan. unfold plan_items.
  assert (G : forall keys, Forall (fun t => 1 <= t <= semesters) keys ->
    omap (fun semester => (fun courses => (semester, courses)) <$> plan !! semester)
      keys = (fun t => (t, bucket t)) <$> keys).
  { induction 1 as [|t keys Ht _ IH]; [reflexivity|].
    cbn [omap list_omap]. rewrite (Hplan t Ht). cbn. rewrite IH. reflexivity. }
  apply G, Forall_forall. intros t Ht. apply elem_of_seqZ in Ht. lia.
Qed.

Lemma buckets_partition (keys : list Z)
    (recommendations : list CourseRecommendation) :
  NoDup keys ->
  concat ((fun t => courses_of_term t recommendations) <$> keys)
  ≡ₚ course <$> List.filter (fun rec => bool_decide (semester (course rec) ∈ keys))
                  recommendations.
Proof.
  intros Hnd. induction recommendations as [|rec recs IH].
  - cbn. induction keys as [|t keys IHk]; [reflexivity|].
    cbn. apply IHk. apply NoDup_cons in Hnd as [_ Hnd]. exact Hnd.
  - cbn [List.filter].
    assert (G : forall ks, NoDup ks ->
      concat ((fun t => courses_of_term t (rec :: recs)) <$> ks)
      ≡ₚ (if bool_decide (semester (course rec) ∈ ks) then [course rec] else [])
         ++ concat ((fun t => courses_of_term t recs) <$> ks)).
    { clear. induction ks as [|t ks IHk]; intros Hnd; [reflexivity|].
      apply NoDup_cons in Hnd as [Hnot Hnd]. cbn [fmap list_fmap concat].
      fold (fmap (M:=list) (fun t => courses_of_term t (rec :: recs)) ks).
      fold (fmap (M:=list) (fun t => courses_of_term t recs) ks).
      rewrite (IHk Hnd). unfold courses_of_term at 1 3. cbn [List.filter].
      destruct (Z.eqb_spec (semester (course rec)) t) as [E|Hne].
      - rewrite (bool_decide_eq_true_2 (semester (course rec) ∈ t :: ks))
          by (rewrite E; apply list_elem_of_here).
        rewrite (bool_decide_eq_false_2 (semester (course rec) ∈ ks))
          by (rewrite E; exact Hnot).
        cbn. apply perm_skip. reflexivity.
      - rewrite (bool_decide_ext (semester (course rec) ∈ t :: ks)
                   (semester (course rec) ∈ ks))
          by (rewrite elem_of_cons; tauto).
        destruct (bool_decide (semester (course rec) ∈ ks)); cbn [app].
        + rewrite Permutation_middle. reflexivity.
        + reflexivity. }
    rewrite (G keys Hnd), IH.
    destruct (bool_decide (semester (course rec) ∈ keys)); reflexivity.
Qed.

(** X17. The buckets of a returned plan, taken together, hold the courses
    of exactly the recommendations with a term from 1 to [H], each as
    often as it is recommended: no course in the horizon is lost or
    doubled. *)
Theorem study_plan_partition (recommendations : list CourseRecommendation)
    (semesters : Z) (plan : gmap Z (list Course)) :
  get_study_plan recommendations semesters = Ok plan ->
  concat (snd <$> plan_items plan semesters)
  ≡ₚ course <$> List.filter
                  (fun rec => (1 <=? semester (course rec))
                              && (semester (course rec) <=? semesters))
                  recommendations.
Proof.
  intros Hplan.
  destruct (study_plan_cases recommendations semesters)
    as [[_ Hraise] | (_ & plan' & Hplan' & _ & Hbuckets)];
    [congruence|].
  assert (plan' = plan) as -> by congruence.
  rewrite (plan_items_buckets plan semesters
             (fun t => courses_of_term t recommendations) Hbuckets).
  rewrite <- list_fmap_compose.
  change (snd ∘ (fun t => (t, courses_of_term t recommendations)))
    with (fun t => courses_of_term t recommendations).
  rewrite (buckets_partition _ _ (NoDup_seqZ 1 semesters)).
  assert (Hf : List.filter
                 (fun rec => bool_decide (semester (course rec) ∈ seqZ 1 semesters))
                 recommendations
               = List.filter
                   (fun rec => (1 <=? semester (course rec))
                               && (semester (course rec) <=? semesters))
                   recommendations).
  { apply filter_ext. intros rec.
    rewrite (bool_decide_ext _ (1 <= semester (course rec) <= semesters))
      by (rewrite elem_of_seqZ; lia).
    destruct (Z.leb_spec 1 (semester (course rec))),
      (Z.leb_spec (semester (course rec)) semesters); cbn;
      [apply bool_decide_eq_true_2 | apply bool_decide_eq_false_2
      | apply bool_decide_eq_false_2 | apply bool_decide_eq_false_2]; lia. }
  rewrite Hf. reflexivity.
Qed.

(** ** The report *)

Lemma marker_low (p : Z) : p < -4 -> marker p = Raises IndexError.
Proof.
  intros Hp. unfold marker, py_index.
  destruct (Z.leb_spec p 5); [|lia].
  destruct (Z.leb_spec 0 (p - 1)); [lia|].
  cbn [medals length]. destruct (Z.leb_spec 0 (Z.of_nat 5 + (p - 1))); [lia|].
  reflexivity.
Qed.

Lemma marker_returns (p : Z) : -4 <= p -> exists emoji, marker p = Returns emoji.
Proof.
  intros Hp. unfold marker.
  destruct (Z.leb_spec p 5); [|eauto].
  assert (Hcases : p = -4 \/ p = -3 \/ p = -2 \/ p = -1 \/ p = 0
                   \/ p = 1 \/ p = 2 \/ p = 3 \/ p = 4 \/ p = 5) by lia.
  repeat (destruct Hcases as [-> | Hcases]; [eexists; reflexivity|]).
  subst p. eexists. reflexivity.
Qed.

(** X18. The marker of a recommendation: priorities 1 to 5 take the five
    medals in order, a priority above 5 the bullet; a priority from -4 to
    0 wraps around to the medal of the priority 5 higher (a
    recommendation that was never numbered, priority 0, shows the marker
    of rank 5); a priority below -4 raises [IndexError]. *)
Theorem marker_by_priority (p : Z) :
  (1 <= p <= 5 -> Returns <$> medals !! Z.to_nat (p - 1) = Some (marker p))
  /\ (5 < p -> marker p = Returns "▪️")
  /\ (-4 <= p <= 0 -> marker p = marker (p + 5))
  /\ (p < -4 -> marker p = Raises IndexError).
Proof.
  split; [|split; [|split]].
  - intros Hp.
    assert (Hcases : p = 1 \/ p = 2 \/ p = 3 \/ p = 4 \/ p = 5) by lia.
    repeat (destruct Hcases as [-> | Hcases]; [reflexivity|]).
    subst p. reflexivity.
  - intros Hp. unfold marker. destruct (Z.leb_spec p 5); [lia | reflexivity].
  - intros Hp.
    assert (Hcases : p = -4 \/ p = -3 \/ p = -2 \/ p = -1 \/ p = 0) by lia.
    repeat (destruct Hcases as [-> | Hcases]; [reflexivity|]).
    subst p. reflexivity.
  - apply marker_low.
Qed.

Lemma contains_trans (x y z : string) :
  contains x y = true -> contains y z = true -> contains x z = true.
Proof.
  rewrite !contains_occurrence.
  intros (a & b & ->) (c & d & ->).
  exists (c +:+ a), (b +:+ d). rewrite !append_assoc. reflexivity.
Qed.

Lemma contains_middle (a x b : string) : contains x (a +:+ x +:+ b) = true.
Proof. apply contains_occurrence. eauto. Qed.

Lemma contains_join (sep x : string) (l : list string) :
  In x l -> contains x (join sep l) = true.
Proof.
  unfold join. induction l as [|y l IH]; [intros []|].
  intros [-> | Hin].
  - destruct l as [|z l]; cbn [String.concat].
    + rewrite <- (append_empty_r x) at 2.
      apply (contains_middle "" x "").
    + apply (contains_middle "" x).
  - destruct l as [|z l]; [destruct Hin|]. cbn [String.concat].
    apply (contains_trans _ _ _ (IH Hin)).
    apply contains_occurrence. exists (y +:+ sep), "".
    rewrite append_empty_r, append_assoc. reflexivity.
Qed.

Section ReportFacts.
Context `{FormatPercent}.

Lemma recommendations_lines_low (lines : list string)
    (recommendations : list CourseRecommendation) :
  Exists (fun rec => priority rec < -4) recommendations ->
  recommendations_lines lines recommendations = Raises IndexError.
Proof.
  intros Hex. revert lines.
  induction recommendations as [|rec recs IH]; intros lines; [inversion Hex|].
  cbn [recommendations_lines]. unfold recommendation_lines.
  destruct (Z.lt_ge_cases (priority rec) (-4)) as [Hlow | Hok].
  - rewrite (marker_low _ Hlow). reflexivity.
  - destruct (marker_returns _ Hok) as [emoji ->]. cbn [mbind outcome_bind].
    apply IH. apply Exists_cons in Hex as [Hlow | Hex]; [lia | exact Hex].
Qed.

Lemma recommendations_lines_ok (lines : list string)
    (recommendations : list CourseRecommendation) :
  Forall (fun rec => -4 <= priority rec) recommendations ->
  exists more,
    recommendations_lines lines recommendations = Returns (lines ++ more)
    /\ Forall (fun rec => exists line,
                 In line more /\ contains (name (course rec)) line = true)
         recommendations.
Proof.
  intros Hok. revert lines.
  induction Hok as [|rec recs Hrec Hok IH]; intros lines.
  - exists []. rewrite app_nil_r. split; [reflexivity | constructor].
  - cbn [recommendations_lines]. unfold recommendation_lines.
    destruct (marker_returns _ Hrec) as [emoji ->]. cbn [mbind outcome_bind].
    destruct (IH (lines ++
      [ emoji +:+ " **" +:+ name (course rec) +:+ "**";
        "   📍 Программа: " +:+ program (course rec);
        "   📅 Семестр: " +:+ str_int (semester (course rec));
        "   💡 " +:+ reasoning rec;
        "   📊 Оценка соответствия: " +:+ format_percent (score rec);
        "" ])) as (more & Hmore & Hnames).
    rewrite <- app_assoc in Hmore. eexists. split; [exact Hmore|].
    constructor.
    + eexists. split; [left; reflexivity|].
      apply contains_occurrence. exists (emoji +:+ " **"), "**".
      rewrite append_assoc. reflexivity.
    + eapply Forall_impl; [exact Hnames|].
      intros rec' (line & Hin & Hc). exists line. split; [|exact Hc].
      apply in_or_app. right. exact Hin.
Qed.

(** The outcomes of [format_recommendations] on a non-empty list. *)
Lemma format_recommendations_cases (rec : CourseRecommendation)
    (recs : list CourseRecommendation) (include_plan : bool) :
  (Exists (fun rec => priority rec < -4) (rec :: recs)
   /\ format_recommendations (rec :: recs) include_plan = Raises IndexError)
  \/ (Forall (fun rec => -4 <= priority rec) (rec :: recs)
      /\ include_plan = true
      /\ Exists (unplaceable 4) (rec :: recs)
      /\ format_recommendations (rec :: recs) include_plan
         = Raises (FromPlan KeyError))
  \/ (Forall (fun rec => -4 <= priority rec) (rec :: recs)
      /\ (include_plan = false
          \/ Forall (fun rec => ~ unplaceable 4 rec) (rec :: recs))
      /\ exists rest,
           format_recommendations (rec :: recs) include_plan
           = Returns ("🎯 **Рекомендованные курсы:**" +:+ nl +:+ rest)
           /\ Forall (fun rec =>
                contains (name (course rec))
                  ("🎯 **Рекомендованные курсы:**" +:+ nl +:+ rest) = true)
                (rec :: recs)).
Proof.
  set (recommendations := rec :: recs).
  destruct (decide (Exists (fun rec => priority rec < -4) recommendations))
    as [Hlow | Hok].
  { left. split; [exact Hlow|].
    unfold format_recommendations. subst recommendations.
    rewrite (recommendations_lines_low _ _ Hlow). reflexivity. }
  right.
  assert (Hok' : Forall (fun rec => -4 <= priority rec) recommendations).
  { apply Forall_forall. intros r Hr.
    destruct (Z.lt_ge_cases (priority r) (-4)); [|assumption].
    exfalso. apply Hok, Exists_exists. eauto. }
  destruct (recommendations_lines_ok ["🎯 **Рекомендованные курсы:**" +:+ nl]
              recommendations Hok') as (more & Hlines & Hnames).
  assert (Hjoin : forall extra, exists rest,
    join nl (["🎯 **Рекомендованные курсы:**" +:+ nl] ++ more ++ extra)
    = "🎯 **Рекомендованные курсы:**" +:+ nl +:+ rest
    /\ Forall (fun rec =>
         contains (name (course rec))
           ("🎯 **Рекомендованные курсы:**" +:+ nl +:+ rest) = true)
         recommendations).
  { intros extra. cbn [app].
    destruct (join_cons nl ("🎯 **Рекомендованные курсы:**" +:+ nl)
                (more ++ extra)) as [rest Hrest].
    exists rest.
    assert (E : join nl (("🎯 **Рекомендованные курсы:**" +:+ nl) :: more ++ extra)
                = "🎯 **Рекомендованные курсы:**" +:+ nl +:+ rest).
    { rewrite Hrest. apply append_assoc. }
    split; [exact E|]. rewrite <- E.
    eapply Forall_impl; [exact Hnames|].
    intros r (line & Hin & Hc).
    apply (contains_trans _ _ _ Hc). apply contains_join.
    right. apply in_or_app. left. exact Hin. }
  destruct include_plan.
  - destruct (study_plan_cases recommendations 4)
      as [[Hbad Hraise] | (Hgood & plan & Hplan & _ & _)].
    + left. repeat (split; [assumption || reflexivity|]).
      unfold format_recommendations. subst recommendations.
      rewrite Hlines. cbn [mbind outcome_bind]. unfold plan_section.
      rewrite Hraise. reflexivity.
    + right. split; [exact Hok'|]. split; [right; exact Hgood|].
      destruct (Hjoin ([nl +:+ "📚 **План изучения по семестрам:**" +:+ nl]
                       ++ concat (plan_item_lines <$> plan_items plan 4)))
        as (rest & Hrest & Hall).
      exists rest. split; [|exact Hall].
      unfold format_recommendations. subst recommendations.
      rewrite Hlines. cbn [mbind outcome_bind]. unfold plan_section.
      rewrite Hplan. cbn [mbind outcome_bind].
      rewrite <- Hrest, <- !app_assoc. reflexivity.
  - right. split; [exact Hok'|]. split; [left; reflexivity|].
    destruct (Hjoin []) as (rest & Hrest & Hall).
    exists rest. split; [|exact Hall].
    unfold format_recommendations. subst recommendations.
    rewrite Hlines. cbn [mbind outcome_bind].
    rewrite <- Hrest, app_nil_r. reflexivity.
Qed.

(** X19. On a non-empty list the report raises [IndexError] when a
    priority is below -4; otherwise, with the plan requested, it raises
    the [KeyError] of the plan when a course has a term below 1 (the plan
    is built for the horizon 4); otherwise it returns a text. *)
Theorem format_recommendations_outcome (rec : CourseRecommendation)
    (recs : list CourseRecommendation) (include_plan : bool) :
  (Exists (fun rec => priority rec < -4) (rec :: recs) ->
   format_recommendations (rec :: recs) include_plan = Raises IndexError)
  /\ (Forall (fun rec => -4 <= priority rec) (rec :: recs) ->
      include_plan = true -> Exists (unplaceable 4) (rec :: recs) ->
      format_recommendations (rec :: recs) include_plan
      = Raises (FromPlan KeyError))
  /\ (Forall (fun rec => -4 <= priority rec) (rec :: recs) ->
      include_plan = false
      \/ Forall (fun rec => ~ unplaceable 4 rec) (rec :: recs) ->
      exists text,
        format_recommendations (rec :: recs) include_plan = Returns text).
Proof.
  assert (Hexcl : forall l : list CourseRecommendation,
            Exists (fun rec => priority rec < -4) l ->
            Forall (fun rec => -4 <= priority rec) l -> False).
  { intros l Hex Hall. apply Exists_exists in Hex as (r & Hr & Hlow).
    rewrite Forall_forall in Hall. specialize (Hall r Hr). lia. }
  assert (Hexcl' : forall l : list CourseRecommendation,
            Exists (unplaceable 4) l ->
            Forall (fun rec => ~ unplaceable 4 rec) l -> False).
  { intros l Hex Hall. apply Exists_exists in Hex as (r & Hr & Hbad).
    rewrite Forall_forall in Hall. exact (Hall r Hr Hbad). }
  destruct (format_recommendations_cases rec recs include_plan)
    as [[Hlow E] | [(Hok & Hplan & Hbad & E) | (Hok & Hgood & rest & E & _)]];
    rewrite E.
  - split; [reflexivity|]. split; intros Hok; exfalso; eauto.
  - split; [intros Hlow; exfalso; eauto|]. split; [reflexivity|].
    intros _ [Hno | Hgood]; [congruence | exfalso; eauto].
  - split; [intros Hlow; exfalso; eauto|]. split; [|eauto].
    intros _ Hplan Hbad. destruct Hgood as [Hno | Hgood];
      [congruence | exfalso; eauto].
Qed.

(** X20. A report that is returned for a non-empty list opens with the
    header and names every recommended course; the "no recommendations"
    message is returned for the empty list and for no other. *)
Theorem format_recommendations_text (recommendations : list CourseRecommendation)
    (include_plan : bool) (text : string) :
  format_recommendations recommendations include_plan = Returns text ->
  (recommendations = []
   <-> text = "К сожалению, не удалось подобрать рекомендации. Попробуйте уточнить ваши интересы.")
  /\ (recommendations <> [] ->
      (exists rest, text = "🎯 **Рекомендованные курсы:**" +:+ nl +:+ rest)
      /\ Forall (fun rec => contains (name (course rec)) text = true)
           recommendations).
Proof.
  destruct recommendations as [|rec recs].
  - cbn. intros [= <-]. split; [tauto | congruence].
  - intros Htext.
    destruct (format_recommendations_cases rec recs include_plan)
      as [[_ E] | [(_ & _ & _ & E) | (_ & _ & rest & E & Hall)]];
      rewrite E in Htext; try discriminate Htext.
    injection Htext as <-. split.
    + split; [discriminate|]. intros Hmsg. discriminate Hmsg.
    + intros _. split; [eauto | exact Hall].
Qed.
End ReportFacts.

(** ** The report of a ranking *)

Lemma with_priorities_above (i : Z) (l : list CourseRecommendation) :
  Forall (fun rec => i < priority rec) (with_priorities i l).
Proof.
  revert i. induction l as [|x l IH]; intros i; cbn [with_priorities];
    constructor.
  - cbn. lia.
  - eapply Forall_impl; [apply IH|]. cbn. intros rec Hrec. lia.
Qed.

Section ReportOfRanking.
Context `{StrLower} `{FormatPercent}.

Lemma ranking_priorities (courses : list Course) (user_background : string)
    (interests : list string) (program_filter : option string)
    (max_recommendations : Z) :
  Forall (fun rec => 1 <= priority rec)
    (recommend_courses courses user_background interests program_filter
       max_recommendations).
Proof.
  rewrite recommend_courses_as_ranked. unfold ranked.
  eapply Forall_impl; [apply with_priorities_above|]. cbn. intros rec Hrec. lia.
Qed.

Lemma ranking_terms (courses : list Course) (user_background : string)
    (interests : list string) (program_filter : option string)
    (max_recommendations : Z) :
  Forall (fun c => 1 <= semester c) courses ->
  Forall (fun rec => ~ unplaceable 4 rec)
    (recommend_courses courses user_background interests program_filter
       max_recommendations).
Proof.
  intros Hterms. rewrite recommend_courses_as_ranked. unfold ranked.
  apply Forall_forall. intros y Hy.
  apply with_priorities_elem in Hy as (x & Hx & Hcourse & _).
  destruct (slice_to_take (sort_reverse score
              (scored (from_background user_background) interests
               <$> get_elective_courses courses program_filter))
              max_recommendations) as [k Hk].
  rewrite Hk in Hx.
  assert (Hin : x ∈ sort_reverse score
                  (scored (from_background user_background) interests
                   <$> get_elective_courses courses program_filter))
    by (eapply elem_of_sublist; [exact Hx | apply sublist_take]).
  apply scored_fields in Hin as (Hin & _).
  assert (Hc : course x ∈ courses) by (eapply elective_in_catalog, Hin).
  rewrite Forall_forall in Hterms. specialize (Hterms _ Hc).
  unfold unplaceable. rewrite Hcourse. lia.
Qed.

(** X21. The report of a ranking never fails on a priority: the ranker
    numbers from 1.  With a catalog whose terms are all at least 1 it
    returns a text for every background, interest list, filter and limit,
    with or without the plan. *)
Theorem report_of_ranking (courses : list Course) (user_background : string)
    (interests : list string) (program_filter : option string)
    (max_recommendations : Z) (include_plan : bool) :
  format_recommendations
    (recommend_courses courses user_background interests program_filter
       max_recommendations) include_plan
  <> Raises IndexError
  /\ (Forall (fun c => 1 <= semester c) courses ->
      exists text,
        format_recommendations
          (recommend_courses courses user_background interests program_filter
             max_recommendations) include_plan
        = Returns text).
Proof.
  pose proof (ranking_priorities courses user_background interests
                program_filter max_recommendations) as Hprio.
  pose proof (ranking_terms courses user_background interests
                program_filter max_recommendations) as Hterms.
  destruct (recommend_courses courses user_background interests program_filter
              max_recommendations) as [|rec recs].
  { split; [discriminate | eauto]. }
  destruct (format_recommendations_cases rec recs include_plan)
    as [[Hlow E] | [(_ & _ & Hbad & E) | (_ & _ & rest & E & _)]]; rewrite E.
  - exfalso. apply Exists_exists in Hlow as (r & Hr & Hlow).
    rewrite Forall_forall in Hprio. specialize (Hprio r Hr). lia.
  - split; [discriminate|]. intros Hall. exfalso.
    apply Exists_exists in Hbad as (r & Hr & Hbad).
    specialize (Hterms Hall). rewrite Forall_forall in Hterms.
    exact (Hterms r Hr Hbad).
  - split; [discriminate | eauto].
Qed.

(** X22. [get_course_recommendations] on a catalog whose terms are all at
    least 1 always returns a text: the answer of the fallback search when
    no elective passes the filter; otherwise the report of the five best
    electives, or what the language model made of it when it is asked and
    answers.  A failure of the language model never reaches the
    caller. *)
Theorem course_recommendations_answer (courses : list Course)
    (fallback : list string -> option string -> string)
    (enrich : string -> string -> list string -> option string)
    (user_background : string) (interests : list string)
    (program_filter : option string) (use_llm : bool) :
  Forall (fun c => 1 <= semester c) courses ->
  match get_elective_courses courses program_filter with
  | [] =>
      get_course_recommendations courses fallback enrich user_background
        interests program_filter use_llm
      = Returns (fallback interests program_filter)
  | _ :: _ =>
      exists base,
        format_recommendations
          (recommend_courses courses user_background interests
             program_filter 5) true = Returns base
        /\ get_course_recommendations courses fallback enrich user_background
             interests program_filter use_llm
           = Returns (if use_llm
                      then default base (enrich base user_background interests)
                      else base)
  end.
Proof.
  intros Hterms. unfold get_course_recommendations.
  pose proof (ranking_priorities courses user_background interests
                program_filter 5) as Hprio.
  pose proof (ranking_terms courses user_background interests
                program_filter 5 Hterms) as Hplace.
  assert (Hlen : length (recommend_courses courses user_background interests
                           program_filter 5)
                 = Nat.min 5 (length (get_elective_courses courses program_filter))).
  { rewrite recommend_courses_as_ranked. unfold ranked, slice_to. cbn.
    rewrite with_priorities_length, length_take.
    rewrite (Permutation_length (sort_reverse_perm _ _)), length_fmap.
    reflexivity. }
  destruct (get_elective_courses courses program_filter) as [|c electives].
  - destruct (recommend_courses courses user_background interests
                program_filter 5); [reflexivity | discriminate Hlen].
  - destruct (recommend_courses courses user_background interests
                program_filter 5) as [|rec recs]; [discriminate Hlen|].
    destruct (format_recommendations_cases rec recs true)
      as [[Hlow E] | [(_ & _ & Hbad & E) | (_ & _ & rest & E & _)]].
    + exfalso. apply Exists_exists in Hlow as (r & Hr & Hlow).
      rewrite Forall_forall in Hprio. specialize (Hprio r Hr). lia.
    + exfalso. apply Exists_exists in Hbad as (r & Hr & Hbad).
      rewrite Forall_forall in Hplace. exact (Hplace r Hr Hbad).
    + eexists. split; [exact E|]. rewrite E. cbn [mbind outcome_bind].
      destruct use_llm; [|reflexivity].
      destruct (enrich _ user_background interests); reflexivity.
Qed.
End ReportOfRanking.

(** ** The notes of the reasoning *)

Lemma Qle_bool_ratio_l (a b p : Z) (q : positive) :
  0 < b ->
  Qle_bool (inject_Z a / inject_Z b) (p # q) = (a * Zpos q <=? p * b).
Proof.
  intros Hb. destruct b as [|b|b]; try lia.
  unfold Qle_bool, Qdiv, Qmult, Qinv, inject_Z. cbn [Qnum Qden].
  rewrite Z.mul_1_r, Pos.mul_1_l. reflexivity.
Qed.

Lemma Qle_bool_ratio_r (a b p : Z) (q : positive) :
  0 < b ->
  Qle_bool (p # q) (inject_Z a / inject_Z b) = (p * b <=? a * Zpos q).
Proof.
  intros Hb. destruct b as [|b|b]; try lia.
  unfold Qle_bool, Qdiv, Qmult, Qinv, inject_Z. cbn [Qnum Qden].
  rewrite Z.mul_1_r, Pos.mul_1_l. reflexivity.
Qed.

Lemma Qgtb_capped (x : Q) : Qgtb (Qmin x 1) 0.7 = Qgtb x 0.7.
Proof.
  unfold Qgtb. f_equal. apply eq_iff_eq_true.
  rewrite !Qle_bool_iff, Q.min_le_iff. split; [|auto].
  intros [Hx | Hone]; [exact Hx|]. exfalso. apply Hone. reflexivity.
Qed.

Section ReasonFacts.
Context `{StrLower}.

Lemma readiness_good (course : Course) (user_skills : UserSkills) :
  Qgtb (_check_prerequisites course user_skills) 0.7
  = (Z.of_nat (length (prerequisites course)) =? 0)
    || (7 * Z.of_nat (length (prerequisites course))
        <? 10 * Z.of_nat (length (List.filter (credited user_skills)
                                    (prerequisites course)))).
Proof.
  rewrite check_prerequisites_fraction. unfold fraction.
  destruct (prerequisites course) as [|p labels]; [reflexivity|].
  unfold Qgtb. rewrite Qle_bool_ratio_l by (cbn [length]; lia).
  set (n := Z.of_nat (length (p :: labels))).
  set (met := Z.of_nat (length (List.filter (credited user_skills) (p :: labels)))).
  assert (Hn : 0 < n) by (subst n; cbn [length]; lia).
  destruct (Z.eqb_spec n 0); [lia|]. cbn [orb].
  destruct (Z.leb_spec (met * 10) (7 * n)), (Z.ltb_spec (7 * n) (10 * met));
    cbn; try reflexivity; lia.
Qed.

Lemma readiness_low (course : Course) (user_skills : UserSkills) :
  Qltb (_check_prerequisites course user_skills) 0.3
  = negb (Z.of_nat (length (prerequisites course)) =? 0)
    && (10 * Z.of_nat (length (List.filter (credited user_skills)
                                 (prerequisites course)))
        <? 3 * Z.of_nat (length (prerequisites course))).
Proof.
  rewrite check_prerequisites_fraction. unfold fraction.
  destruct (prerequisites course) as [|p labels]; [reflexivity|].
  unfold Qltb. rewrite Qle_bool_ratio_r by (cbn [length]; lia).
  set (n := Z.of_nat (length (p :: labels))).
  set (met := Z.of_nat (length (List.filter (credited user_skills) (p :: labels)))).
  assert (Hn : 0 < n) by (subst n; cbn [length]; lia).
  destruct (Z.eqb_spec n 0); [lia|]. cbn [negb andb].
  destruct (Z.leb_spec (3 * n) (met * 10)), (Z.ltb_spec (10 * met) (3 * n));
    cbn; try reflexivity; lia.
Qed.

Lemma growth_high (course : Course) (user_skills : UserSkills) :
  Qgtb (_calculate_growth_potential course user_skills) 0.7
  = match skills_gained course with [] => false | _ :: _ => true end
    && (2 <=? Z.of_nat (length (open_growth_areas course user_skills))).
Proof.
  destruct (skills_gained course) as [|label labels] eqn:E.
  - unfold _calculate_growth_potential. rewrite E. reflexivity.
  - rewrite growth_potential_count by congruence.
    rewrite Qgtb_capped. unfold Qgtb. change 2%Q with (inject_Z 2).
    rewrite Qle_bool_ratio_l by lia. cbn [andb].
    set (k := Z.of_nat (length (open_growth_areas course user_skills))).
    destruct (Z.leb_spec (k * 10) (7 * 2)), (Z.leb_spec 2 k);
      cbn; try reflexivity; lia.
Qed.

Lemma career_high (course : Course) :
  Qgtb (_calculate_career_value course) 0.7 = (3 <=? career_hits course).
Proof.
  unfold _calculate_career_value. fold (career_hits course).
  rewrite Qgtb_capped. unfold Qgtb. change 3%Q with (inject_Z 3).
  rewrite Qle_bool_ratio_l by lia.
  destruct (Z.leb_spec (career_hits course * 10) (7 * 3)),
    (Z.leb_spec 3 (career_hits course)); cbn; try reflexivity; lia.
Qed.

(** X23. The reasoning is made of the notes the counts call for, joined
    by "; " in the order interests, readiness, growth, market demand, and
    is the generic "Общий выборный курс" when none applies. *)
Theorem reasoning_by_counts (course : Course) (user_skills : UserSkills)
    (interests : list string) :
  snd (_score_course course user_skills interests)
  = match reason_clauses course user_skills interests with
    | [] => "Общий выборный курс"
    | _ :: _ => join "; " (reason_clauses course user_skills interests)
    end.
Proof.
  unfold _score_course, reason_clauses.
  pose proof (interest_loop_matches course interests) as Hm.
  destruct (interest_loop course interests) as [q matched]. cbn [snd] in Hm.
  subst matched. cbv zeta.
  rewrite readiness_good, readiness_low, growth_high, career_high.
  generalize (match skills_gained course with [] => false | _ :: _ => true end
              && (2 <=? Z.of_nat (length (open_growth_areas course user_skills)))).
  intros grows.
  generalize (Z.of_nat (length (prerequisites course)) =? 0). intros none.
  repeat match goal with
         | |- context [?a <? ?b] => generalize (a <? b); intros ?
         | |- context [?a <=? ?b] => generalize (a <=? b); intros ?
         end.
  destruct (List.filter (interest_matches_course course) interests);
    repeat match goal with
           | b : bool |- _ => destruct b
           end; reflexivity.
Qed.
End ReasonFacts.

(** ** The further properties at concrete inputs *)

Lemma interest_subscore_two_valued_witness :
  (interest_subscore course_nlp ["NLP"; "зрение"] == 0.4)%Q.
Proof.
  apply (interest_subscore_two_valued course_nlp ["NLP"; "зрение"]).
  exists "NLP". split; [left; reflexivity | reflexivity].
Defined.

Lemma interest_and_readiness_outrank_witness :
  existsb (interest_matches_course course_nlp) ["NLP"] = true
  /\ (_check_prerequisites course_nlp (from_background "PyTorch") == 1)%Q
  /\ existsb (interest_matches_course course_two_groups) ["NLP"] = false
  /\ (fst (_score_course course_two_groups (from_background "PyTorch") ["NLP"])
      < fst (_score_course course_nlp (from_background "PyTorch") ["NLP"]))%Q.
Proof.
  assert (H1 : existsb (interest_matches_course course_nlp) ["NLP"] = true)
    by reflexivity.
  assert (H2 : (_check_prerequisites course_nlp (from_background "PyTorch") == 1)%Q)
    by reflexivity.
  assert (H3 : existsb (interest_matches_course course_two_groups) ["NLP"] = false)
    by reflexivity.
  split; [exact H1|]. split; [exact H2|]. split; [exact H3|].
  exact (interest_and_readiness_outrank course_nlp course_two_groups
           (from_background "PyTorch") ["NLP"] H1 H2 H3).
Defined.

Lemma default_least_skilled (u : UserSkills) : at_least_as_skilled default_skills u.
Proof. intros d. destruct d; discriminate. Defined.

Lemma readiness_monotone_witness :
  at_least_as_skilled default_skills (from_background "PyTorch")
  /\ (_check_prerequisites course_nlp default_skills
      <= _check_prerequisites course_nlp (from_background "PyTorch"))%Q.
Proof.
  split; [apply default_least_skilled|].
  apply (readiness_monotone course_nlp default_skills (from_background "PyTorch")).
  apply default_least_skilled.
Defined.

Lemma growth_potential_antitone_witness :
  at_least_as_skilled default_skills (from_background "NLP, Docker")
  /\ (_calculate_growth_potential course_nlp (from_background "NLP, Docker")
      <= _calculate_growth_potential course_nlp default_skills)%Q.
Proof.
  split; [apply default_least_skilled|].
  apply (growth_potential_antitone course_nlp default_skills
           (from_background "NLP, Docker")).
  apply default_least_skilled.
Defined.

Lemma from_background_levels_used_witness :
  level_of (from_background "Senior Питон-разработчик, МЕХМАТ") Python = ADVANCED
  /\ (Python = Python \/ Python = Math).
Proof.
  split; [reflexivity|].
  apply (from_background_levels_used "Senior Питон-разработчик, МЕХМАТ" Python).
  reflexivity.
Defined.



Lemma first_recommendation_is_best_witness :
  0 < 3
  /\ match recommend_courses _get_default_courses "Python, машинное обучение"
             ["NLP"] None 3 with
     | [] => get_elective_courses _get_default_courses None = []
     | rec :: _ =>
         Forall (fun c =>
           (fst (_score_course c (from_background "Python, машинное обучение")
                   ["NLP"]) <= score rec)%Q)
           (get_elective_courses _get_default_courses None)
     end.
Proof.
  split; [reflexivity|].
  apply (first_recommendation_is_best _get_default_courses
           "Python, машинное обучение" ["NLP"] None 3).
  reflexivity.
Defined.

Lemma smaller_limit_is_prefix_witness :
  0 <= 2 <= 5
  /\ recommend_courses _get_default_courses "Python, машинное обучение"
       ["NLP"] None 2
     = take (Z.to_nat 2)
         (recommend_courses _get_default_courses "Python, машинное обучение"
            ["NLP"] None 5).
Proof.
  assert (Hm : 0 <= 2 <= 5) by (split; discriminate).
  split; [exact Hm|].
  exact (smaller_limit_is_prefix _get_default_courses
           "Python, машинное обучение" ["NLP"] None 2 5 Hm).
Defined.

Lemma non_positive_limit_witness :
  -1 <= 0
  /\ Z.of_nat (length (recommend_courses _get_default_courses "" [] None (-1)))
     = Z.max 0 (Z.of_nat (length (get_elective_courses _get_default_courses None))
                + -1).
Proof.
  assert (Hle : -1 <= 0) by discriminate.
  split; [exact Hle|].
  exact (non_positive_limit _get_default_courses "" [] None (-1) Hle).
Defined.

Lemma study_plan_result_witness :
  Exists (unplaceable 2)
    [mkCourseRecommendation course_term_zero (3 # 10) "Общий выборный курс" 1]
  /\ get_study_plan
       [mkCourseRecommendation course_term_zero (3 # 10) "Общий выборный курс" 1] 2
     = Raise KeyError.
Proof.
  assert (Hbad : Exists (unplaceable 2)
            [mkCourseRecommendation course_term_zero (3 # 10) "Общий выборный курс" 1]).
  { left. split; [discriminate | reflexivity]. }
  split; [exact Hbad|].
  apply (study_plan_result
           [mkCourseRecommendation course_term_zero (3 # 10) "Общий выборный курс" 1] 2).
  exact Hbad.
Defined.

Lemma study_plan_partition_witness :
  get_study_plan sample_recommendations 2
  = Ok (match get_study_plan sample_recommendations 2 with
        | Ok plan => plan
        | Raise _ => ∅
        end)
  /\ concat (snd <$> plan_items
                       (match get_study_plan sample_recommendations 2 with
                        | Ok plan => plan
                        | Raise _ => ∅
                        end) 2)
     ≡ₚ course <$> List.filter
                     (fun rec => (1 <=? semester (course rec))
                                 && (semester (course rec) <=? 2))
                     sample_recommendations.
Proof.
  assert (Hplan : get_study_plan sample_recommendations 2
                  = Ok (match get_study_plan sample_recommendations 2 with
                        | Ok plan => plan
                        | Raise _ => ∅
                        end)) by (vm_compute; reflexivity).
  split; [exact Hplan|].
  exact (study_plan_partition sample_recommendations 2 _ Hplan).
Defined.

Lemma marker_by_priority_witness :
  -4 <= 0 <= 0 /\ marker 0 = marker (0 + 5) /\ marker 0 = Returns "5️⃣".
Proof.
  assert (Hp : -4 <= 0 <= 0) by (split; discriminate).
  split; [exact Hp|]. split; [|reflexivity].
  apply (marker_by_priority 0). exact Hp.
Defined.

Lemma format_recommendations_outcome_witness :
  Exists (fun rec => priority rec < -4) [recommendation_priority_low]
  /\ format_recommendations [recommendation_priority_low] true = Raises IndexError.
Proof.
  assert (Hlow : Exists (fun rec => priority rec < -4) [recommendation_priority_low])
    by (left; reflexivity).
  split; [exact Hlow|].
  apply (format_recommendations_outcome recommendation_priority_low [] true).
  exact Hlow.
Defined.

Lemma format_recommendations_text_witness :
  format_recommendations sample_recommendations true
  = Returns (match format_recommendations sample_recommendations true with
             | Returns text => text
             | Raises _ => ""
             end)
  /\ Forall (fun rec =>
       contains (name (course rec))
         (match format_recommendations sample_recommendations true with
          | Returns text => text
          | Raises _ => ""
          end) = true) sample_recommendations.
Proof.
  assert (Htext : format_recommendations sample_recommendations true
                  = Returns (match format_recommendations sample_recommendations true with
                             | Returns text => text
                             | Raises _ => ""
                             end)) by (vm_compute; reflexivity).
  split; [exact Htext|].
  apply (format_recommendations_text sample_recommendations true _ Htext).
  discriminate.
Defined.

Lemma seed_terms : Forall (fun c => 1 <= semester c) _get_default_courses.
Proof. repeat constructor; discriminate. Defined.

Lemma report_of_ranking_witness :
  Forall (fun c => 1 <= semester c) _get_default_courses
  /\ exists text,
       format_recommendations
         (recommend_courses _get_default_courses "Python, машинное обучение"
            ["NLP"] None 5) true
       = Returns text.
Proof.
  split; [exact seed_terms|].
  apply (report_of_ranking _get_default_courses "Python, машинное обучение"
           ["NLP"] None 5 true).
  exact seed_terms.
Defined.

Lemma course_recommendations_answer_witness :
  Forall (fun c => 1 <= semester c) _get_default_courses
  /\ get_course_recommendations _get_default_courses
       (fun _ _ => "нет рекомендаций") (fun _ _ _ => None)
       "Python" ["NLP"] (Some "робототехника") true
     = Returns "нет рекомендаций".
Proof.
  split; [exact seed_terms|].
  exact (course_recommendations_answer _get_default_courses
           (fun _ _ => "нет рекомендаций") (fun _ _ _ => None)
           "Python" ["NLP"] (Some "робототехника") true seed_terms).
Defined.

(** The loader on the sample directories: typed entries give the
    instances of their courses; a file of the scraper gives a course whose
    description is [None], which is not of the declared type, and whose
    lists are empty; a document that is not an object and a file that is
    not UTF-8 text make the loader raise. *)
Example load_courses_examples :
  _load_courses sample_files
  = Ok (course_object <$> omap entry_course sample_entries)
  /\ _load_courses scraped_files
     = Ok [mkCourseObject (JString "MLOps") (JString "AI") (JInt 3)
             (JString "обязательная") (JInt 3) JNull (JArray []) (JArray [])
             (JString "medium")]
  /\ (forall courses, _load_courses scraped_files = Ok courses ->
        as_course <$> courses = [None])
  /\ _load_courses unreadable_files = Raise AttributeError
  /\ _load_courses bad_encoding_files = Raise UnicodeDecodeError.
Proof.
  assert (E : _load_courses scraped_files
              = Ok [mkCourseObject (JString "MLOps") (JString "AI") (JInt 3)
                      (JString "обязательная") (JInt 3) JNull (JArray [])
                      (JArray []) (JString "medium")])
    by (vm_compute; reflexivity).
  split; [vm_compute; reflexivity|]. split; [exact E|].
  split; [|split; vm_compute; reflexivity].
  intros courses Hc. rewrite E in Hc. injection Hc as <-. reflexivity.
Qed.

(** ** The report on the seed catalog *)

Example report_example :
  format_recommendations
    (recommend_courses _get_default_courses "Python, машинное обучение"
       ["NLP"] None 2) false
  = Returns
      (join nl
         [ "🎯 **Рекомендованные курсы:**" +:+ nl;
           "🥇 **Обработка естественного языка**";
           "   📍 Программа: AI";
           "   📅 Семестр: 2";
           "   💡 Соответствует интересам: NLP; Может потребоваться дополнительная подготовка";
           "   📊 Оценка соответствия: 53%";
           "";
           "🥈 **AI Ethics**";
           "   📍 Программа: AI Product";
           "   📅 Семестр: 2";
           "   💡 Хорошая база для этого курса";
           "   📊 Оценка соответствия: 30%";
           "" ]).
Proof. vm_compute. reflexivity. Qed.
